(** * Finance monitoring tool: transaction pipeline

    A shallow embedding of [src/parsers.py], [src/categorizer.py] and
    [src/storage.py], and the properties of the pipeline
    parse -> categorize -> store -> monthly summary.

    Conventions of the embedding.
    - A Python [str] is a [string] holding the UTF-8 bytes of the text.  The
      substring test [a in b] on well-formed UTF-8 agrees with the test on
      code points, because UTF-8 is self-synchronising.
    - A Python [float] amount is an exact rational ([Q]); infinities and NaN
      have no counterpart there.  Module [NonFinite] repeats the store and
      [add_transactions] over amounts that can also be infinite or NaN.
    - A Python [dict] whose iteration order the code relies on is an
      association list in insertion order.
    - A call that raises is a function returning [None].
    - Letter case and white space are those of the ASCII range; the Hebrew
      text of the statements has neither. *)

From Stdlib Require Import ZArith QArith Qabs List String Ascii Bool Lia Lqa.
From Stdlib Require Import DecimalString Permutation Sorted.
Import ListNotations.

Local Open Scope string_scope.
Local Open Scope Z_scope.

(* ================================================================== *)
(** * Python built-ins used by the code *)
(* ================================================================== *)

Module Py.

(** [c.isspace()] on the ASCII range: TAB..CR, FS..US and the blank. *)
Definition is_space (c : ascii) : bool :=
  let n := nat_of_ascii c in
  ((9 <=? n) && (n <=? 13) || (28 <=? n) && (n <=? 32))%nat.

(** [c.lower()]: the letters A..Z are mapped to a..z.  Bytes above 127
    (Hebrew text among them, which has no case) are left as they are. *)
Definition lower_char (c : ascii) : ascii :=
  let n := nat_of_ascii c in
  if ((65 <=? n) && (n <=? 90))%nat then ascii_of_nat (n + 32) else c.

Fixpoint lower (s : string) : string :=
  match s with
  | EmptyString => EmptyString
  | String c r => String (lower_char c) (lower r)
  end.

Fixpoint lstrip (s : string) : string :=
  match s with
  | EmptyString => EmptyString
  | String c r => if is_space c then lstrip r else s
  end.

Fixpoint rstrip (s : string) : string :=
  match s with
  | EmptyString => EmptyString
  | String c r =>
      match rstrip r with
      | EmptyString => if is_space c then EmptyString else String c EmptyString
      | r' => String c r'
      end
  end.

(** [s.strip()] *)
Definition strip (s : string) : string := rstrip (lstrip s).

(** [needle in hay] for two strings. *)
Fixpoint str_in (needle hay : string) : bool :=
  prefix needle hay ||
  match hay with
  | EmptyString => false
  | String _ r => str_in needle r
  end.

(** Truth value of a string: [bool(s)]. *)
Definition truthy (s : string) : bool :=
  match s with EmptyString => false | _ => true end.

(** [x or default] for an optional string: [None] and [''] are falsy. *)
Definition or_else (x : option string) (default : string) : string :=
  match x with
  | Some s => if truthy s then s else default
  | None => default
  end.

(** ** Insertion-ordered dictionaries with string keys *)

Definition dict (V : Type) : Type := list (string * V).

Fixpoint dict_get {V} (d : dict V) (k : string) : option V :=
  match d with
  | [] => None
  | (k', v) :: r => if String.eqb k' k then Some v else dict_get r k
  end.

(** [k in d] *)
Definition dict_mem {V} (d : dict V) (k : string) : bool :=
  match dict_get d k with Some _ => true | None => false end.

(** [d[k] = v]: an existing key keeps its place, a new key goes last. *)
Fixpoint dict_set {V} (d : dict V) (k : string) (v : V) : dict V :=
  match d with
  | [] => [(k, v)]
  | (k', v') :: r =>
      if String.eqb k' k then (k', v) :: r else (k', v') :: dict_set r k v
  end.

End Py.

(* ================================================================== *)
(** * [datetime]: naive timestamps *)
(* ================================================================== *)

Module DateTime.

Record datetime : Type := mk_datetime {
  year : Z; month : Z; day : Z;
  hour : Z; minute : Z; second : Z; microsecond : Z
}.

Definition is_leap (y : Z) : bool :=
  ((y mod 4 =? 0) && negb (y mod 100 =? 0)) || (y mod 400 =? 0).

Definition days_in_month (y m : Z) : Z :=
  if m =? 2 then (if is_leap y then 29 else 28)
  else if (m =? 4) || (m =? 6) || (m =? 9) || (m =? 11) then 30
  else 31.

Definition valid_date (y m d : Z) : bool :=
  (1 <=? y) && (y <=? 9999) && (1 <=? m) && (m <=? 12) &&
  (1 <=? d) && (d <=? days_in_month y m).

Definition valid_time (h mi s us : Z) : bool :=
  (0 <=? h) && (h <? 24) && (0 <=? mi) && (mi <? 60) &&
  (0 <=? s) && (s <? 60) && (0 <=? us) && (us <? 1000000).

Definition valid (d : datetime) : bool :=
  valid_date (year d) (month d) (day d) &&
  valid_time (hour d) (minute d) (second d) (microsecond d).

(** [datetime(y, m, d)]: midnight of the day, [ValueError] out of range. *)
Definition make (y m d : Z) : option datetime :=
  if valid_date y m d then Some (mk_datetime y m d 0 0 0 0) else None.

(** Ordering of naive datetimes: lexicographic on the seven fields. *)
Definition key (d : datetime) : list Z :=
  [year d; month d; day d; hour d; minute d; second d; microsecond d].

Fixpoint lex_ltb (a b : list Z) : bool :=
  match a, b with
  | x :: a', y :: b' => (x <? y) || ((x =? y) && lex_ltb a' b')
  | [], _ :: _ => true
  | _, [] => false
  end.

Definition ltb (a b : datetime) : bool := lex_ltb (key a) (key b).
Definition gtb (a b : datetime) : bool := ltb b a.
Definition leb (a b : datetime) : bool := negb (ltb b a).

Definition eqb (a b : datetime) : bool :=
  (year a =? year b) && (month a =? month b) && (day a =? day b) &&
  (hour a =? hour b) && (minute a =? minute b) && (second a =? second b) &&
  (microsecond a =? microsecond b).

(** ** Decimal digits *)

Definition digit (n : Z) : ascii := ascii_of_nat (48 + Z.to_nat (n mod 10)).

Definition pad2 (n : Z) : string :=
  String (digit (n / 10)) (String (digit n) EmptyString).

Definition pad4 (n : Z) : string :=
  String (digit (n / 1000)) (String (digit (n / 100)) (pad2 n)).

Definition pad6 (n : Z) : string :=
  String (digit (n / 100000)) (String (digit (n / 10000)) (pad4 n)).

Definition is_digit (c : ascii) : bool :=
  let n := nat_of_ascii c in ((48 <=? n) && (n <=? 57))%nat.

Definition digit_val (c : ascii) : Z := Z.of_nat (nat_of_ascii c) - 48.

(** The number written by a non-empty string of digits. *)
Fixpoint digits_acc (acc : Z) (s : string) : option Z :=
  match s with
  | EmptyString => Some acc
  | String c r =>
      if is_digit c then digits_acc (10 * acc + digit_val c) r else None
  end.

Definition number (s : string) : option Z :=
  match s with
  | EmptyString => None
  | _ => digits_acc 0 s
  end.

(** [d.isoformat()]: [YYYY-MM-DDTHH:MM:SS], with [.ffffff] appended when the
    microsecond is not zero. *)
Definition isoformat (d : datetime) : string :=
  pad4 (year d) ++ "-" ++ pad2 (month d) ++ "-" ++ pad2 (day d) ++ "T" ++
  pad2 (hour d) ++ ":" ++ pad2 (minute d) ++ ":" ++ pad2 (second d) ++
  (if microsecond d =? 0 then "" else "." ++ pad6 (microsecond d)).

(** [str(d)] is [d.isoformat(sep=' ')]. *)
Definition str (d : datetime) : string :=
  pad4 (year d) ++ "-" ++ pad2 (month d) ++ "-" ++ pad2 (day d) ++ " " ++
  pad2 (hour d) ++ ":" ++ pad2 (minute d) ++ ":" ++ pad2 (second d) ++
  (if microsecond d =? 0 then "" else "." ++ pad6 (microsecond d)).

Definition checked (d : datetime) : option datetime :=
  if valid d then Some d else None.

(** [datetime.fromisoformat(s)] on the two shapes [isoformat] writes;
    [None] stands for [ValueError]. *)
Definition fromisoformat (s : string) : option datetime :=
  let f (a n : nat) := number (substring a n s) in
  let sep (a : nat) (c : string) := String.eqb (substring a 1 s) c in
  let len := String.length s in
  (if sep 4 "-" && sep 7 "-" && sep 10 "T" && sep 13 ":" && sep 16 ":"
   then
     match f 0 4, f 5 2, f 8 2, f 11 2, f 14 2, f 17 2 with
     | Some y, Some m, Some d, Some h, Some mi, Some sec =>
         if len =? 19 then checked (mk_datetime y m d h mi sec 0)
         else if (len =? 26) && sep 19 "." then
           match f 20 6 with
           | Some us => checked (mk_datetime y m d h mi sec us)
           | None => None
           end
         else None
     | _, _, _, _, _, _ => None
     end
   else None)%nat.

End DateTime.

(* ================================================================== *)
(** * [parsers.py]: the canonical transaction record *)
(* ================================================================== *)

Import DateTime.

(** [x < y] on amounts. *)
Definition Qltb (x y : Q) : bool := negb (Qle_bool y x).

(** [@dataclass class Transaction] *)
Record Transaction : Type := mkTransaction {
  date : datetime;
  description : string;
  amount : Q;
  currency : string;
  source : string;              (* 'bank' or 'credit_card' *)
  source_file : string;
  card_number : option string;
  category : option string
}.

(** The dictionary [Transaction.to_dict] builds and the store keeps: the
    fields of the dataclass, the date as ISO text (or [None]). *)
Record TDict : Type := mkTDict {
  d_date : option string;
  d_description : string;
  d_amount : Q;
  d_currency : string;
  d_source : string;
  d_source_file : string;
  d_card_number : option string;
  d_category : option string
}.

(** [Transaction.to_dict]; a [datetime] is always truthy, so the date is
    always written. *)
Definition to_dict (t : Transaction) : TDict :=
  mkTDict (Some (isoformat (date t))) (description t) (amount t) (currency t)
          (source t) (source_file t) (card_number t) (category t).

(** [Transaction.from_dict].  [None] when [fromisoformat] raises, and also
    for a record without a date: the dataclass would then hold no
    [datetime], and the comparisons in [get_transactions] raise. *)
Definition from_dict (d : TDict) : option Transaction :=
  match d_date d with
  | Some s =>
      if Py.truthy s then
        match fromisoformat s with
        | Some dt =>
            Some (mkTransaction dt (d_description d) (d_amount d)
                    (d_currency d) (d_source d) (d_source_file d)
                    (d_card_number d) (d_category d))
        | None => None
        end
      else None
  | None => None
  end.

(* ================================================================== *)
(** * [storage.py]: the transaction store *)
(* ================================================================== *)

(** The two in-memory lists of [class Storage] and the contents of the two
    JSON files they are saved to. *)
Record Storage : Type := mkStorage {
  _transactions : list TDict;
  _processed_files : list string;
  transactions_file : list TDict;
  processed_files_file : list string
}.

(** A store over an empty data directory. *)
Definition empty_storage : Storage := mkStorage [] [] [] [].

(** [Storage._save] *)
Definition _save (st : Storage) : Storage :=
  mkStorage (_transactions st) (_processed_files st)
            (_transactions st) (_processed_files st).

(** [os.path.basename]: what follows the last slash. *)
Fixpoint basename_acc (acc s : string) : string :=
  match s with
  | EmptyString => acc
  | String c r =>
      if Ascii.eqb c "/" then basename_acc EmptyString r
      else basename_acc (acc ++ String c EmptyString) r
  end.

Definition basename (path : string) : string := basename_acc EmptyString path.

Definition is_file_processed (st : Storage) (file_path : string) : bool :=
  existsb (String.eqb (basename file_path)) (_processed_files st).

Definition mark_file_processed (st : Storage) (file_path : string) : Storage :=
  let file_name := basename file_path in
  if negb (existsb (String.eqb file_name) (_processed_files st)) then
    _save (mkStorage (_transactions st) (_processed_files st ++ [file_name])%list
                     (transactions_file st) (processed_files_file st))
  else st.

Definition opt_string_eqb (a b : option string) : bool :=
  match a, b with
  | Some x, Some y => String.eqb x y
  | None, None => true
  | _, _ => false
  end.

(** The duplicate test of [add_transactions]:
    same date text, same description, amounts closer than 0.01. *)
Definition same_identity (existing t_dict : TDict) : bool :=
  opt_string_eqb (d_date existing) (d_date t_dict) &&
  String.eqb (d_description existing) (d_description t_dict) &&
  Qltb (Qabs (d_amount existing - d_amount t_dict)) (1 # 100).

(** The inner loop: is some stored record a duplicate of [t_dict]? *)
Definition is_duplicate (stored : list TDict) (t_dict : TDict) : bool :=
  existsb (fun existing => same_identity existing t_dict) stored.

(** One turn of the outer loop, on the pair (stored list, added_count). *)
Definition add_one (acc : list TDict * nat) (t : Transaction)
  : list TDict * nat :=
  let t_dict := to_dict t in
  if is_duplicate (fst acc) t_dict then acc
  else ((fst acc ++ [t_dict])%list, S (snd acc)).

(** [Storage.add_transactions]: the added count and the store afterwards. *)
Definition add_transactions (st : Storage) (transactions : list Transaction)
    (source_file : option string) : nat * Storage :=
  let r := fold_left add_one transactions (_transactions st, 0%nat) in
  let st1 := mkStorage (fst r) (_processed_files st)
                       (transactions_file st) (processed_files_file st) in
  let st2 := if (0 <? snd r)%nat then _save st1 else st1 in
  let st3 :=
    match source_file with
    | Some f => if Py.truthy f then mark_file_processed st2 f else st2
    | None => st2
    end in
  (snd r, st3).

(** [result.sort(key=lambda x: x.date)]: the sort is stable, so each element
    goes behind the elements that are not later than it. *)
Fixpoint insert_by_date (t : Transaction) (l : list Transaction)
  : list Transaction :=
  match l with
  | [] => [t]
  | x :: r =>
      if DateTime.ltb (date t) (date x) then t :: l
      else x :: insert_by_date t r
  end.

Definition sort_by_date (l : list Transaction) : list Transaction :=
  fold_left (fun acc t => insert_by_date t acc) l [].

(** The four [continue] tests of [get_transactions]; a filter that is [None]
    or an empty string is falsy and lets everything through. *)
Definition passes (start_date end_date : option datetime)
    (category_f source_f : option string) (t : Transaction) : bool :=
  negb (match start_date with
        | Some s => DateTime.ltb (date t) s
        | None => false
        end) &&
  negb (match end_date with
        | Some e => DateTime.gtb (date t) e
        | None => false
        end) &&
  negb (match category_f with
        | Some c =>
            Py.truthy c && negb (opt_string_eqb (category t) (Some c))
        | None => false
        end) &&
  negb (match source_f with
        | Some s => Py.truthy s && negb (String.eqb (source t) s)
        | None => false
        end).

(** The loop of [get_transactions] before the sort. *)
Fixpoint select (stored : list TDict) (keep : Transaction -> bool)
  : option (list Transaction) :=
  match stored with
  | [] => Some []
  | t_dict :: r =>
      match from_dict t_dict with
      | None => None
      | Some t =>
          match select r keep with
          | None => None
          | Some ts => Some (if keep t then t :: ts else ts)
          end
      end
  end.

(** [Storage.get_transactions] *)
Definition get_transactions (st : Storage)
    (start_date end_date : option datetime)
    (category_f source_f : option string) : option (list Transaction) :=
  match select (_transactions st)
               (passes start_date end_date category_f source_f) with
  | Some result => Some (sort_by_date result)
  | None => None
  end.

(** [date.strftime('%Y-%m')], for a year of four digits. *)
Definition year_month (d : datetime) : string :=
  pad4 (year d) ++ "-" ++ pad2 (month d).

(** [months.add(m)] followed by [sorted(months)], kept as one sorted list
    without repetitions. *)
Fixpoint add_month (m : string) (months : list string) : list string :=
  match months with
  | [] => [m]
  | x :: r =>
      match String.compare m x with
      | Lt => m :: months
      | Eq => months
      | Gt => x :: add_month m r
      end
  end.

(** The loop of [get_months], on the months collected so far. *)
Fixpoint collect_months (stored : list TDict) (months : list string)
  : option (list string) :=
  match stored with
  | [] => Some months
  | t_dict :: r =>
      match d_date t_dict with
      | Some s =>
          if Py.truthy s then
            match fromisoformat s with
            | Some d => collect_months r (add_month (year_month d) months)
            | None => None
            end
          else collect_months r months
      | None => collect_months r months
      end
  end.

(** [Storage.get_months] *)
Definition get_months (st : Storage) : option (list string) :=
  collect_months (_transactions st) [].

(** The fallback category key, the Hebrew word for "other". *)
Definition OTHER : string := "אחר".

(** The issuer names of [_is_credit_card_transfer]. *)
Definition cc_keywords : list string :=
  [ "ישראכרט"; "מקס איט"; "כאל"; "לאומי קארד"; "אמריקן אקספרס"; "דיינרס";
    "visa cal"; "mastercard" ].

(** [Storage._is_credit_card_transfer] *)
Definition _is_credit_card_transfer (transaction : Transaction) : bool :=
  if negb (String.eqb (source transaction) "bank") then false
  else
    let desc_lower := Py.lower (description transaction) in
    existsb (fun keyword =>
               Py.str_in keyword desc_lower ||
               Py.str_in (Py.lower keyword) desc_lower)
            cc_keywords.

(** One entry of a category breakdown: [{'total': .., 'transactions': ..}]. *)
Definition Breakdown : Type := Py.dict (Q * list Transaction).

(** One turn of a "summarize by category" loop; [value] is [abs(t.amount)]
    for expenses and [t.amount] for income. *)
Definition add_to_category (value : Transaction -> Q) (by_category : Breakdown)
    (t : Transaction) : Breakdown :=
  let cat := Py.or_else (category t) OTHER in
  let d := if negb (Py.dict_mem by_category cat)
           then Py.dict_set by_category cat (0%Q, [])
           else by_category in
  match Py.dict_get d cat with
  | Some (total, members) =>
      Py.dict_set d cat ((total + value t)%Q, (members ++ [t])%list)
  | None => d
  end.

(** [sum(...)] starts from 0 and adds from the left. *)
Definition sum (l : list Q) : Q := fold_left Qplus l 0%Q.

(** The three lists the partition loop fills. *)
Record Partition : Type := mkPartition {
  income : list Transaction;
  expenses : list Transaction;
  excluded_transfers : list Transaction
}.

(** One turn of the partition loop of [get_monthly_summary]. *)
Definition classify (exclude_cc_transfers has_bank has_cc : bool)
    (p : Partition) (t : Transaction) : Partition :=
  if exclude_cc_transfers && has_bank && has_cc && _is_credit_card_transfer t
  then mkPartition (income p) (expenses p) (excluded_transfers p ++ [t])%list
  else if Qltb 0 (amount t)
  then mkPartition (income p ++ [t])%list (expenses p) (excluded_transfers p)
  else mkPartition (income p) (expenses p ++ [t])%list (excluded_transfers p).

(** The dictionary [get_monthly_summary] returns. *)
Record Summary : Type := mkSummary {
  s_year : Z;
  s_month : Z;
  total_expenses : Q;
  total_income : Q;
  balance : Q;
  expense_by_category : Breakdown;
  income_by_category : Breakdown;
  transaction_count : nat;
  excluded_cc_transfers : list Transaction;
  total_excluded : Q
}.

(** The body of [get_monthly_summary] once the month has been selected. *)
Definition summarize (year month : Z) (exclude_cc_transfers : bool)
    (transactions : list Transaction) : Summary :=
  let has_bank :=
    existsb (fun t => String.eqb (source t) "bank") transactions in
  let has_cc :=
    existsb (fun t => String.eqb (source t) "credit_card") transactions in
  let p := fold_left (classify exclude_cc_transfers has_bank has_cc)
                     transactions (mkPartition [] [] []) in
  let expense_by_category :=
    fold_left (add_to_category (fun t => Qabs (amount t))) (expenses p) [] in
  let income_by_category :=
    fold_left (add_to_category amount) (income p) [] in
  let total_expenses := sum (map (fun t => Qabs (amount t)) (expenses p)) in
  let total_income := sum (map amount (income p)) in
  let total_excluded :=
    sum (map (fun t => Qabs (amount t)) (excluded_transfers p)) in
  mkSummary year month total_expenses total_income
            (total_income - total_expenses)%Q
            expense_by_category income_by_category
            (List.length transactions)
            (excluded_transfers p) total_excluded.

(** The first instant of the month after [(year, month)]. *)
Definition next_month_start (year month : Z) : option datetime :=
  if month =? 12 then DateTime.make (year + 1) 1 1
  else DateTime.make year (month + 1) 1.

(** [Storage.get_monthly_summary]; [None] when a [datetime(...)] call or the
    reading of a stored record raises. *)
Definition get_monthly_summary (st : Storage) (year month : Z)
    (exclude_cc_transfers : bool) : option Summary :=
  match DateTime.make year month 1 with
  | None => None
  | Some start_date =>
      match next_month_start year month with
      | None => None
      | Some end_date =>
          match get_transactions st (Some start_date) (Some end_date)
                                 None None with
          | None => None
          | Some transactions =>
              Some (summarize year month exclude_cc_transfers transactions)
          end
      end
  end.

(** The value of the keyword argument [exclude_cc_transfers] when omitted. *)
Definition exclude_cc_transfers_default : bool := true.

(** ** Vocabulary of the properties of the store *)

(** The number of stored records that count as the same transaction as [t]. *)
Definition stored_copies (stored : list TDict) (t : Transaction) : nat :=
  List.length (filter (fun existing => same_identity existing (to_dict t)) stored).

(** Every stored record can be read back by [from_dict]. *)
Definition readable (st : Storage) : bool :=
  forallb (fun d => match from_dict d with Some _ => true | None => false end)
          (_transactions st).

(** The local variable [transactions] of [get_monthly_summary]: what
    [get_transactions] returns for the month. *)
Definition month_selection (st : Storage) (year month : Z)
  : option (list Transaction) :=
  match DateTime.make year month 1, next_month_start year month with
  | Some start_date, Some end_date =>
      get_transactions st (Some start_date) (Some end_date) None None
  | _, _ => None
  end.

(** A month [datetime(year, month, 1)] accepts and that has a next month. *)
Definition month_in_range (year month : Z) : bool :=
  (1 <=? year) && (year <=? 9999) && (1 <=? month) && (month <=? 12) &&
  negb ((year =? 9999) && (month =? 12)).

Definition has_source (src : string) (l : list Transaction) : bool :=
  existsb (fun t => String.eqb (source t) src) l.

(** The description contains one of the issuer names, letter case aside. *)
Definition mentions_issuer (description : string) : bool :=
  existsb (fun fragment => Py.str_in (Py.lower fragment) (Py.lower description))
          cc_keywords.

(** A bank-side line that names a card issuer. *)
Definition issuer_transfer (t : Transaction) : bool :=
  String.eqb (source t) "bank" && mentions_issuer (description t).

(** The test that sends a transaction to the excluded list. *)
Definition is_excluded (exclude both : bool) (t : Transaction) : bool :=
  exclude && both && _is_credit_card_transfer t.

(** The transactions listed in a category breakdown. *)
Definition members (b : Breakdown) : list Transaction :=
  flat_map (fun e => snd (snd e)) b.

(** A transaction dated in March 2026. *)
Definition in_march_2026 (t : Transaction) : Prop :=
  valid (date t) = true /\ year (date t) = 2026 /\ month (date t) = 3.

(** ** Stores used in the worked runs *)

Definition march_bank_isracard : Transaction :=
  mkTransaction (mk_datetime 2026 3 10 0 0 0 0) "ISRACARD SETTLEMENT"
                (- (500 # 1)) "ILS" "bank" "bank.xlsx" None None.

Definition march_cc_supermarket : Transaction :=
  mkTransaction (mk_datetime 2026 3 12 0 0 0 0) "SUPERMARKET"
                (- (500 # 1)) "ILS" "credit_card" "card.xlsx" None None.

Definition march_store : Storage :=
  snd (add_transactions empty_storage
         [march_bank_isracard; march_cc_supermarket] None).

Definition march_bank_mastercard : Transaction :=
  mkTransaction (mk_datetime 2026 3 10 0 0 0 0) "MASTERCARD SETTLEMENT"
                (- (500 # 1)) "ILS" "bank" "bank.xlsx" None None.

Definition near_a : Transaction :=
  mkTransaction (mk_datetime 2026 3 10 0 0 0 0) "SUPERMARKET" (- (12050 # 100))
                "ILS" "bank" "january.xlsx" None None.

Definition near_b : Transaction :=
  mkTransaction (mk_datetime 2026 3 10 0 0 0 0) "SUPERMARKET" (- (120505 # 1000))
                "ILS" "bank" "copy of january.xlsx" None (Some "food").

Definition card_bill : Transaction :=
  mkTransaction (mk_datetime 2026 3 10 0 0 0 0) "MasterCard 03/26"
                (- (500 # 1)) "ILS" "bank" "bank.xlsx" None None.

Definition salary : Transaction :=
  mkTransaction (mk_datetime 2026 3 1 0 0 0 0) "משכורת"
                (9000 # 1) "ILS" "bank" "bank.xlsx" None (Some "income").

Definition both_sources_store : Storage :=
  snd (add_transactions empty_storage
         [salary; card_bill; march_cc_supermarket] (Some "bank.xlsx")).

Definition april_first : Transaction :=
  mkTransaction (mk_datetime 2026 4 1 0 0 0 0) "SUPERMARKET"
                (- (80 # 1)) "ILS" "credit_card" "card.xlsx" (Some "1234") None.

Definition april_store : Storage :=
  snd (add_transactions empty_storage [april_first] None).



(* ================================================================== *)
(** * [categorizer.py] *)
(* ================================================================== *)

(** One entry of [categories.json]; every field may be missing. *)
Record Category : Type := mkCategory {
  name : option string;
  name_en : option string;
  keywords : option (list string)
}.

(** [class Categorizer]: the catalog, the overrides, and the contents of
    [overrides.json]. *)
Record Categorizer : Type := mkCategorizer {
  categories : Py.dict Category;
  overrides : Py.dict string;
  overrides_file : Py.dict string
}.

(** [dict.get(key, default)] *)
Definition get_default {A} (x : option A) (default : A) : A :=
  match x with Some v => v | None => default end.

(** [Categorizer.save_overrides] *)
Definition save_overrides (c : Categorizer) : Categorizer :=
  mkCategorizer (categories c) (overrides c) (overrides c).

(** [Categorizer.add_override]: the returned flag and the state afterwards. *)
Definition add_override (c : Categorizer) (description category_key : string)
  : bool * Categorizer :=
  if negb (Py.dict_mem (categories c) category_key) &&
     negb (String.eqb category_key OTHER)
  then (false, c)
  else
    (true,
     save_overrides
       (mkCategorizer (categories c)
                      (Py.dict_set (overrides c) description category_key)
                      (overrides_file c))).

(** [Categorizer.list_overrides] *)
Definition list_overrides (c : Categorizer) : Py.dict string := overrides c.

(** The triple [(cat_key, cat.get('name', cat_key), cat.get('name_en', ''))]. *)
Definition entry (cat_key : string) (cat : Category)
  : string * string * string :=
  (cat_key, get_default (name cat) cat_key, get_default (name_en cat) "").

(** First step of [categorize]: the exact override, kept only when its
    category is in the catalog. *)
Definition exact_override (c : Categorizer) (description_clean : string)
  : option (string * string * string) :=
  match Py.dict_get (overrides c) description_clean with
  | Some cat_key =>
      match Py.dict_get (categories c) cat_key with
      | Some cat => Some (entry cat_key cat)
      | None => None
      end
  | None => None
  end.

(** Second step: the first override, in insertion order, one of whose
    lower-cased sides contains the other and whose category is known. *)
Fixpoint partial_override (cats : Py.dict Category) (ovs : Py.dict string)
    (description_lower : string) : option (string * string * string) :=
  match ovs with
  | [] => None
  | (override_pattern, cat_key) :: r =>
      if Py.str_in (Py.lower override_pattern) description_lower ||
         Py.str_in description_lower (Py.lower override_pattern)
      then
        match Py.dict_get cats cat_key with
        | Some cat => Some (entry cat_key cat)
        | None => partial_override cats r description_lower
        end
      else partial_override cats r description_lower
  end.

(** Third step: the first category, in catalog order, one of whose keywords
    occurs in the lower-cased description. *)
Fixpoint keyword_match (cats : Py.dict Category) (description_lower : string)
  : option (string * string * string) :=
  match cats with
  | [] => None
  | (cat_key, cat_data) :: r =>
      if existsb (fun keyword => Py.str_in (Py.lower keyword) description_lower)
                 (get_default (keywords cat_data) [])
      then Some (entry cat_key cat_data)
      else keyword_match r description_lower
  end.

(** Last step: the fallback category. *)
Definition default_category (c : Categorizer) : string * string * string :=
  match Py.dict_get (categories c) OTHER with
  | Some other_cat =>
      (OTHER, get_default (name other_cat) OTHER,
       get_default (name_en other_cat) "Other")
  | None => (OTHER, OTHER, "Other")
  end.

(** [Categorizer.categorize] *)
Definition categorize (c : Categorizer) (description : string)
  : string * string * string :=
  let description_lower := Py.lower description in
  let description_clean := Py.strip description in
  match exact_override c description_clean with
  | Some r => r
  | None =>
      match partial_override (categories c) (overrides c) description_lower with
      | Some r => r
      | None =>
          match keyword_match (categories c) description_lower with
          | Some r => r
          | None => default_category c
          end
      end
  end.

(** The category key of the triple [categorize] returns. *)
Definition category_key_of (r : string * string * string) : string :=
  fst (fst r).

(** ** Catalogs used in the worked runs *)

Definition food_catalog : Py.dict Category :=
  [ ("food", mkCategory (Some "מזון") (Some "Food") (Some ["super"; "מכולת"]));
    ("fuel", mkCategory (Some "דלק") (Some "Fuel") (Some ["paz"; "delek"])) ].

Definition stale_override : Categorizer :=
  mkCategorizer food_catalog [("SUPERMARKET", "groceries")]
                [("SUPERMARKET", "groceries")].

Definition fuel_override : Categorizer :=
  mkCategorizer food_catalog [("SUPERMARKET", "fuel")] [("SUPERMARKET", "fuel")].

Definition one_override : Categorizer :=
  mkCategorizer food_catalog [("PAZ YELLOW", "fuel")] [("PAZ YELLOW", "fuel")].

(* ================================================================== *)
(** * [parsers.py]: reading a credit-card statement *)
(* ================================================================== *)

(** A spreadsheet cell as [pandas.read_excel] delivers it.  [NaN] is every
    value for which [pd.isna] holds (an empty cell, [None], [NaT]). *)
Inductive Cell : Type :=
| NaN
| Str (s : string)
| Int (n : Z)
| Float (x : Q)
| Date (d : datetime).

Definition isna (v : Cell) : bool :=
  match v with NaN => true | _ => false end.

(** The sheet: its rows in order, each a list of cells. *)
Definition DataFrame : Type := list (list Cell).

(** [row.iloc[k] if len(row) > k else None]; [None] is merged with [NaN],
    both satisfy [pd.isna], which is the first test on every such value. *)
Definition iloc (row : list Cell) (k : nat) : Cell := nth k row NaN.

(** ** [datetime.strptime] for the directives the code uses *)

Definition two_digits (s : string) : list (Z * string) :=
  match s with
  | String a (String b r) =>
      if is_digit a && is_digit b
      then [(10 * digit_val a + digit_val b, r)] else []
  | _ => []
  end.

Definition one_nonzero_digit (s : string) : list (Z * string) :=
  match s with
  | String a r =>
      if is_digit a && negb (Ascii.eqb a "0") then [(digit_val a, r)] else []
  | _ => []
  end.

Definition in_range (lo hi : Z) (l : list (Z * string)) : list (Z * string) :=
  filter (fun p => (lo <=? fst p) && (fst p <=? hi)) l.

(** [%d]: 3[0-1] | [1-2]\d | 0[1-9] | [1-9] | blank [1-9], tried in order. *)
Definition day_field (s : string) : list (Z * string) :=
  (in_range 1 31 (two_digits s) ++ one_nonzero_digit s ++
   match s with
   | String " " r => one_nonzero_digit r
   | _ => []
   end)%list.

(** [%m]: 1[0-2] | 0[1-9] | [1-9]. *)
Definition month_field (s : string) : list (Z * string) :=
  (in_range 1 12 (two_digits s) ++ one_nonzero_digit s)%list.

(** [%y]: two digits; 00..68 are 2000..2068 and 69..99 are 1969..1999. *)
Definition short_year_field (s : string) : list (Z * string) :=
  map (fun p => (if fst p <=? 68 then 2000 + fst p else 1900 + fst p, snd p))
      (two_digits s).

(** [%Y]: four digits. *)
Definition year_field (s : string) : list (Z * string) :=
  flat_map (fun p => map (fun q => (100 * fst p + fst q, snd q))
                         (two_digits (snd p)))
           (two_digits s).

Fixpoint first_success {A B} (alts : list A) (k : A -> option B) : option B :=
  match alts with
  | [] => None
  | a :: r => match k a with Some b => Some b | None => first_success r k end
  end.

(** The matcher: the whole string has to be consumed, and the date has to
    exist; [None] stands for [ValueError]. *)
Fixpoint strptime_from (fmt s : string) (y m d : Z) : option datetime :=
  match fmt with
  | EmptyString =>
      match s with EmptyString => DateTime.make y m d | _ => None end
  | String "%" (String k fmt') =>
      if Ascii.eqb k "d" then
        first_success (day_field s) (fun p => strptime_from fmt' (snd p) y m (fst p))
      else if Ascii.eqb k "m" then
        first_success (month_field s) (fun p => strptime_from fmt' (snd p) y (fst p) d)
      else if Ascii.eqb k "y" then
        first_success (short_year_field s) (fun p => strptime_from fmt' (snd p) (fst p) m d)
      else if Ascii.eqb k "Y" then
        first_success (year_field s) (fun p => strptime_from fmt' (snd p) (fst p) m d)
      else None
  | String c fmt' =>
      match s with
      | String c' r => if Ascii.eqb c c' then strptime_from fmt' r y m d else None
      | EmptyString => None
      end
  end.

Definition strptime (date_str fmt : string) : option datetime :=
  strptime_from fmt date_str 1900 1 1.

Definition formats : list string :=
  [ "%d.%m.%y"; "%d.%m.%Y"; "%Y-%m-%d"; "%d/%m/%y"; "%d/%m/%Y" ].

(** [parse_date] *)
Definition parse_date (date_val : Cell) : option datetime :=
  match date_val with
  | NaN => None
  | Date d => Some d
  | Str s =>
      let date_str := Py.strip s in
      first_success formats (fun fmt => strptime date_str fmt)
  | Int _ | Float _ => None
  end.

(** ** Amounts and card numbers *)

(** [re.sub(r'[₪$€,\s]', '', amount_val)]: the shekel and euro signs are the
    byte triples E2 82 AA and E2 82 AC. *)
Fixpoint strip_currency (s : string) : string :=
  match s with
  | EmptyString => EmptyString
  | String c r =>
      let keep :=
        if Ascii.eqb c "$" || Ascii.eqb c "," || Py.is_space c
        then strip_currency r else String c (strip_currency r) in
      match r with
      | String c2 (String c3 r3) =>
          if (nat_of_ascii c =? 226)%nat && (nat_of_ascii c2 =? 130)%nat &&
             ((nat_of_ascii c3 =? 170)%nat || (nat_of_ascii c3 =? 172)%nat)
          then strip_currency r3 else keep
      | _ => keep
      end
  end.

Fixpoint all_digits (s : string) : bool :=
  match s with
  | EmptyString => true
  | String c r => is_digit c && all_digits r
  end.

(** [re.search(r'(\d{4})', file_name)]: the leftmost run of four digits. *)
Fixpoint search_four_digits (s : string) : option string :=
  match s with
  | EmptyString => None
  | String _ r =>
      let p := substring 0 4 s in
      if (String.length p =? 4)%nat && all_digits p then Some p
      else search_four_digits r
  end.

Fixpoint drop_spaces (l : list ascii) : list ascii :=
  match l with
  | c :: r => if Py.is_space c then drop_spaces r else l
  | [] => []
  end.

(** [re.search(r'[-–]\s*(\d{4})\s*$', val)], read from the end of the text:
    blanks, four digits, blanks, then a hyphen or an en dash (E2 80 93). *)
Definition search_trailing_card (val : string) : option string :=
  match drop_spaces (rev (list_ascii_of_string val)) with
  | d4 :: d3 :: d2 :: d1 :: before =>
      if is_digit d1 && is_digit d2 && is_digit d3 && is_digit d4 then
        let group := string_of_list_ascii [d1; d2; d3; d4] in
        match drop_spaces before with
        | "-"%char :: _ => Some group
        | b3 :: b2 :: b1 :: _ =>
            if (nat_of_ascii b1 =? 226)%nat && (nat_of_ascii b2 =? 128)%nat &&
               (nat_of_ascii b3 =? 147)%nat
            then Some group else None
        | _ => None
        end
      else None
  | _ => None
  end.

(** The inner loop over the cells of one row, up to its [break]. *)
Fixpoint card_in_row (row : list Cell) : option string :=
  match row with
  | [] => None
  | Str val :: r =>
      match search_trailing_card val with
      | Some c => Some c
      | None => card_in_row r
      end
  | _ :: r => card_in_row r
  end.

(** The card number: from the file name, then overwritten by each row that
    carries one. *)
Definition find_card_number (file_path : string) (df : DataFrame)
  : option string :=
  fold_left (fun card_number row =>
               match card_in_row row with
               | Some c => Some c
               | None => card_number
               end)
            df (search_four_digits (basename file_path)).

(** The marker of a totals row: samekh, he, a double quote, kaf. *)
Definition TOTALS : string := "סה" ++ String (ascii_of_nat 34) "כ".

(** The merchant text of a row that has not been posted yet. *)
Definition NOT_YET_POSTED : string := "טרם נקלט".

(** [' '.join(row_values)] *)
Fixpoint join_blank (l : list string) : string :=
  match l with
  | [] => EmptyString
  | [x] => x
  | x :: r => x ++ " " ++ join_blank r
  end.

Section CreditCardStatement.

(** The two conversions between text and floating-point numbers are those of
    the Python runtime; everything below holds whatever they compute. *)
Variable float_of_str : string -> option Q.   (* float(s), None: ValueError *)
Variable str_of_float : Q -> string.           (* str(x) for a float x *)

(** [str(v)] for a cell that is not [NaN]. *)
Definition str_of (v : Cell) : string :=
  match v with
  | NaN => "nan"
  | Str s => s
  | Int n => NilZero.string_of_int (Z.to_int n)
  | Float x => str_of_float x
  | Date d => DateTime.str d
  end.

(** The currency the source derives from the fourth cell of a row, into its
    local variable [currency_str]. *)
Definition detected_currency (currency : Cell) : string :=
  if negb (isna currency) then
    let currency_val := Py.strip (str_of currency) in
    if Py.str_in "$" currency_val then "USD"
    else if Py.str_in "€" currency_val then "EUR"
    else "ILS"
  else "ILS".

(** [parse_amount] *)
Definition parse_amount (amount_val : Cell) : option Q :=
  match amount_val with
  | NaN => None
  | Int n => Some (inject_Z n)
  | Float x => Some x
  | Str s => float_of_str (strip_currency s)
  | Date _ => None
  end.

(** The state of the main loop of [parse_credit_card_statement]. *)
Record Scan : Type := mkScan {
  in_transaction_section : bool;
  transactions : list Transaction
}.

(** The transaction built from one accepted row. *)
Definition make_transaction (file_path : string) (card : option string)
    (date : datetime) (business_name : string) (final_amount : Q)
  : Transaction :=
  mkTransaction date business_name (- Qabs final_amount)%Q "ILS"
                "credit_card" file_path card None.

(** One turn of the main loop. *)
Definition scan_row (file_path : string) (card : option string)
    (st : Scan) (row : list Cell) : Scan :=
  let row_values := map (fun v => if isna v then "" else str_of v) row in
  let row_text := join_blank row_values in
  if Py.str_in "תאריך רכישה" row_text && Py.str_in "שם בית עסק" row_text
  then mkScan true (transactions st)
  else if in_transaction_section st then
    let first_val := iloc row 0 in
    if isna first_val then st
    else
      let first_str := str_of first_val in
      if Py.str_in TOTALS first_str || String.eqb (Py.strip first_str) ""
      then mkScan false (transactions st)
      else
        let date_val := iloc row 0 in
        let business_name := iloc row 1 in
        let amount := iloc row 2 in
        let currency := iloc row 3 in
        let charge_amount := iloc row 4 in
        match parse_date date_val with
        | None => st
        | Some date =>
            let business_name :=
              Py.strip (if isna business_name then "" else str_of business_name) in
            if negb (Py.truthy business_name) ||
               String.eqb business_name NOT_YET_POSTED
            then st
            else
              let original_amount := parse_amount amount in
              let ils_amount := parse_amount charge_amount in
              let currency_str := detected_currency currency in
              let final_amount :=
                match ils_amount with
                | Some x => Some x
                | None => original_amount
                end in
              match final_amount with
              | None => st
              | Some x =>
                  mkScan true
                    (transactions st ++
                     [make_transaction file_path card date business_name x])%list
              end
        end
  else st.

(** [parse_credit_card_statement], on the sheet [read_excel] returned. *)
Definition parse_credit_card_statement (file_path : string) (df : DataFrame)
  : list Transaction :=
  let card_number := find_card_number file_path df in
  transactions
    (fold_left (scan_row file_path card_number) df (mkScan false [])).

(** The local variable [final_amount] of the source: the charge amount of
    the row when it parses, else the transaction amount. *)
Definition final_amount (row : list Cell) : option Q :=
  match parse_amount (iloc row 4) with
  | Some x => Some x
  | None => parse_amount (iloc row 2)
  end.

(** A transaction of the result and the row it was read from. *)
Definition read_from (file_path : string) (card : option string)
    (row : list Cell) (t : Transaction) : Prop :=
  exists date business_name x,
    parse_date (iloc row 0) = Some date /\
    final_amount row = Some x /\
    t = make_transaction file_path card date business_name x.

End CreditCardStatement.

(** ** Decimal instances of the two conversions, for worked runs *)

(** [float(s)] on plain decimal literals: a sign, digits, a point, digits,
    the digits on one side of the point being optional. *)
Fixpoint split_point (s : string) : string * option string :=
  match s with
  | EmptyString => (EmptyString, None)
  | String c r =>
      if Ascii.eqb c "." then (EmptyString, Some r)
      else let p := split_point r in (String c (fst p), snd p)
  end.

Definition unsigned_decimal (s : string) : option Q :=
  let p := split_point s in
  let whole := fst p in
  let frac := get_default (snd p) "" in
  if (0 <? String.length whole + String.length frac)%nat then
    match digits_acc 0 whole, digits_acc 0 frac with
    | Some w, Some f =>
        let scale := Z.pow 10 (Z.of_nat (String.length frac)) in
        Some (Qmake (w * scale + f) (Z.to_pos scale))
    | _, _ => None
    end
  else None.

Definition float_of_decimal (s : string) : option Q :=
  match s with
  | String "-" r => option_map Qopp (unsigned_decimal r)
  | String "+" r => unsigned_decimal r
  | _ => unsigned_decimal s
  end.

(** [str(x)] for a float with a short decimal expansion: the whole part, a
    point, and the decimals up to the last non-zero one (at least one). *)
Fixpoint decimals (fuel : nat) (rem den : Z) : string :=
  match fuel with
  | O => EmptyString
  | S n =>
      let t := 10 * rem in
      String (digit (t / den))
             (if t mod den =? 0 then EmptyString else decimals n (t mod den) den)
  end.

Definition str_of_decimal (x : Q) : string :=
  let n := Z.abs (Qnum x) in
  let d := Zpos (Qden x) in
  (if Qnum x <? 0 then "-" else "") ++
  NilZero.string_of_int (Z.to_int (n / d)) ++ "." ++ decimals 17 (n mod d) d.

(** ** A worked statement *)

Definition HEADER : list Cell :=
  [ Str "תאריך רכישה"; Str "שם בית עסק"; Str "סכום עסקה"; Str "מטבע עסקה";
    Str "סכום חיוב" ].

Definition sample_sheet : DataFrame :=
  [ [ Str "ישראכרט - 1234"; NaN; NaN; NaN; NaN ];
    HEADER;
    [ Str "05.03.26"; Str "SUPERMARKET"; Float (1205 # 10); Str "₪"; Float (1205 # 10) ];
    [ Str "07.03.26"; Str "AMAZON"; Float (20 # 1); Str "$"; Str "₪ 74.20" ];
    [ Str "08.03.26"; Str NOT_YET_POSTED; Float (10 # 1); Str "₪"; NaN ];
    [ Str "09.03.26"; Str "REFUND SHOP"; Int (-30); Str "€"; NaN ];
    [ Str TOTALS; NaN; NaN; NaN; Float (1947 # 10) ];
    [ Str "10.03.26"; Str "AFTER TOTALS"; Int 5; Str "₪"; Int 5 ] ].

Definition sample_parse : list Transaction :=
  parse_credit_card_statement float_of_decimal str_of_decimal
                              "statements/card_9999.xlsx" sample_sheet.

Definition dollar_row : list Cell :=
  [ Str "07.03.26"; Str "AMAZON"; Float (20 # 1); Str "$"; Float (7420 # 100) ].

Definition amazon_line : Transaction :=
  mkTransaction (mk_datetime 2026 3 7 0 0 0 0) "AMAZON" (- (7420 # 100)) "ILS"
                "credit_card" "statements/card_9999.xlsx" (Some "1234") None.


(* ================================================================== *)
(** * The rest of [storage.py] *)
(* ================================================================== *)

(** [Storage.clear_all] *)
Definition clear_all (st : Storage) : Storage :=
  _save (mkStorage [] [] (transactions_file st) (processed_files_file st)).

(** [Storage(data_dir)] over the directory [st] saved to: [__init__] starts
    from two empty lists and [_load] reads the two files.  A file that does
    not exist is the empty list here, which is what [_load] leaves in memory
    for it. *)
Definition reopen (st : Storage) : Storage :=
  mkStorage (transactions_file st) (processed_files_file st)
            (transactions_file st) (processed_files_file st).

(** The files hold what the memory holds. *)
Definition synced (st : Storage) : Prop :=
  transactions_file st = _transactions st /\
  processed_files_file st = _processed_files st.

(** No stored record is a duplicate of a record stored before it. *)
Fixpoint distinct_after (earlier later : list TDict) : bool :=
  match later with
  | [] => true
  | x :: r =>
      negb (is_duplicate earlier x) && distinct_after (earlier ++ [x])%list r
  end.

Definition duplicate_free (stored : list TDict) : bool :=
  distinct_after [] stored.

(** One turn of the loop of [get_summary_by_category]. *)
Definition add_amount (summary : Py.dict Q) (t : Transaction) : Py.dict Q :=
  let cat := Py.or_else (category t) OTHER in
  let d := if negb (Py.dict_mem summary cat)
           then Py.dict_set summary cat 0%Q
           else summary in
  match Py.dict_get d cat with
  | Some total => Py.dict_set d cat (total + amount t)%Q
  | None => d
  end.

(** [Storage.get_summary_by_category] *)
Definition get_summary_by_category (st : Storage)
    (start_date end_date : option datetime) : option (Py.dict Q) :=
  match get_transactions st start_date end_date None None with
  | Some transactions => Some (fold_left add_amount transactions [])
  | None => None
  end.

(** The category under which the summaries file a transaction. *)
Definition category_or_other (t : Transaction) : string :=
  Py.or_else (category t) OTHER.

(** Every entry of a breakdown lists at least one transaction and only
    transactions of its own category, and its total is the sum of their
    values, added in the order in which they are listed. *)
Definition entries_add_up (value : Transaction -> Q) (b : Breakdown) : Prop :=
  forall cat total ms,
    Py.dict_get b cat = Some (total, ms) ->
    ms <> [] /\
    Forall (fun t => category_or_other t = cat) ms /\
    total = sum (map value ms).

(** Ascending by date: no element is later than its successor. *)
Definition date_le (a b : Transaction) : Prop :=
  DateTime.ltb (date b) (date a) = false.

(** The text of a month is smaller than that of another. *)
Definition month_lt (a b : string) : Prop := String.compare a b = Lt.

(* ================================================================== *)
(** * The rest of [categorizer.py] *)
(* ================================================================== *)

(** [del d[k]] *)
Fixpoint dict_del {V} (d : Py.dict V) (k : string) : Py.dict V :=
  match d with
  | [] => []
  | (k', v) :: r => if String.eqb k' k then r else (k', v) :: dict_del r k
  end.

(** The keys of a dictionary are pairwise different, as in Python. *)
Definition unique_keys {V} (d : Py.dict V) : Prop := NoDup (map fst d).

(** [Categorizer.remove_override] *)
Definition remove_override (c : Categorizer) (description : string)
  : bool * Categorizer :=
  if Py.dict_mem (overrides c) description then
    (true,
     save_overrides
       (mkCategorizer (categories c) (dict_del (overrides c) description)
                      (overrides_file c)))
  else (false, c).

(** [Categorizer.get_category_names] *)
Definition get_category_names (c : Categorizer)
  : list (string * string * string) :=
  map (fun kv => (fst kv, get_default (name (snd kv)) (fst kv),
                  get_default (name_en (snd kv)) ""))
      (categories c).

(** [t.category = cat_key] on one transaction. *)
Definition set_category (t : Transaction) (cat_key : string) : Transaction :=
  mkTransaction (date t) (description t) (amount t) (currency t) (source t)
                (source_file t) (card_number t) (Some cat_key).

(** [Categorizer.categorize_transactions] *)
Definition categorize_transactions (c : Categorizer)
    (transactions : list Transaction) : list Transaction :=
  map (fun t => set_category t (category_key_of (categorize c (description t))))
      transactions.

(** Every override names a category of the catalog. *)
Definition overrides_known (c : Categorizer) : Prop :=
  forall pattern cat_key,
    In (pattern, cat_key) (overrides c) ->
    Py.dict_mem (categories c) cat_key = true.

(** [cmd_override] of [finance_tool.py], on the categorizer it loaded: the
    state it leaves behind (its messages are not modelled). *)
Definition cmd_override (c : Categorizer) (description category_arg : string)
  : Categorizer :=
  if negb (Py.dict_mem (categories c) category_arg) then c
  else snd (add_override c description category_arg).

(** What the loop of [get_summary_by_category] does to one key. *)
Definition bump (cat : string) (o : option Q) (t : Transaction) : option Q :=
  if String.eqb (category_or_other t) cat
  then Some (get_default o 0%Q + amount t)%Q
  else o.

(** Two stored lists that agree on date, description and amount, record by
    record. *)
Definition same_keys (s1 s2 : list TDict) : Prop :=
  Forall2 (fun a b => d_date a = d_date b /\ d_description a = d_description b /\
                      d_amount a = d_amount b) s1 s2.

(* ================================================================== *)
(** * The rest of [parsers.py]: bank statements and format detection *)
(* ================================================================== *)

(** Truth value of an optional amount: [None] and zero are falsy. *)
Definition truthy_amount (x : option Q) : bool :=
  match x with
  | Some v => negb (Qeq_bool v 0)
  | None => false
  end.

(** [x and x > 0] for an optional amount, with the amount when it holds. *)
Definition positive_amount (x : option Q) : option Q :=
  match x with
  | Some v => if truthy_amount x && Qltb 0 v then Some v else None
  | None => None
  end.

Section BankStatement.

Variable float_of_str : string -> option Q.   (* float(s), None: ValueError *)
Variable str_of_float : Q -> string.           (* str(x) for a float x *)

(** The test on one row of the header search of [parse_bank_statement]. *)
Definition is_bank_header (row : list Cell) : bool :=
  let row_values :=
    map (str_of str_of_float) (filter (fun v => negb (isna v)) row) in
  existsb (fun v => Py.str_in "תאריך" v) row_values &&
  existsb (fun v => Py.str_in "תיאור פעולה" v || Py.str_in "תיאור" v) row_values.

(** The header search: the index of the first row that passes the test. *)
Fixpoint find_header (df : DataFrame) (idx : nat) : option nat :=
  match df with
  | [] => None
  | row :: r => if is_bank_header row then Some idx else find_header r (S idx)
  end.

(** The transactions one row after the header adds. *)
Definition bank_row (file_path : string) (row : list Cell) : list Transaction :=
  let date_val := iloc row 0 in
  let description := iloc row 3 in
  let debit := iloc row 4 in
  let credit := iloc row 5 in
  match parse_date date_val with
  | None => []
  | Some date =>
      let description :=
        Py.strip (if isna description then ""
                  else str_of str_of_float description) in
      let debit_amount := parse_amount float_of_str debit in
      let credit_amount := parse_amount float_of_str credit in
      (match positive_amount debit_amount with
       | Some x =>
           [mkTransaction date description (- x)%Q "ILS" "bank" file_path None None]
       | None => []
       end ++
       match positive_amount credit_amount with
       | Some x =>
           [mkTransaction date description x "ILS" "bank" file_path None None]
       | None => []
       end)%list
  end.

(** A line of the result and the row it was read from. *)
Definition bank_line (file_path : string) (row : list Cell) (t : Transaction)
  : Prop :=
  parse_date (iloc row 0) = Some (date t) /\
  source t = "bank" /\ currency t = "ILS" /\ source_file t = file_path /\
  card_number t = None /\ category t = None /\
  ((exists x, parse_amount float_of_str (iloc row 4) = Some x /\ (0 < x)%Q /\
              amount t = (- x)%Q) \/
   (exists x, parse_amount float_of_str (iloc row 5) = Some x /\ (0 < x)%Q /\
              amount t = x)).

(** [parse_bank_statement], on the sheet [read_excel] returned; [None] is the
    [ValueError] for a sheet without a header row. *)
Definition parse_bank_statement (file_path : string) (df : DataFrame)
  : option (list Transaction) :=
  match find_header df 0 with
  | None => None
  | Some header_row =>
      Some (fold_left (fun transactions row =>
                         (transactions ++ bank_row file_path row)%list)
                      (skipn (S header_row) df) [])
  end.

(** [' '.join(str(v) for v in df.iloc[:10].values.flatten() if not isna(v))] *)
Definition first_rows_text (df : DataFrame) : string :=
  join_blank (map (str_of str_of_float)
                  (filter (fun v => negb (isna v)) (List.concat (firstn 10 df)))).

(** The two parsers [parse_file] chooses between. *)
Inductive Detected : Type := BankFormat | CreditCardFormat.

(** The format [parse_file] settles on. *)
Definition detect (file_path : string) (df : DataFrame) : Detected :=
  let file_lower := Py.lower file_path in
  let text := first_rows_text df in
  if Py.str_in "תנועות בחשבון" text || Py.str_in "בנק יהב" text then BankFormat
  else if Py.str_in "פירוט עסקאות" text || Py.str_in "ישראכרט" text ||
          Py.str_in "מסטרקארד" text then CreditCardFormat
  else if Py.str_in "עו" file_path || Py.str_in "bank" file_lower then BankFormat
  else CreditCardFormat.

(** [parse_file]; [None] is the [ValueError] it turns every exception into. *)
Definition parse_file (file_path : string) (df : DataFrame)
  : option (list Transaction) :=
  match detect file_path df with
  | BankFormat => parse_bank_statement file_path df
  | CreditCardFormat =>
      Some (parse_credit_card_statement float_of_str str_of_float file_path df)
  end.

(** One turn of the loop of [cmd_import] in [finance_tool.py], for a file
    that exists and holds the sheet [df]: the number of transactions added
    and the store afterwards (the messages are not modelled). *)
Definition import_one (storage : Storage) (categorizer : Categorizer)
    (file_path : string) (df : DataFrame) (force : bool) : nat * Storage :=
  if is_file_processed storage file_path && negb force then (0%nat, storage)
  else
    match parse_file file_path df with
    | None => (0%nat, storage)
    | Some transactions =>
        add_transactions storage
          (categorize_transactions categorizer transactions) (Some file_path)
    end.

End BankStatement.

(** A date at midnight. *)
Definition at_midnight (d : datetime) : Prop :=
  hour d = 0 /\ minute d = 0 /\ second d = 0 /\ microsecond d = 0.

Definition BANK_HEADER : list Cell :=
  [ Str "תאריך"; Str "תאריך ערך"; Str "אסמכתא"; Str "תיאור פעולה";
    Str "חובה(₪)"; Str "זכות(₪)"; Str "יתרה" ].

Definition bank_sheet : DataFrame :=
  [ [ Str "תנועות בחשבון עו״ש"; NaN; NaN; NaN; NaN; NaN; NaN ];
    BANK_HEADER;
    [ Str "01.03.26"; Str "01.03.26"; Int 1001; Str "משכורת"; NaN; Float (9000 # 1);
      Float (9000 # 1) ];
    [ Str "05.03.26"; Str "05.03.26"; Int 1002; Str " SUPERMARKET "; Float (1205 # 10);
      NaN; Float (88795 # 10) ];
    [ Str "06.03.26"; Str "06.03.26"; Int 1003; Str "תיקון"; Str "₪ 10.00";
      Str "10.00"; Float (88795 # 10) ];
    [ Str "יתרה"; NaN; NaN; NaN; Float 0; Float 0; Float (88795 # 10) ] ].

Definition bank_parse : option (list Transaction) :=
  parse_bank_statement float_of_decimal str_of_decimal "in/bank_march.xlsx" bank_sheet.

(** The header test of the main loop of [parse_credit_card_statement]. *)
Definition is_card_header (str_of_float : Q -> string) (row : list Cell) : bool :=
  let row_text :=
    join_blank (map (fun v => if isna v then "" else str_of str_of_float v) row) in
  Py.str_in "תאריך רכישה" row_text && Py.str_in "שם בית עסק" row_text.

(** Four decimal digits. *)
Definition four_digits (s : string) : Prop :=
  String.length s = 4%nat /\ all_digits s = true.

(* ================================================================== *)
(** * [add_transactions] on amounts that are not finite *)
(* ================================================================== *)

(** Above, an amount is an exact rational, hence a finite number.  A Python
    [float] can also be an infinity or NaN, and such amounts do reach the
    store: [float('1e999')] is [inf], and [json] writes and reads [Infinity]
    and [NaN].  This module repeats the transaction record, the store and
    [add_transactions] over such amounts.  Arithmetic on finite amounts stays
    exact; [of_finite] below embeds the records above as the finite part. *)
Module NonFinite.

(** The values of a Python [float]. *)
Inductive float : Type :=
| Finite (q : Q)
| Infinity (negative : bool)
| NotANumber.

(** [math.isfinite] *)
Definition isfinite (x : float) : bool :=
  match x with Finite _ => true | _ => false end.

(** [a - b]: NaN spreads, and so does the difference of two infinities of
    the same sign. *)
Definition sub (a b : float) : float :=
  match a, b with
  | NotANumber, _ => NotANumber
  | _, NotANumber => NotANumber
  | Finite x, Finite y => Finite (x - y)
  | Infinity s, Finite _ => Infinity s
  | Finite _, Infinity s => Infinity (negb s)
  | Infinity s1, Infinity s2 =>
      if Bool.eqb s1 s2 then NotANumber else Infinity s1
  end.

(** [abs(a)] *)
Definition abs (a : float) : float :=
  match a with
  | Finite x => Finite (Qabs x)
  | Infinity _ => Infinity false
  | NotANumber => NotANumber
  end.

(** [a < b]: false as soon as one side is NaN. *)
Definition ltb (a b : float) : bool :=
  match a, b with
  | NotANumber, _ => false
  | _, NotANumber => false
  | Finite x, Finite y => Qltb x y
  | Finite _, Infinity s => negb s
  | Infinity s, Finite _ => s
  | Infinity s1, Infinity s2 => s1 && negb s2
  end.

(** [@dataclass class Transaction] *)
Record Transaction : Type := mkTransaction {
  date : datetime;
  description : string;
  amount : float;
  currency : string;
  source : string;
  source_file : string;
  card_number : option string;
  category : option string
}.

(** The dictionary [Transaction.to_dict] builds and the store keeps. *)
Record TDict : Type := mkTDict {
  d_date : option string;
  d_description : string;
  d_amount : float;
  d_currency : string;
  d_source : string;
  d_source_file : string;
  d_card_number : option string;
  d_category : option string
}.

(** [Transaction.to_dict] *)
Definition to_dict (t : Transaction) : TDict :=
  mkTDict (Some (isoformat (date t))) (description t) (amount t) (currency t)
          (source t) (source_file t) (card_number t) (category t).

(** The two in-memory lists of [class Storage] and the two files. *)
Record Storage : Type := mkStorage {
  _transactions : list TDict;
  _processed_files : list string;
  transactions_file : list TDict;
  processed_files_file : list string
}.

Definition empty_storage : Storage := mkStorage [] [] [] [].

(** [Storage._save] *)
Definition _save (st : Storage) : Storage :=
  mkStorage (_transactions st) (_processed_files st)
            (_transactions st) (_processed_files st).

(** [Storage.mark_file_processed] *)
Definition mark_file_processed (st : Storage) (file_path : string) : Storage :=
  let file_name := basename file_path in
  if negb (existsb (String.eqb file_name) (_processed_files st)) then
    _save (mkStorage (_transactions st) (_processed_files st ++ [file_name])%list
                     (transactions_file st) (processed_files_file st))
  else st.

(** The duplicate test of [add_transactions]:
    [existing['date'] == t_dict['date'] and
     existing['description'] == t_dict['description'] and
     abs(existing['amount'] - t_dict['amount']) < 0.01]. *)
Definition same_identity (existing t_dict : TDict) : bool :=
  opt_string_eqb (d_date existing) (d_date t_dict) &&
  String.eqb (d_description existing) (d_description t_dict) &&
  ltb (abs (sub (d_amount existing) (d_amount t_dict))) (Finite (1 # 100)).

(** The inner loop: is some stored record a duplicate of [t_dict]? *)
Definition is_duplicate (stored : list TDict) (t_dict : TDict) : bool :=
  existsb (fun existing => same_identity existing t_dict) stored.

(** One turn of the outer loop, on the pair (stored list, added_count). *)
Definition add_one (acc : list TDict * nat) (t : Transaction)
  : list TDict * nat :=
  let t_dict := to_dict t in
  if is_duplicate (fst acc) t_dict then acc
  else ((fst acc ++ [t_dict])%list, S (snd acc)).

(** [Storage.add_transactions]: the added count and the store afterwards. *)
Definition add_transactions (st : Storage) (transactions : list Transaction)
    (source_file : option string) : nat * Storage :=
  let r := fold_left add_one transactions (_transactions st, 0%nat) in
  let st1 := mkStorage (fst r) (_processed_files st)
                       (transactions_file st) (processed_files_file st) in
  let st2 := if (0 <? snd r)%nat then _save st1 else st1 in
  let st3 :=
    match source_file with
    | Some f => if Py.truthy f then mark_file_processed st2 f else st2
    | None => st2
    end in
  (snd r, st3).

(** Every amount of the list is a finite number. *)
Definition all_finite (transactions : list Transaction) : bool :=
  forallb (fun t => isfinite (amount t)) transactions.

End NonFinite.

(** ** The records above as the finite part *)

Definition of_finite (t : Transaction) : NonFinite.Transaction :=
  NonFinite.mkTransaction (date t) (description t) (NonFinite.Finite (amount t))
    (currency t) (source t) (source_file t) (card_number t) (category t).

Definition dict_of_finite (d : TDict) : NonFinite.TDict :=
  NonFinite.mkTDict (d_date d) (d_description d) (NonFinite.Finite (d_amount d))
    (d_currency d) (d_source d) (d_source_file d) (d_card_number d)
    (d_category d).

Definition storage_of_finite (st : Storage) : NonFinite.Storage :=
  NonFinite.mkStorage (map dict_of_finite (_transactions st))
                      (_processed_files st)
                      (map dict_of_finite (transactions_file st))
                      (processed_files_file st).

(** The transaction the credit-card parser builds for a charge cell that
    holds the text [1e999]: [float('1e999')] is [inf], and the parser stores
    [-abs(amount)]. *)
Definition overflowed_charge : NonFinite.Transaction :=
  NonFinite.mkTransaction (mk_datetime 2026 3 10 0 0 0 0) "AMAZON"
    (NonFinite.Infinity true) "ILS" "credit_card" "card_9999.xlsx"
    (Some "9999") None.

(** A store that already holds a record whose amount is not a number. *)
Definition stale_store : NonFinite.Storage :=
  snd (NonFinite.add_transactions NonFinite.empty_storage
         [overflowed_charge;
          NonFinite.mkTransaction (mk_datetime 2026 3 11 0 0 0 0) "REFUND"
            NonFinite.NotANumber "ILS" "credit_card" "card_9999.xlsx"
            (Some "9999") None] None).

(* ================================================================== *)
(** * Properties *)
(* ================================================================== *)

Local Open Scope list_scope.

(** ** Dates as ISO text *)

Lemma digit_cases (n : Z) :
  exists k, (k < 10)%nat /\ digit n = ascii_of_nat (48 + k) /\ n mod 10 = Z.of_nat k.
Proof.
  exists (Z.to_nat (n mod 10)).
  pose proof (Z.mod_pos_bound n 10 ltac:(lia)).
  repeat split; unfold digit; try lia.
Qed.

Lemma is_digit_digit (n : Z) : is_digit (digit n) = true.
Proof.
  destruct (digit_cases n) as (k & Hk & -> & _).
  do 10 (destruct k as [|k]; [reflexivity|]). lia.
Qed.

Lemma digit_val_digit (n : Z) : digit_val (digit n) = n mod 10.
Proof.
  destruct (digit_cases n) as (k & Hk & -> & ->).
  do 10 (destruct k as [|k]; [reflexivity|]). lia.
Qed.

Lemma number_pad2 (n : Z) : 0 <= n < 100 -> number (pad2 n) = Some n.
Proof.
  intros H. unfold pad2, number. cbn [digits_acc].
  rewrite !is_digit_digit, !digit_val_digit. f_equal.
  pose proof (Z.div_mod n 10 ltac:(lia)).
  rewrite (Z.mod_small (n / 10) 10) by (split; [apply Z.div_pos | apply Z.div_lt_upper_bound]; lia).
  lia.
Qed.

Lemma number_pad4 (n : Z) : 0 <= n < 10000 -> number (pad4 n) = Some n.
Proof.
  intros H. unfold pad4, pad2, number. cbn [digits_acc].
  rewrite !is_digit_digit, !digit_val_digit. f_equal.
  Z.div_mod_to_equations. lia.
Qed.

Lemma number_pad6 (n : Z) : 0 <= n < 1000000 -> number (pad6 n) = Some n.
Proof.
  intros H. unfold pad6, pad4, pad2, number. cbn [digits_acc].
  rewrite !is_digit_digit, !digit_val_digit. f_equal.
  Z.div_mod_to_equations. lia.
Qed.

Lemma valid_bounds (d : datetime) :
  valid d = true ->
  0 <= year d < 10000 /\ 0 <= month d < 100 /\ 0 <= day d < 100 /\
  0 <= hour d < 100 /\ 0 <= minute d < 100 /\ 0 <= second d < 100 /\
  0 <= microsecond d < 1000000.
Proof.
  unfold valid, valid_date, valid_time, days_in_month.
  intros H. repeat (apply andb_prop in H; destruct H as [H ?]).
  destruct (month d =? 2), (is_leap (year d)),
    ((month d =? 4) || (month d =? 6) || (month d =? 9) || (month d =? 11));
  lia.
Qed.

Lemma fromisoformat_isoformat (d : datetime) :
  valid d = true -> fromisoformat (isoformat d) = Some d.
Proof.
  intros Hv. destruct (valid_bounds d Hv) as (Hy & Hm & Hd & Hh & Hmi & Hs & Hus).
  destruct d as [y m dd h mi s us]; cbn [year month day hour minute second microsecond] in *.
  unfold fromisoformat, isoformat.
  cbn [year month day hour minute second microsecond].
  destruct (us =? 0) eqn:E.
  - apply Z.eqb_eq in E; subst us.
    cbn -[number digit].
    change (String (digit (y / 1000)) (String (digit (y / 100)) (String (digit (y / 10)) (String (digit y) "")))) with (pad4 y).
    repeat match goal with
    | |- context [String (digit (?n / 10)) (String (digit ?n) "")] =>
        change (String (digit (n / 10)) (String (digit n) "")) with (pad2 n)
    end.
    rewrite number_pad4, !number_pad2 by assumption.
    unfold checked. rewrite Hv. reflexivity.
  - cbn -[number digit].
    change (String (digit (y / 1000)) (String (digit (y / 100)) (String (digit (y / 10)) (String (digit y) "")))) with (pad4 y).
    change (String (digit (us / 100000)) (String (digit (us / 10000)) (String (digit (us / 1000)) (String (digit (us / 100)) (String (digit (us / 10)) (String (digit us) "")))))) with (pad6 us).
    repeat match goal with
    | |- context [String (digit (?n / 10)) (String (digit ?n) "")] =>
        change (String (digit (n / 10)) (String (digit n) "")) with (pad2 n)
    end.
    rewrite number_pad4, number_pad6, !number_pad2 by assumption.
    unfold checked. rewrite Hv. reflexivity.
Qed.

(** ** Adding to the store *)

Lemma Qltb_lt (x y : Q) : Qltb x y = true <-> (x < y)%Q.
Proof.
  unfold Qltb. rewrite negb_true_iff. split.
  - intros H. apply Qnot_le_lt. intros L.
    apply Qle_bool_iff in L. congruence.
  - intros H. destruct (Qle_bool y x) eqn:E; [|reflexivity].
    apply Qle_bool_iff in E. exfalso. exact (Qlt_not_le _ _ H E).
Qed.

Lemma opt_string_eqb_refl (a : option string) : opt_string_eqb a a = true.
Proof. destruct a; simpl; [apply String.eqb_refl | reflexivity]. Qed.

Lemma same_identity_refl (d : TDict) : same_identity d d = true.
Proof.
  unfold same_identity.
  rewrite opt_string_eqb_refl, String.eqb_refl. cbn [andb].
  apply Qltb_lt.
  assert (E : (Qabs (d_amount d - d_amount d) == 0)%Q).
  { setoid_replace (d_amount d - d_amount d)%Q with 0%Q by ring. reflexivity. }
  rewrite E. reflexivity.
Qed.

Lemma is_duplicate_app (s x : list TDict) (d : TDict) :
  is_duplicate (s ++ x) d = is_duplicate s d || is_duplicate x d.
Proof. unfold is_duplicate. apply existsb_app. Qed.

Lemma mark_file_processed_transactions (st : Storage) (f : string) :
  _transactions (mark_file_processed st f) = _transactions st.
Proof. unfold mark_file_processed. destruct (negb _); reflexivity. Qed.

Lemma add_transactions_count (st : Storage) l sf :
  fst (add_transactions st l sf) = snd (fold_left add_one l (_transactions st, 0%nat)).
Proof. reflexivity. Qed.

Lemma add_transactions_stored (st : Storage) l sf :
  _transactions (snd (add_transactions st l sf))
  = fst (fold_left add_one l (_transactions st, 0%nat)).
Proof.
  unfold add_transactions. cbn [snd].
  destruct sf as [f|]; [destruct (Py.truthy f)|];
    rewrite ?mark_file_processed_transactions;
    destruct (0 <? _)%nat; reflexivity.
Qed.

Lemma filter_none {A} (f : A -> bool) (l : list A) :
  existsb f l = false -> filter f l = [].
Proof.
  induction l as [|a l IH]; [reflexivity|]. cbn [existsb filter].
  intros H. apply orb_false_iff in H as [-> H]. auto.
Qed.

Lemma same_identity_close (t1 t2 : Transaction) :
  date t1 = date t2 -> description t1 = description t2 ->
  (Qabs (amount t1 - amount t2) < 1 # 100)%Q ->
  same_identity (to_dict t1) (to_dict t2) = true.
Proof.
  intros Hd Hs Ha. unfold same_identity, to_dict.
  cbn [d_date d_description d_amount opt_string_eqb].
  rewrite Hd, Hs, !String.eqb_refl. cbn [andb]. apply Qltb_lt, Ha.
Qed.

(** Claim C6.  Let [t1] and [t2] have the same date, the same description
    (compared as they are, letter case included) and amounts closer than
    0.01, and let the store hold no record with that identity yet.  Adding
    both, in one call or in two, adds exactly one record, the dictionary of
    [t1]; afterwards exactly one stored record counts as [t1] and exactly one
    as [t2].  Nothing is asked of the other fields, [source_file] among them,
    nor of the [source_file] arguments of the calls. *)
Theorem C6_one_record_per_identity (st : Storage) (t1 t2 : Transaction)
    (sf sf1 sf2 : option string) :
  date t1 = date t2 ->
  description t1 = description t2 ->
  (Qabs (amount t1 - amount t2) < 1 # 100)%Q ->
  stored_copies (_transactions st) t1 = 0%nat ->
  stored_copies (_transactions st) t2 = 0%nat ->
  let together := add_transactions st [t1; t2] sf in
  let first := add_transactions st [t1] sf1 in
  let second := add_transactions (snd first) [t2] sf2 in
  fst together = 1%nat /\
  (fst first + fst second)%nat = 1%nat /\
  _transactions (snd together) = _transactions st ++ [to_dict t1] /\
  _transactions (snd second) = _transactions st ++ [to_dict t1] /\
  stored_copies (_transactions (snd together)) t1 = 1%nat /\
  stored_copies (_transactions (snd together)) t2 = 1%nat /\
  stored_copies (_transactions (snd second)) t1 = 1%nat /\
  stored_copies (_transactions (snd second)) t2 = 1%nat.
Proof.
  intros Hd Hs Ha F1 F2 together first second.
  assert (N1 : is_duplicate (_transactions st) (to_dict t1) = false).
  { unfold stored_copies in F1. apply length_zero_iff_nil in F1.
    unfold is_duplicate. destruct (existsb _ _) eqn:E; [|reflexivity].
    apply existsb_exists in E as (x & Hx & Hf).
    assert (I : In x []) by (rewrite <- F1; apply filter_In; auto). destruct I. }
  assert (N2 : is_duplicate (_transactions st) (to_dict t2) = false).
  { unfold stored_copies in F2. apply length_zero_iff_nil in F2.
    unfold is_duplicate. destruct (existsb _ _) eqn:E; [|reflexivity].
    apply existsb_exists in E as (x & Hx & Hf).
    assert (I : In x []) by (rewrite <- F2; apply filter_In; auto). destruct I. }
  pose proof (same_identity_close t1 t2 Hd Hs Ha) as S12.
  assert (D2 : is_duplicate (_transactions st ++ [to_dict t1]) (to_dict t2) = true).
  { rewrite is_duplicate_app. unfold is_duplicate at 2. cbn [existsb].
    rewrite S12. apply orb_true_r. }
  assert (E1 : fold_left add_one [t1] (_transactions st, 0%nat)
               = (_transactions st ++ [to_dict t1], 1%nat)).
  { cbn [fold_left]. unfold add_one. cbn [fst snd]. rewrite N1. reflexivity. }
  assert (E2 : forall n, fold_left add_one [t2] (_transactions st ++ [to_dict t1], n)
               = (_transactions st ++ [to_dict t1], n)).
  { intros n. cbn [fold_left]. unfold add_one. cbn [fst snd]. rewrite D2. reflexivity. }
  assert (E12 : fold_left add_one [t1; t2] (_transactions st, 0%nat)
               = (_transactions st ++ [to_dict t1], 1%nat)).
  { change [t1; t2] with ([t1] ++ [t2]). rewrite fold_left_app, E1. apply E2. }
  assert (C1 : stored_copies (_transactions st ++ [to_dict t1]) t1 = 1%nat).
  { unfold stored_copies. rewrite filter_app, (filter_none _ _ N1).
    cbn [filter]. rewrite same_identity_refl. reflexivity. }
  assert (C2 : stored_copies (_transactions st ++ [to_dict t1]) t2 = 1%nat).
  { unfold stored_copies. rewrite filter_app, (filter_none _ _ N2).
    cbn [filter]. rewrite S12. reflexivity. }
  assert (T : _transactions (snd together) = _transactions st ++ [to_dict t1]).
  { subst together. rewrite add_transactions_stored, E12. reflexivity. }
  assert (Fi : _transactions (snd first) = _transactions st ++ [to_dict t1]).
  { subst first. rewrite add_transactions_stored, E1. reflexivity. }
  assert (Se : _transactions (snd second) = _transactions st ++ [to_dict t1]).
  { subst second. rewrite add_transactions_stored, Fi, E2. reflexivity. }
  rewrite T, Se.
  repeat split; try assumption.
  - subst together. rewrite add_transactions_count, E12. reflexivity.
  - subst second. rewrite add_transactions_count, Fi, E2.
    subst first. rewrite add_transactions_count, E1. reflexivity.
Qed.

(** C6 on the empty store: two readings of one purchase, half an agora
    apart, from two files. *)
Lemma C6_witness :
  let together := add_transactions empty_storage [near_a; near_b] None in
  let first := add_transactions empty_storage [near_a] (Some "january.xlsx") in
  let second := add_transactions (snd first) [near_b] (Some "copy of january.xlsx") in
  fst together = 1%nat /\
  (fst first + fst second)%nat = 1%nat /\
  _transactions (snd together) = _transactions empty_storage ++ [to_dict near_a] /\
  _transactions (snd second) = _transactions empty_storage ++ [to_dict near_a] /\
  stored_copies (_transactions (snd together)) near_a = 1%nat /\
  stored_copies (_transactions (snd together)) near_b = 1%nat /\
  stored_copies (_transactions (snd second)) near_a = 1%nat /\
  stored_copies (_transactions (snd second)) near_b = 1%nat.
Proof.
  apply (C6_one_record_per_identity empty_storage near_a near_b);
    reflexivity.
Defined.

(** Whatever the store holds, a pair with one identity adds at most one
    record. *)
Lemma add_pair_at_most_one (st : Storage) (t1 t2 : Transaction)
    (sf : option string) :
  date t1 = date t2 ->
  description t1 = description t2 ->
  (Qabs (amount t1 - amount t2) < 1 # 100)%Q ->
  (fst (add_transactions st [t1; t2] sf) <= 1)%nat.
Proof.
  intros Hd Hs Ha. rewrite add_transactions_count.
  cbn [fold_left]. unfold add_one at 2. cbn [fst snd].
  destruct (is_duplicate (_transactions st) (to_dict t1)) eqn:D1.
  - unfold add_one. cbn [fst snd].
    destruct (is_duplicate _ (to_dict t2)); cbn [snd]; lia.
  - unfold add_one. cbn [fst snd].
    rewrite is_duplicate_app. unfold is_duplicate at 2. cbn [existsb].
    rewrite (same_identity_close t1 t2 Hd Hs Ha), orb_true_r. cbn [snd]. lia.
Qed.

(** Every stored record was there before or is the dictionary of an
    incoming transaction. *)
Lemma fold_add_one_from (l : list Transaction) :
  forall s n d,
    In d (fst (fold_left add_one l (s, n))) ->
    In d s \/ exists t, In t l /\ d = to_dict t.
Proof.
  induction l as [|t l IH]; intros s n d; cbn [fold_left]; [auto|].
  unfold add_one at 2. cbn [fst snd].
  destruct (is_duplicate s (to_dict t)); intros H; apply IH in H.
  - destruct H as [H | (t' & H & E)]; [auto|].
    right. exists t'. split; [right|]; assumption.
  - destruct H as [H | (t' & H & E)].
    + apply in_app_or in H as [H | [<- | []]]; [auto|].
      right. exists t. split; [left|]; reflexivity.
    + right. exists t'. split; [right|]; assumption.
Qed.

(** ** The monthly summary *)

(** *** Reading the store *)

Lemma from_dict_to_dict (t : Transaction) :
  valid (date t) = true -> from_dict (to_dict t) = Some t.
Proof.
  intros V. unfold from_dict, to_dict. cbn [d_date].
  assert (T : Py.truthy (isoformat (date t)) = true) by reflexivity.
  rewrite T, (fromisoformat_isoformat _ V). destruct t; reflexivity.
Qed.

Lemma select_readable (stored : list TDict) (keep : Transaction -> bool) :
  forallb (fun d => match from_dict d with Some _ => true | None => false end) stored = true ->
  exists all, select stored (fun _ => true) = Some all /\
              select stored keep = Some (filter keep all) /\
              List.length all = List.length stored.
Proof.
  induction stored as [|d r IH]; cbn [forallb select].
  - intros _. exists []. repeat split.
  - intros H. apply andb_prop in H as [Hd Hr].
    destruct (IH Hr) as (all & E1 & E2 & L). rewrite E1, E2.
    destruct (from_dict d) as [t|]; [|discriminate].
    exists (t :: all). cbn [filter List.length]. rewrite L.
    destruct (keep t); repeat split.
Qed.

Lemma select_to_dict (ts : list Transaction) (keep : Transaction -> bool) :
  Forall (fun t => valid (date t) = true) ts ->
  select (map to_dict ts) keep = Some (filter keep ts).
Proof.
  induction 1 as [|t ts V _ IH]; [reflexivity|].
  cbn [map select filter]. rewrite (from_dict_to_dict t V), IH.
  destruct (keep t); reflexivity.
Qed.

(** *** The sort *)

Lemma insert_by_date_perm (t : Transaction) (l : list Transaction) :
  Permutation (t :: l) (insert_by_date t l).
Proof.
  induction l as [|x r IH]; cbn [insert_by_date]; [reflexivity|].
  destruct (DateTime.ltb (date t) (date x)); [reflexivity|].
  rewrite perm_swap. apply perm_skip, IH.
Qed.

Lemma sort_by_date_perm_acc (l : list Transaction) :
  forall acc, Permutation (acc ++ l)
                (fold_left (fun acc t => insert_by_date t acc) l acc).
Proof.
  induction l as [|t l IH]; intros acc; cbn [fold_left].
  - rewrite app_nil_r. reflexivity.
  - rewrite <- IH. transitivity ((t :: acc) ++ l).
    + symmetry. apply Permutation_middle.
    + apply Permutation_app_tail, insert_by_date_perm.
Qed.

Lemma sort_by_date_perm (l : list Transaction) :
  Permutation l (sort_by_date l).
Proof. exact (sort_by_date_perm_acc l []). Qed.

Lemma sort_by_date_In (l : list Transaction) (t : Transaction) :
  In t (sort_by_date l) <-> In t l.
Proof.
  split; apply Permutation_in;
    [symmetry|]; apply sort_by_date_perm.
Qed.

Lemma sort_by_date_length (l : list Transaction) :
  List.length (sort_by_date l) = List.length l.
Proof. symmetry. apply Permutation_length, sort_by_date_perm. Qed.

(** *** The partition loop *)

Lemma classify_fold (e hb hc : bool) (l : list Transaction) :
  forall p,
    fold_left (classify e hb hc) l p =
    mkPartition
      (income p ++ filter (fun t => negb (is_excluded e (hb && hc) t) && Qltb 0 (amount t)) l)
      (expenses p ++ filter (fun t => negb (is_excluded e (hb && hc) t) && negb (Qltb 0 (amount t))) l)
      (excluded_transfers p ++ filter (is_excluded e (hb && hc)) l).
Proof.
  induction l as [|t l IH]; intros p; cbn [fold_left filter].
  - rewrite !app_nil_r. destruct p; reflexivity.
  - rewrite IH. unfold classify, is_excluded.
    rewrite <- (andb_assoc e hb hc).
    destruct (e && (hb && hc) && _is_credit_card_transfer t);
      cbn [negb andb income expenses excluded_transfers];
      [| destruct (Qltb 0 (amount t)); cbn [negb income expenses excluded_transfers] ];
      rewrite <- ?app_assoc; reflexivity.
Qed.

(** *** Category breakdowns *)

Lemma dict_get_set_same {V} (d : Py.dict V) (k : string) (v : V) :
  Py.dict_get (Py.dict_set d k v) k = Some v.
Proof.
  induction d as [|[k' v'] r IH]; cbn [Py.dict_set Py.dict_get].
  - rewrite String.eqb_refl. reflexivity.
  - destruct (String.eqb k' k) eqn:E; cbn [Py.dict_get]; rewrite E; auto.
Qed.

Lemma dict_get_set_other {V} (d : Py.dict V) (k k' : string) (v : V) :
  k <> k' -> Py.dict_get (Py.dict_set d k v) k' = Py.dict_get d k'.
Proof.
  intros N. induction d as [|[k0 v0] r IH]; cbn [Py.dict_set Py.dict_get].
  - destruct (String.eqb_spec k k'); [contradiction | reflexivity].
  - destruct (String.eqb_spec k0 k) as [->|]; cbn [Py.dict_get].
    + destruct (String.eqb_spec k k'); [contradiction | reflexivity].
    + rewrite IH. reflexivity.
Qed.

Lemma members_set_new (d : Breakdown) (k : string) v :
  Py.dict_get d k = None -> members (Py.dict_set d k v) = members d ++ snd v.
Proof.
  induction d as [|[k' v'] r IH]; cbn [Py.dict_set Py.dict_get].
  - intros _. unfold members. cbn. rewrite app_nil_r. reflexivity.
  - destruct (String.eqb k' k); [discriminate|]. intros H.
    unfold members in *. cbn [flat_map snd]. rewrite (IH H), app_assoc. reflexivity.
Qed.

Lemma members_set_old (d : Breakdown) (k : string) q ms q' t :
  Py.dict_get d k = Some (q, ms) ->
  forall x, In x (members (Py.dict_set d k (q', ms ++ [t]))) <->
            In x (members d) \/ x = t.
Proof.
  induction d as [|[k' v'] r IH]; cbn [Py.dict_set Py.dict_get]; [discriminate|].
  destruct (String.eqb k' k).
  - intros [= ->] x. unfold members. cbn [flat_map snd].
    rewrite !in_app_iff. cbn [In]. intuition auto.
  - intros H x. unfold members in *. cbn [flat_map snd].
    rewrite !in_app_iff, (IH H). intuition auto.
Qed.

Lemma add_to_category_members (value : Transaction -> Q) (b : Breakdown)
    (t : Transaction) :
  forall x, In x (members (add_to_category value b t)) <->
            In x (members b) \/ x = t.
Proof.
  intros x. unfold add_to_category, Py.dict_mem.
  set (cat := Py.or_else (category t) OTHER).
  destruct (Py.dict_get b cat) as [[q ms]|] eqn:G; cbn [negb].
  - rewrite G. apply (members_set_old b cat q ms _ t G).
  - rewrite dict_get_set_same.
    rewrite (members_set_old _ cat 0%Q [] _ t (dict_get_set_same _ _ _)).
    rewrite (members_set_new b cat _ G). cbn [snd]. rewrite app_nil_r. reflexivity.
Qed.

Lemma breakdown_members (value : Transaction -> Q) (l : list Transaction) :
  forall b x, In x (members (fold_left (add_to_category value) l b)) <->
              In x (members b) \/ In x l.
Proof.
  induction l as [|t l IH]; intros b x; cbn [fold_left In].
  - intuition auto.
  - rewrite IH, add_to_category_members. intuition auto.
Qed.

(** *** The summary in terms of the selected transactions *)

Lemma get_monthly_summary_selection (st : Storage) (year month : Z) (e : bool) :
  get_monthly_summary st year month e
  = option_map (summarize year month e) (month_selection st year month).
Proof.
  unfold get_monthly_summary, month_selection.
  destruct (make year month 1); [|reflexivity].
  destruct (next_month_start year month); [|reflexivity].
  destruct (get_transactions _ _ _ _ _); reflexivity.
Qed.

Section Summarize.

Variables (year month : Z) (e : bool) (sel : list Transaction).

Let both := has_source "bank" sel && has_source "credit_card" sel.
Let s := summarize year month e sel.

Lemma summarize_excluded :
  excluded_cc_transfers s = filter (is_excluded e both) sel.
Proof. unfold s, summarize. cbn [excluded_cc_transfers]. rewrite classify_fold. reflexivity. Qed.

Lemma summarize_total_excluded :
  total_excluded s
  = sum (map (fun t => Qabs (amount t)) (filter (is_excluded e both) sel)).
Proof. unfold s, summarize. cbn [total_excluded]. rewrite classify_fold. reflexivity. Qed.

Lemma summarize_total_income :
  total_income s
  = sum (map amount
           (filter (fun t => negb (is_excluded e both t) && Qltb 0 (amount t)) sel)).
Proof. unfold s, summarize. cbn [total_income]. rewrite classify_fold. reflexivity. Qed.

Lemma summarize_total_expenses :
  total_expenses s
  = sum (map (fun t => Qabs (amount t))
           (filter (fun t => negb (is_excluded e both t) && negb (Qltb 0 (amount t))) sel)).
Proof. unfold s, summarize. cbn [total_expenses]. rewrite classify_fold. reflexivity. Qed.

Lemma summarize_income_members (t : Transaction) :
  In t (members (income_by_category s)) <->
  In t sel /\ is_excluded e both t = false /\ Qltb 0 (amount t) = true.
Proof.
  unfold s, summarize. cbn [income_by_category].
  rewrite breakdown_members, classify_fold. cbn [income app members flat_map In].
  rewrite filter_In, andb_true_iff, negb_true_iff. intuition auto.
Qed.

Lemma summarize_expense_members (t : Transaction) :
  In t (members (expense_by_category s)) <->
  In t sel /\ is_excluded e both t = false /\ Qltb 0 (amount t) = false.
Proof.
  unfold s, summarize. cbn [expense_by_category].
  rewrite breakdown_members, classify_fold. cbn [expenses app members flat_map In].
  rewrite filter_In, andb_true_iff, !negb_true_iff. intuition auto.
Qed.

Lemma summarize_count : transaction_count s = List.length sel.
Proof. reflexivity. Qed.

End Summarize.

(** *** The month always has a selection on a readable store *)

Lemma month_bounds (year month : Z) :
  month_in_range year month = true ->
  exists start_date end_date,
    make year month 1 = Some start_date /\
    next_month_start year month = Some end_date.
Proof.
  unfold month_in_range, next_month_start, make, valid_date. intros H.
  repeat (apply andb_prop in H; destruct H as [H ?]).
  assert (D : forall y m, (1 <=? days_in_month y m) = true).
  { intros y m. unfold days_in_month.
    destruct (m =? 2), (is_leap y), ((m =? 4) || (m =? 6) || (m =? 9) || (m =? 11));
      reflexivity. }
  assert (Hy : 1 <= year <= 9999) by lia.
  assert (Hm : 1 <= month <= 12) by lia.
  replace ((1 <=? year) && (year <=? 9999) && (1 <=? month) && (month <=? 12)
           && (1 <=? 1) && (1 <=? days_in_month year month)) with true
    by (symmetry; rewrite D, !andb_true_iff; repeat split; lia).
  destruct (month =? 12) eqn:E.
  - apply Z.eqb_eq in E. subst month.
    assert (year <> 9999).
    { intros ->. cbn in H0. discriminate. }
    replace ((1 <=? year + 1) && (year + 1 <=? 9999) && (1 <=? 1) && (1 <=? 12)
             && (1 <=? 1) && (1 <=? days_in_month (year + 1) 1)) with true
      by (symmetry; rewrite D, !andb_true_iff; repeat split; lia).
    eauto.
  - apply Z.eqb_neq in E.
    replace ((1 <=? year) && (year <=? 9999) && (1 <=? month + 1) && (month + 1 <=? 12)
             && (1 <=? 1) && (1 <=? days_in_month year (month + 1))) with true
      by (symmetry; rewrite D, !andb_true_iff; repeat split; lia).
    eauto.
Qed.

Lemma month_selection_total (st : Storage) (year month : Z) :
  readable st = true -> month_in_range year month = true ->
  exists sel, month_selection st year month = Some sel.
Proof.
  intros R M. destruct (month_bounds year month M) as (sd & ed & E1 & E2).
  unfold month_selection, get_transactions. rewrite E1, E2.
  destruct (select_readable (_transactions st)
              (passes (Some sd) (Some ed) None None) R) as (all & _ & E & _).
  rewrite E. eauto.
Qed.

(** *** The issuer test *)

Lemma existsb_ext_in {A} (f g : A -> bool) (l : list A) :
  (forall x, In x l -> f x = g x) -> existsb f l = existsb g l.
Proof.
  induction l as [|a l IH]; intros H; [reflexivity|]. cbn [existsb].
  rewrite (H a (or_introl eq_refl)), IH; [reflexivity|].
  intros; apply H; right; assumption.
Qed.

Lemma cc_keywords_lower (keyword : string) :
  In keyword cc_keywords -> Py.lower keyword = keyword.
Proof.
  unfold cc_keywords. cbn [In].
  intros H. repeat (destruct H as [<- | H]; [reflexivity|]). destruct H.
Qed.

Lemma is_credit_card_transfer_spec (t : Transaction) :
  _is_credit_card_transfer t
  = String.eqb (source t) "bank" && mentions_issuer (description t).
Proof.
  unfold _is_credit_card_transfer, mentions_issuer.
  destruct (String.eqb (source t) "bank"); cbn [negb andb]; [|reflexivity].
  apply existsb_ext_in. intros k Hk.
  rewrite (cc_keywords_lower k Hk). apply orb_diag.
Qed.

Lemma filter_ext_in' {A} (f g : A -> bool) (l : list A) :
  (forall x, In x l -> f x = g x) -> filter f l = filter g l.
Proof.
  induction l as [|a l IH]; intros H; [reflexivity|]. cbn [filter].
  rewrite (H a (or_introl eq_refl)), IH; [reflexivity|].
  intros; apply H; right; assumption.
Qed.

Lemma filter_false {A} (l : list A) : filter (fun _ => false) l = [].
Proof. induction l; auto. Qed.

(** Claim C1.  On a readable store and a month in range,
    [get_monthly_summary] with [exclude_cc_transfers] at its default returns
    a summary, and with [sel] the transactions selected for the month:
    - when [sel] holds a bank line and a credit-card line, every bank line of
      [sel] whose description contains an issuer name, letter case aside, is
      listed in [excluded_cc_transfers], is listed in neither breakdown, and
      the two totals are the sums over the remaining lines;
    - when one of the two sources is missing, nothing is excluded: every
      line of [sel] is in a breakdown and the totals run over all of [sel]. *)
Theorem C1_issuer_transfers_excluded (st : Storage) (year month : Z) :
  readable st = true ->
  month_in_range year month = true ->
  exists sel s,
    month_selection st year month = Some sel /\
    get_monthly_summary st year month exclude_cc_transfers_default = Some s /\
    (has_source "bank" sel && has_source "credit_card" sel = true ->
       (forall t, In t sel -> source t = "bank" ->
                  mentions_issuer (description t) = true ->
                  In t (excluded_cc_transfers s) /\
                  ~ In t (members (income_by_category s)) /\
                  ~ In t (members (expense_by_category s))) /\
       total_income s =
         sum (map amount
                (filter (fun t => negb (issuer_transfer t) && Qltb 0 (amount t)) sel)) /\
       total_expenses s =
         sum (map (fun t => Qabs (amount t))
                (filter (fun t => negb (issuer_transfer t) && negb (Qltb 0 (amount t))) sel))) /\
    (has_source "bank" sel && has_source "credit_card" sel = false ->
       excluded_cc_transfers s = [] /\
       total_excluded s = 0%Q /\
       (forall t, In t sel -> In t (members (income_by_category s)) \/
                              In t (members (expense_by_category s))) /\
       total_income s = sum (map amount (filter (fun t => Qltb 0 (amount t)) sel)) /\
       total_expenses s =
         sum (map (fun t => Qabs (amount t))
                (filter (fun t => negb (Qltb 0 (amount t))) sel))).
Proof.
  intros R M. destruct (month_selection_total st year month R M) as (sel & E).
  exists sel, (summarize year month true sel).
  split; [exact E|]. split.
  { rewrite get_monthly_summary_selection, E. reflexivity. }
  assert (X : forall b t, is_excluded true b t = b && issuer_transfer t).
  { intros b t. unfold is_excluded, issuer_transfer.
    rewrite is_credit_card_transfer_spec. reflexivity. }
  split; intros B.
  - split; [|split].
    + intros t Ht Hs Hm.
      assert (Ex : is_excluded true
                     (has_source "bank" sel && has_source "credit_card" sel) t = true).
      { rewrite X, B. unfold issuer_transfer. rewrite Hs, Hm. reflexivity. }
      rewrite summarize_excluded, summarize_income_members,
        summarize_expense_members, filter_In.
      split; [auto|]. split; intros (_ & F & _); congruence.
    + rewrite summarize_total_income. do 2 f_equal.
      apply filter_ext_in'. intros t _. rewrite X, B. reflexivity.
    + rewrite summarize_total_expenses. do 2 f_equal.
      apply filter_ext_in'. intros t _. rewrite X, B. reflexivity.
  - assert (N : forall t, is_excluded true
                     (has_source "bank" sel && has_source "credit_card" sel) t = false).
    { intros t. rewrite X, B. reflexivity. }
    rewrite summarize_excluded, summarize_total_excluded,
      summarize_total_income, summarize_total_expenses.
    rewrite (filter_ext_in' _ (fun _ => false) sel (fun t _ => N t)), filter_false.
    split; [reflexivity|]. split; [reflexivity|]. split; [|split].
    + intros t Ht. rewrite summarize_income_members, summarize_expense_members.
      destruct (Qltb 0 (amount t)) eqn:Q; [left | right]; auto.
    + do 2 f_equal. apply filter_ext_in'. intros t _. rewrite N. reflexivity.
    + do 2 f_equal. apply filter_ext_in'. intros t _. rewrite N. reflexivity.
Qed.

(** C1 on a store with a salary, a card bill and a card purchase. *)
Lemma C1_witness :
  exists sel s,
    month_selection both_sources_store 2026 3 = Some sel /\
    get_monthly_summary both_sources_store 2026 3 exclude_cc_transfers_default = Some s /\
    (has_source "bank" sel && has_source "credit_card" sel = true ->
       (forall t, In t sel -> source t = "bank" ->
                  mentions_issuer (description t) = true ->
                  In t (excluded_cc_transfers s) /\
                  ~ In t (members (income_by_category s)) /\
                  ~ In t (members (expense_by_category s))) /\
       total_income s =
         sum (map amount
                (filter (fun t => negb (issuer_transfer t) && Qltb 0 (amount t)) sel)) /\
       total_expenses s =
         sum (map (fun t => Qabs (amount t))
                (filter (fun t => negb (issuer_transfer t) && negb (Qltb 0 (amount t))) sel))) /\
    (has_source "bank" sel && has_source "credit_card" sel = false ->
       excluded_cc_transfers s = [] /\
       total_excluded s = 0%Q /\
       (forall t, In t sel -> In t (members (income_by_category s)) \/
                              In t (members (expense_by_category s))) /\
       total_income s = sum (map amount (filter (fun t => Qltb 0 (amount t)) sel)) /\
       total_expenses s =
         sum (map (fun t => Qabs (amount t))
                (filter (fun t => negb (Qltb 0 (amount t))) sel))).
Proof.
  apply (C1_issuer_transfers_excluded both_sources_store 2026 3); reflexivity.
Defined.

Example both_sources_summary :
  option_map (fun s => (total_income s, total_expenses s, total_excluded s,
                        map description (excluded_cc_transfers s),
                        transaction_count s))
             (get_monthly_summary both_sources_store 2026 3 true)
  = Some (9000 # 1, 500 # 1, 500 # 1, ["MasterCard 03/26"], 3%nat)%Q.
Proof. vm_compute. reflexivity. Qed.

(** *** The window of the month *)

Lemma passes_window (start_date end_date : datetime) (t : Transaction) :
  passes (Some start_date) (Some end_date) None None t
  = DateTime.leb start_date (date t) && DateTime.leb (date t) end_date.
Proof.
  unfold passes, DateTime.leb, DateTime.gtb. cbn [negb]. rewrite !andb_true_r.
  reflexivity.
Qed.

Lemma month_selection_window (st : Storage) (year month : Z)
    (sel : list Transaction) :
  month_selection st year month = Some sel ->
  exists start_date end_date all,
    make year month 1 = Some start_date /\
    next_month_start year month = Some end_date /\
    select (_transactions st) (fun _ => true) = Some all /\
    sel = sort_by_date
            (filter (fun t => DateTime.leb start_date (date t) &&
                              DateTime.leb (date t) end_date) all).
Proof.
  unfold month_selection, get_transactions.
  destruct (make year month 1) as [sd|]; [|discriminate].
  destruct (next_month_start year month) as [ed|]; [|discriminate].
  destruct (select _ (passes _ _ _ _)) as [r|] eqn:E; [|discriminate].
  intros [= <-]. exists sd, ed.
  assert (R : readable st = true).
  { unfold readable. revert r E. generalize (_transactions st).
    induction l as [|d l IH]; intros r; cbn [select forallb]; [reflexivity|].
    destruct (from_dict d); [|discriminate].
    destruct (select l _) eqn:S; [|discriminate]. intros _. eapply IH; reflexivity. }
  destruct (select_readable _ (passes (Some sd) (Some ed) None None) R)
    as (all & A & A' & _).
  exists all. repeat split; [exact A|].
  rewrite E in A'. injection A' as ->. f_equal.
  apply filter_ext_in'. intros; apply passes_window.
Qed.

(** Claim C3, at the input where the code departs from it.  A store whose
    only transaction is dated 1 April 2026, 00:00: the summary of March 2026
    selects it ([end_date] is the first of April and the test that drops a
    record is [t.date > end_date]), counts it and adds its 80 to the
    expenses of March; the summary of April selects it as well, and
    [get_months] knows the store to hold April only. *)
Theorem C3_first_of_next_month_is_selected :
  month_selection april_store 2026 3 = Some [april_first] /\
  month_selection april_store 2026 4 = Some [april_first] /\
  option_map (fun s => (transaction_count s, total_expenses s))
             (get_monthly_summary april_store 2026 3
                                  exclude_cc_transfers_default)
  = Some (1%nat, 80 # 1) /\
  get_months april_store = Some ["2026-04"].
Proof. vm_compute. repeat split. Qed.




(** Adding transactions with proper dates keeps the store readable. *)
Lemma add_transactions_readable (st : Storage) (l : list Transaction)
    (sf : option string) :
  readable st = true ->
  Forall (fun t => valid (date t) = true) l ->
  readable (snd (add_transactions st l sf)) = true.
Proof.
  unfold readable. intros R V. rewrite add_transactions_stored.
  apply forallb_forall. intros d H.
  apply fold_add_one_from in H as [H | (t & H & ->)].
  - exact (proj1 (forallb_forall _ _) R d H).
  - rewrite from_dict_to_dict; [reflexivity|].
    exact (proj1 (Forall_forall _ _) V t H).
Qed.

(** The balance is the income minus the expenses. *)
Lemma summarize_balance (year month : Z) (e : bool) (sel : list Transaction) :
  let s := summarize year month e sel in
  balance s = (total_income s - total_expenses s)%Q.
Proof. reflexivity. Qed.

(** Against C2 as stated: for the bank line [ISRACARD SETTLEMENT] of -500
    and the card line [SUPERMARKET] of -500, the summary of March 2026 has
    [total_excluded] 0 and [total_expenses] 1000.  The issuer names of
    [_is_credit_card_transfer] hold the Hebrew name of Isracard, not the
    Latin one. *)
Lemma C2_counterexample :
  _transactions march_store
    = [to_dict march_bank_isracard; to_dict march_cc_supermarket] /\
  exists s,
    get_monthly_summary march_store 2026 3 exclude_cc_transfers_default = Some s /\
    (total_excluded s == 0)%Q /\ (total_expenses s == 1000)%Q /\
    ~ (total_excluded s == 500)%Q /\ ~ (total_expenses s == 500)%Q.
Proof.
  split; [reflexivity|]. eexists. split; [vm_compute; reflexivity|].
  repeat split; discriminate.
Qed.

Lemma in_march_2026_passes (t : Transaction) :
  in_march_2026 t ->
  passes (Some (mk_datetime 2026 3 1 0 0 0 0)) (Some (mk_datetime 2026 4 1 0 0 0 0))
         None None t = true.
Proof.
  intros (V & Y & M). rewrite passes_window.
  unfold valid, valid_date, valid_time in V.
  unfold DateTime.leb, DateTime.ltb, key.
  destruct (date t) as [y m d h mi s us].
  cbn [year month day hour minute second microsecond] in *. subst y m.
  repeat (apply andb_prop in V; destruct V as [V ?]).
  cbn [lex_ltb].
  repeat match goal with
  | |- context [?a <? ?b] => destruct (Z.ltb_spec a b); try lia
  | |- context [?a =? ?b] => destruct (Z.eqb_spec a b); try lia
  end; reflexivity.
Qed.

Lemma sort_two (b c : Transaction) :
  sort_by_date [b; c] = [b; c] \/ sort_by_date [b; c] = [c; b].
Proof.
  unfold sort_by_date. cbn [fold_left insert_by_date].
  destruct (DateTime.ltb (date c) (date b)); auto.
Qed.

Lemma month_selection_two (st : Storage) (b c : Transaction) :
  in_march_2026 b -> in_march_2026 c ->
  _transactions st = [to_dict b; to_dict c] \/
  _transactions st = [to_dict c; to_dict b] ->
  month_selection st 2026 3 = Some [b; c] \/
  month_selection st 2026 3 = Some [c; b].
Proof.
  intros Hb Hc S.
  assert (Pb := in_march_2026_passes b Hb). assert (Pc := in_march_2026_passes c Hc).
  destruct Hb as (Vb & _), Hc as (Vc & _).
  unfold month_selection, get_transactions.
  change (make 2026 3 1) with (Some (mk_datetime 2026 3 1 0 0 0 0)).
  change (next_month_start 2026 3) with (Some (mk_datetime 2026 4 1 0 0 0 0)).
  cbv iota beta.
  destruct S as [-> | ->].
  - rewrite (select_to_dict [b; c]) by (repeat constructor; assumption).
    cbn [filter]. rewrite Pb, Pc.
    destruct (sort_two b c) as [-> | ->]; auto.
  - rewrite (select_to_dict [c; b]) by (repeat constructor; assumption).
    cbn [filter]. rewrite Pb, Pc.
    destruct (sort_two c b) as [-> | ->]; auto.
Qed.

Lemma negative_not_income (t : Transaction) (x : Q) :
  (amount t == x)%Q -> (x <= 0)%Q -> Qltb 0 (amount t) = false.
Proof.
  intros E L. apply not_true_iff_false. rewrite Qltb_lt, E.
  intros G. exact (Qlt_not_le _ _ G L).
Qed.

(** Claim C2, amended.  A store holds exactly a bank line [b] of -500 and a
    card line [c], [SUPERMARKET], of -500, both dated in March 2026.  The
    summary of March 2026 counts two transactions, and
    - when [b] is described as [ISRACARD SETTLEMENT], nothing is excluded:
      [total_excluded] is 0 and [total_expenses] is 1000;
    - when the description of [b] contains one of the listed issuer names,
      [total_excluded] is 500 and [total_expenses] is 500. *)
Theorem C2_settlement_line_needs_a_listed_name (st : Storage) (b c : Transaction) :
  in_march_2026 b -> in_march_2026 c ->
  source b = "bank" -> (amount b == - (500 # 1))%Q ->
  source c = "credit_card" -> description c = "SUPERMARKET" ->
  (amount c == - (500 # 1))%Q ->
  (_transactions st = [to_dict b; to_dict c] \/
   _transactions st = [to_dict c; to_dict b]) ->
  exists s,
    get_monthly_summary st 2026 3 exclude_cc_transfers_default = Some s /\
    transaction_count s = 2%nat /\
    (description b = "ISRACARD SETTLEMENT" ->
       (total_excluded s == 0)%Q /\ (total_expenses s == 1000)%Q) /\
    (mentions_issuer (description b) = true ->
       (total_excluded s == 500)%Q /\ (total_expenses s == 500)%Q).
Proof.
  intros Hb Hc Sb Ab Sc Dc Ac St.
  assert (Xc : forall both, is_excluded true both c = false).
  { intros both. unfold is_excluded. rewrite is_credit_card_transfer_spec, Sc.
    cbn [andb]. apply andb_false_r. }
  assert (Xb : forall both, is_excluded true both b = both && mentions_issuer (description b)).
  { intros both. unfold is_excluded. rewrite is_credit_card_transfer_spec, Sb. reflexivity. }
  assert (Nb := negative_not_income b _ Ab ltac:(discriminate)).
  assert (Nc := negative_not_income c _ Ac ltac:(discriminate)).
  assert (Qb : (Qabs (amount b) == 500)%Q) by (rewrite Ab; reflexivity).
  assert (Qc : (Qabs (amount c) == 500)%Q) by (rewrite Ac; reflexivity).
  assert (B1 : has_source "bank" [b; c] && has_source "credit_card" [b; c] = true).
  { unfold has_source. cbn [existsb]. rewrite Sb, Sc. reflexivity. }
  assert (B2 : has_source "bank" [c; b] && has_source "credit_card" [c; b] = true).
  { unfold has_source. cbn [existsb]. rewrite Sb, Sc. reflexivity. }
  assert (I : mentions_issuer "ISRACARD SETTLEMENT" = false) by (vm_compute; reflexivity).
  assert (T : forall sel, sel = [b; c] \/ sel = [c; b] ->
     (description b = "ISRACARD SETTLEMENT" ->
       (total_excluded (summarize 2026 3 true sel) == 0)%Q /\
       (total_expenses (summarize 2026 3 true sel) == 1000)%Q) /\
     (mentions_issuer (description b) = true ->
       (total_excluded (summarize 2026 3 true sel) == 500)%Q /\
       (total_expenses (summarize 2026 3 true sel) == 500)%Q)).
  { intros sel Hsel.
    rewrite summarize_total_excluded, summarize_total_expenses.
    destruct Hsel as [-> | ->]; rewrite ?B1, ?B2; cbn [filter];
      rewrite !Xb, !Xc, Nb, Nc; cbn [andb negb];
      (split; intros D; [rewrite D, I | rewrite D]);
      cbn [andb negb filter map]; unfold sum; cbn [fold_left];
      rewrite ?Qb, ?Qc; split; reflexivity. }
  destruct (month_selection_two st b c Hb Hc St) as [E | E];
    [exists (summarize 2026 3 true [b; c]) | exists (summarize 2026 3 true [c; b])];
    (split; [rewrite get_monthly_summary_selection, E; reflexivity|]);
    (split; [reflexivity|]); apply T; auto.
Qed.

(** C2 on the two stores: the line named in Latin letters, and a line that
    names MasterCard. *)
Lemma C2_witness :
  (exists s,
    get_monthly_summary march_store 2026 3 exclude_cc_transfers_default = Some s /\
    transaction_count s = 2%nat /\
    (description march_bank_isracard = "ISRACARD SETTLEMENT" ->
       (total_excluded s == 0)%Q /\ (total_expenses s == 1000)%Q) /\
    (mentions_issuer (description march_bank_isracard) = true ->
       (total_excluded s == 500)%Q /\ (total_expenses s == 500)%Q)) /\
  (exists s,
    get_monthly_summary
      (snd (add_transactions empty_storage
              [march_bank_mastercard; march_cc_supermarket] None))
      2026 3 exclude_cc_transfers_default = Some s /\
    transaction_count s = 2%nat /\
    (description march_bank_mastercard = "ISRACARD SETTLEMENT" ->
       (total_excluded s == 0)%Q /\ (total_expenses s == 1000)%Q) /\
    (mentions_issuer (description march_bank_mastercard) = true ->
       (total_excluded s == 500)%Q /\ (total_expenses s == 500)%Q)).
Proof.
  split.
  - apply (C2_settlement_line_needs_a_listed_name
             march_store march_bank_isracard march_cc_supermarket);
      try reflexivity; try (repeat split; reflexivity); left; reflexivity.
  - apply (C2_settlement_line_needs_a_listed_name
             _ march_bank_mastercard march_cc_supermarket);
      try reflexivity; try (repeat split; reflexivity); left; reflexivity.
Defined.

(** ** The categorizer *)

(** Against C8 as stated: an exact override whose category is not in the
    catalog is passed over, and the keyword [super] decides. *)
Lemma C8_counterexample :
  Py.dict_get (overrides stale_override) (Py.strip "SUPERMARKET") = Some "groceries" /\
  categorize stale_override "SUPERMARKET" = ("food", "מזון", "Food") /\
  category_key_of (categorize stale_override "SUPERMARKET") <> "groceries".
Proof. repeat split. discriminate. Qed.

Example override_to_other_without_catalog_entry :
  let c := snd (add_override (mkCategorizer food_catalog [] []) "SUPERMARKET" OTHER) in
  Py.dict_get (list_overrides c) "SUPERMARKET" = Some OTHER /\
  category_key_of (categorize c "SUPERMARKET") = "food".
Proof. split; reflexivity. Qed.

(** Claim C8, amended.  When the trimmed description is an override key and
    the category that override names is a key of the catalog, [categorize]
    returns that category, whatever the keywords of the catalog are. *)
Theorem C8_known_exact_override_wins (c : Categorizer)
    (description cat_key : string) (cat : Category) :
  Py.dict_get (overrides c) (Py.strip description) = Some cat_key ->
  Py.dict_get (categories c) cat_key = Some cat ->
  categorize c description = entry cat_key cat /\
  category_key_of (categorize c description) = cat_key.
Proof.
  intros O K. unfold categorize, exact_override. rewrite O, K. split; reflexivity.
Qed.

(** C8 where the keyword step alone would have answered [food]. *)
Lemma C8_witness :
  keyword_match (categories fuel_override) (Py.lower " SUPERMARKET ")
    = Some ("food", "מזון", "Food") /\
  categorize fuel_override " SUPERMARKET "
    = entry "fuel" (mkCategory (Some "דלק") (Some "Fuel") (Some ["paz"; "delek"])) /\
  category_key_of (categorize fuel_override " SUPERMARKET ") = "fuel".
Proof.
  split; [reflexivity|].
  apply (C8_known_exact_override_wins fuel_override " SUPERMARKET " "fuel");
    reflexivity.
Defined.

(** Claim C9.  [add_override] with a key that is neither in the catalog nor
    the fallback key returns [False] and hands back the categorizer as it
    was, its overrides included.  With a key of the catalog, or the fallback
    key, it returns [True]; afterwards the description is mapped to the key,
    every other pattern is mapped as before, the saved file equals the
    overrides, and the catalog is as before. *)
Theorem C9_add_override (c : Categorizer) (description category_key : string) :
  (Py.dict_mem (categories c) category_key = false -> category_key <> OTHER ->
     add_override c description category_key = (false, c) /\
     list_overrides (snd (add_override c description category_key))
       = list_overrides c) /\
  (Py.dict_mem (categories c) category_key = true \/ category_key = OTHER ->
     let r := add_override c description category_key in
     fst r = true /\
     Py.dict_get (list_overrides (snd r)) description = Some category_key /\
     (forall other, other <> description ->
        Py.dict_get (list_overrides (snd r)) other
        = Py.dict_get (list_overrides c) other) /\
     overrides_file (snd r) = overrides (snd r) /\
     categories (snd r) = categories c).
Proof.
  unfold add_override. split.
  - intros M N. rewrite M. apply String.eqb_neq in N. rewrite N. split; reflexivity.
  - intros V.
    assert (G : negb (Py.dict_mem (categories c) category_key) &&
                negb (String.eqb category_key OTHER) = false).
    { destruct V as [-> | ->]; [reflexivity|].
      rewrite String.eqb_refl. apply andb_false_r. }
    rewrite G. cbn [fst snd list_overrides save_overrides overrides
                    overrides_file categories].
    repeat split.
    + apply dict_get_set_same.
    + intros other N. apply dict_get_set_other. congruence.
Qed.

(** C9 on a categorizer with one override: an unknown key, then a key of
    the catalog that overwrites the mapping. *)
Lemma C9_witness :
  (add_override one_override "PAZ YELLOW" "travel" = (false, one_override) /\
   list_overrides (snd (add_override one_override "PAZ YELLOW" "travel"))
     = list_overrides one_override) /\
  (let r := add_override one_override "PAZ YELLOW" "food" in
   fst r = true /\
   Py.dict_get (list_overrides (snd r)) "PAZ YELLOW" = Some "food" /\
   (forall other, other <> "PAZ YELLOW" ->
      Py.dict_get (list_overrides (snd r)) other
      = Py.dict_get (list_overrides one_override) other) /\
   overrides_file (snd r) = overrides (snd r) /\
   categories (snd r) = categories one_override).
Proof.
  split.
  - apply (proj1 (C9_add_override one_override "PAZ YELLOW" "travel"));
      [reflexivity | discriminate].
  - apply (proj2 (C9_add_override one_override "PAZ YELLOW" "food")).
    left. reflexivity.
Defined.

Example add_override_runs :
  list_overrides (snd (add_override one_override "PAZ YELLOW" "food"))
    = [("PAZ YELLOW", "food")] /\
  list_overrides (snd (add_override one_override "SHUFERSAL" OTHER))
    = [("PAZ YELLOW", "fuel"); ("SHUFERSAL", OTHER)] /\
  add_override one_override "SHUFERSAL" "groceries" = (false, one_override).
Proof. repeat split. Qed.

(** ** The credit-card parser *)

Section CreditCardFacts.

Variable float_of_str : string -> option Q.
Variable str_of_float : Q -> string.

Lemma scan_row_appends (file_path : string) (card : option string)
    (st : Scan) (row : list Cell) :
  transactions (scan_row float_of_str str_of_float file_path card st row)
    = transactions st \/
  exists t, read_from float_of_str file_path card row t /\
            transactions (scan_row float_of_str str_of_float file_path card st row)
              = transactions st ++ [t].
Proof.
  unfold scan_row.
  destruct (Py.str_in _ _ && Py.str_in _ _); [left; reflexivity|].
  destruct (in_transaction_section st); [|left; reflexivity].
  destruct (isna (iloc row 0)); [left; reflexivity|].
  destruct (Py.str_in TOTALS _ || String.eqb _ ""); [left; reflexivity|].
  destruct (parse_date (iloc row 0)) as [date|] eqn:D; [|left; reflexivity].
  destruct (negb _ || String.eqb _ NOT_YET_POSTED); [left; reflexivity|].
  destruct (parse_amount float_of_str (iloc row 4)) as [x|] eqn:A4.
  - right. eexists. split; [|reflexivity].
    do 3 eexists. unfold final_amount. rewrite A4. eauto.
  - destruct (parse_amount float_of_str (iloc row 2)) as [x|] eqn:A2;
      [|left; reflexivity].
    right. eexists. split; [|reflexivity].
    do 3 eexists. unfold final_amount. rewrite A4, A2. eauto.
Qed.

Lemma scan_rows_origin (file_path : string) (card : option string)
    (df : DataFrame) :
  forall st t,
    In t (transactions
            (fold_left (scan_row float_of_str str_of_float file_path card) df st)) ->
    In t (transactions st) \/
    exists row, In row df /\ read_from float_of_str file_path card row t.
Proof.
  induction df as [|row df IH]; intros st t; cbn [fold_left]; [auto|].
  intros H. apply IH in H as [H | (r & Hr & R)].
  - destruct (scan_row_appends file_path card st row) as [E | (t' & R & E)];
      rewrite E in H.
    + auto.
    + apply in_app_or in H as [H | [<- | []]]; [auto|].
      right. exists row. split; [left; reflexivity | exact R].
  - right. exists r. split; [right; exact Hr | exact R].
Qed.

Lemma parse_origin (file_path : string) (df : DataFrame) (t : Transaction) :
  In t (parse_credit_card_statement float_of_str str_of_float file_path df) ->
  exists row, In row df /\
    read_from float_of_str file_path (find_card_number file_path df) row t.
Proof.
  unfold parse_credit_card_statement. intros H.
  apply scan_rows_origin in H as [[] | H]. exact H.
Qed.

End CreditCardFacts.

(** Against C5 as stated: the row whose currency cell is a dollar sign has
    [currency_str] [USD], and the transaction read from it carries [ILS]. *)
Lemma C5_counterexample :
  detected_currency str_of_decimal (iloc dollar_row 3) = "USD" /\
  map currency
      (parse_credit_card_statement float_of_decimal str_of_decimal
         "card_1234.xlsx" [HEADER; dollar_row])
  = ["ILS"].
Proof. split; vm_compute; reflexivity. Qed.

(** Claim C5, amended.  Every transaction [parse_credit_card_statement]
    returns carries the currency code [ILS], whatever the currency cell of
    its row holds. *)
Theorem C5_currency_is_always_ILS (float_of_str : string -> option Q)
    (str_of_float : Q -> string) (file_path : string) (df : DataFrame)
    (t : Transaction) :
  In t (parse_credit_card_statement float_of_str str_of_float file_path df) ->
  currency t = "ILS".
Proof.
  intros H. apply parse_origin in H as (row & _ & (d & n & x & _ & _ & ->)).
  reflexivity.
Qed.

(** C5 on the line of the sample statement that was bought in dollars. *)
Lemma C5_witness :
  In amazon_line sample_parse /\ currency amazon_line = "ILS".
Proof.
  split.
  - vm_compute. right. left. reflexivity.
  - apply (C5_currency_is_always_ILS float_of_decimal str_of_decimal
             "statements/card_9999.xlsx" sample_sheet amazon_line).
    vm_compute. right. left. reflexivity.
Defined.



(* ================================================================== *)
(** * Worked runs *)
(* ================================================================== *)

Example lower_isracard :
  Py.lower "ISRACARD SETTLEMENT" = "isracard settlement".
Proof. reflexivity. Qed.

Example strip_mixed : Py.strip "  מכולת AB  " = "מכולת AB".
Proof. reflexivity. Qed.

Example iso_march :
  DateTime.isoformat (DateTime.mk_datetime 2026 3 15 0 0 0 0)
  = "2026-03-15T00:00:00".
Proof. reflexivity. Qed.

Example iso_back :
  DateTime.fromisoformat "2026-03-15T00:00:00"
  = Some (DateTime.mk_datetime 2026 3 15 0 0 0 0).
Proof. reflexivity. Qed.

Example categorize_by_keyword :
  categorize (mkCategorizer food_catalog [] []) "SUPERMARKET"
  = ("food", "מזון", "Food").
Proof. reflexivity. Qed.

Example categorize_by_override :
  categorize (mkCategorizer food_catalog [("SUPERMARKET", "fuel")] [])
             " SUPERMARKET "
  = ("fuel", "דלק", "Fuel").
Proof. reflexivity. Qed.

Example categorize_default :
  categorize (mkCategorizer food_catalog [] []) "PHARMACY"
  = (OTHER, OTHER, "Other").
Proof. reflexivity. Qed.

Example parse_date_short : parse_date (Str " 30.01.26 ")
  = Some (mk_datetime 2026 1 30 0 0 0 0).
Proof. reflexivity. Qed.

Example parse_date_iso : parse_date (Str "2026-01-30")
  = Some (mk_datetime 2026 1 30 0 0 0 0).
Proof. reflexivity. Qed.

Example parse_date_slash : parse_date (Str "1/2/2026")
  = Some (mk_datetime 2026 2 1 0 0 0 0).
Proof. reflexivity. Qed.

Example parse_date_no_such_day : parse_date (Str "30.02.2026") = None.
Proof. reflexivity. Qed.

Example float_of_decimal_fraction : float_of_decimal "1234.56" = Some (123456 # 100).
Proof. reflexivity. Qed.

Example float_of_decimal_word : float_of_decimal "abc" = None.
Proof. reflexivity. Qed.

Example str_of_decimal_half : str_of_decimal (1205 # 10) = "120.5".
Proof. reflexivity. Qed.

Example str_of_decimal_whole : str_of_decimal (- (500 # 1)) = "-500.0".
Proof. reflexivity. Qed.

Example sample_parse_rows :
  map (fun t => (description t, amount t, currency t, card_number t))
      sample_parse
  = [ ("SUPERMARKET", - (1205 # 10), "ILS", Some "1234");
      ("AMAZON", - (7420 # 100), "ILS", Some "1234");
      ("REFUND SHOP", - (30 # 1), "ILS", Some "1234") ]%Q.
Proof. vm_compute. reflexivity. Qed.

(* ================================================================== *)
(** * Further properties *)
(* ================================================================== *)

(** ** More on adding to the store *)

Lemma fold_add_one_trace (l : list Transaction) :
  forall s n, exists kept,
    fold_left add_one l (s, n)
      = (s ++ map to_dict kept, (n + List.length kept)%nat) /\
    incl kept l /\
    (forall t, In t l -> is_duplicate (s ++ map to_dict kept) (to_dict t) = true) /\
    distinct_after s (map to_dict kept) = true /\
    (List.length kept <= List.length l)%nat.
Proof.
  induction l as [|t l IH]; intros s n.
  - exists []. cbn [map List.length fold_left]. rewrite app_nil_r, Nat.add_0_r.
    repeat split; [apply incl_refl | intros ? [] | lia].
  - cbn [fold_left]. unfold add_one at 2. cbn [fst snd].
    destruct (is_duplicate s (to_dict t)) eqn:D.
    + destruct (IH s n) as (kept & E & I & A & N & L). exists kept.
      repeat split; auto.
      * apply incl_tl, I.
      * intros t' [<- | H]; [|auto]. rewrite is_duplicate_app, D. reflexivity.
      * cbn [List.length]. lia.
    + destruct (IH (s ++ [to_dict t]) (S n)) as (kept & E & I & A & N & L).
      exists (t :: kept). cbn [map List.length].
      replace (s ++ to_dict t :: map to_dict kept)
        with ((s ++ [to_dict t]) ++ map to_dict kept)
        by (rewrite <- app_assoc; reflexivity).
      repeat split.
      * rewrite E. f_equal. lia.
      * apply incl_cons; [left; reflexivity | apply incl_tl, I].
      * intros t' [<- | H]; [|auto].
        rewrite !is_duplicate_app. unfold is_duplicate at 2. cbn [existsb].
        rewrite same_identity_refl, orb_true_r. reflexivity.
      * cbn [distinct_after]. rewrite D, N. reflexivity.
      * cbn [List.length]. lia.
Qed.

Lemma distinct_after_app (e l1 l2 : list TDict) :
  distinct_after e (l1 ++ l2)
  = distinct_after e l1 && distinct_after (e ++ l1) l2.
Proof.
  revert e. induction l1 as [|x l1 IH]; intros e; cbn [app distinct_after].
  - rewrite app_nil_r. reflexivity.
  - rewrite IH, <- app_assoc, andb_assoc. reflexivity.
Qed.

Lemma add_transactions_appends_aux (st : Storage) (l : list Transaction)
    (source_file : option string) :
  exists kept,
    _transactions (snd (add_transactions st l source_file))
      = _transactions st ++ map to_dict kept /\
    fst (add_transactions st l source_file) = List.length kept /\
    incl kept l /\
    (List.length kept <= List.length l)%nat.
Proof.
  rewrite add_transactions_count, add_transactions_stored.
  destruct (fold_add_one_trace l (_transactions st) 0) as (kept & E & I & A & N & L).
  exists kept. rewrite E. cbn [fst snd]. repeat split; auto.
Qed.

(** Extra X1.  [add_transactions] only appends: the records stored before
    stay where they are, the records added are the dictionaries of some of
    the incoming transactions, and the returned count is their number, at
    most the length of the list. *)
Theorem add_transactions_appends (st : Storage) (l : list Transaction)
    (source_file : option string) :
  exists kept,
    _transactions (snd (add_transactions st l source_file))
      = _transactions st ++ map to_dict kept /\
    fst (add_transactions st l source_file) = List.length kept /\
    incl kept l /\
    (List.length kept <= List.length l)%nat.
Proof. apply add_transactions_appends_aux. Qed.

(** Extra X2.  When no stored record is a duplicate (same date text, same
    description, amounts closer than 0.01) of a record stored before it, the
    same holds after [add_transactions], whatever list is added. *)
Theorem add_transactions_keeps_duplicate_free (st : Storage)
    (l : list Transaction) (source_file : option string) :
  duplicate_free (_transactions st) = true ->
  duplicate_free (_transactions (snd (add_transactions st l source_file))) = true.
Proof.
  unfold duplicate_free. intros H. rewrite add_transactions_stored.
  destruct (fold_add_one_trace l (_transactions st) 0) as (kept & E & _ & _ & N & _).
  rewrite E. cbn [fst]. rewrite distinct_after_app, H. exact N.
Qed.

Lemma add_transactions_keeps_duplicate_free_witness :
  duplicate_free (_transactions empty_storage) = true /\
  duplicate_free
    (_transactions (snd (add_transactions empty_storage
                           [near_a; near_b; salary; near_a] None))) = true.
Proof.
  split; [reflexivity|].
  apply (add_transactions_keeps_duplicate_free empty_storage). reflexivity.
Defined.

(** *** What is on disk *)

Lemma mark_file_processed_synced (st : Storage) (f : string) :
  synced st -> synced (mark_file_processed st f).
Proof.
  unfold mark_file_processed. destruct (negb _); [|auto].
  intros _. split; reflexivity.
Qed.

(** Extra X3.  When the two files hold what the two lists in memory hold, they
    still do after [add_transactions], [mark_file_processed] and [clear_all];
    a store opened afterwards on the same directory holds the same lists. *)
Theorem store_stays_synced (st : Storage) :
  synced st ->
  (forall l source_file,
     synced (snd (add_transactions st l source_file)) /\
     reopen (snd (add_transactions st l source_file))
       = snd (add_transactions st l source_file)) /\
  (forall file_path,
     synced (mark_file_processed st file_path) /\
     reopen (mark_file_processed st file_path) = mark_file_processed st file_path) /\
  synced (clear_all st) /\ reopen (clear_all st) = clear_all st.
Proof.
  intros S.
  assert (R : forall x, synced x -> reopen x = x).
  { intros [a b c d] [E1 E2]. cbn in *. subst. reflexivity. }
  assert (A : forall l sf, synced (snd (add_transactions st l sf))).
  { intros l sf. unfold add_transactions. cbn [snd].
    set (r := fold_left add_one l (_transactions st, 0%nat)).
    assert (S2 : synced (if (0 <? snd r)%nat
                         then _save (mkStorage (fst r) (_processed_files st)
                                       (transactions_file st) (processed_files_file st))
                         else mkStorage (fst r) (_processed_files st)
                                       (transactions_file st) (processed_files_file st))).
    { destruct (0 <? snd r)%nat eqn:Z; [split; reflexivity|].
      apply Nat.ltb_ge in Z.
      destruct (fold_add_one_trace l (_transactions st) 0) as (kept & E & _).
      subst r. rewrite E in *. cbn [fst snd] in *.
      assert (kept = []) by (destruct kept; [reflexivity | cbn in Z; lia]).
      subst kept. cbn [map]. rewrite app_nil_r.
      destruct S as [S1 S2]. split; cbn; assumption. }
    destruct sf as [f|]; [destruct (Py.truthy f)|]; auto.
    apply mark_file_processed_synced, S2. }
  split; [|split; [|split]].
  - intros l sf. split; [apply A | apply R, A].
  - intros f. split; [|apply R]; apply mark_file_processed_synced, S.
  - split; reflexivity.
  - reflexivity.
Qed.

Lemma store_stays_synced_witness :
  synced empty_storage /\
  (forall l source_file,
     synced (snd (add_transactions empty_storage l source_file)) /\
     reopen (snd (add_transactions empty_storage l source_file))
       = snd (add_transactions empty_storage l source_file)) /\
  (forall file_path,
     synced (mark_file_processed empty_storage file_path) /\
     reopen (mark_file_processed empty_storage file_path)
       = mark_file_processed empty_storage file_path) /\
  synced (clear_all empty_storage) /\
  reopen (clear_all empty_storage) = clear_all empty_storage.
Proof.
  split; [split; reflexivity|].
  apply (store_stays_synced empty_storage). split; reflexivity.
Defined.

(** *** The stored form of a transaction *)

(** Extra X4.  For a transaction with a proper date, [from_dict] reads back from
    [to_dict] the transaction it was built from, and two such transactions
    with one dictionary are equal. *)
Theorem transaction_round_trip (t : Transaction) :
  valid (date t) = true ->
  from_dict (to_dict t) = Some t /\
  (forall t', to_dict t' = to_dict t -> valid (date t') = true -> t' = t).
Proof.
  intros V. split; [apply from_dict_to_dict, V|].
  intros t' E V'. apply from_dict_to_dict in V, V'.
  rewrite E in V'. congruence.
Qed.

Lemma transaction_round_trip_witness :
  from_dict (to_dict april_first) = Some april_first /\
  (forall t', to_dict t' = to_dict april_first -> valid (date t') = true ->
              t' = april_first).
Proof.
  apply (transaction_round_trip april_first). reflexivity.
Defined.

(** *** Processed files *)

Lemma existsb_eqb_In (x : string) (l : list string) :
  existsb (String.eqb x) l = true <-> In x l.
Proof.
  rewrite existsb_exists. split.
  - intros (y & H & E). apply String.eqb_eq in E. subst. exact H.
  - intros H. exists x. split; [exact H | apply String.eqb_refl].
Qed.

Lemma mark_file_processed_files (st : Storage) (f : string) :
  _processed_files (mark_file_processed st f)
  = if existsb (String.eqb (basename f)) (_processed_files st)
    then _processed_files st
    else _processed_files st ++ [basename f].
Proof.
  unfold mark_file_processed. destruct (existsb _ _); reflexivity.
Qed.

Lemma add_transactions_processed (st : Storage) (l : list Transaction)
    (source_file : option string) :
  _processed_files (snd (add_transactions st l source_file))
  = match source_file with
    | Some f =>
        if Py.truthy f && negb (existsb (String.eqb (basename f)) (_processed_files st))
        then _processed_files st ++ [basename f]
        else _processed_files st
    | None => _processed_files st
    end.
Proof.
  unfold add_transactions. cbn [snd].
  destruct source_file as [f|]; [destruct (Py.truthy f)|]; cbn [andb];
    rewrite ?mark_file_processed_files;
    destruct (0 <? _)%nat; cbn [_processed_files _save];
    try destruct (existsb _ _); reflexivity.
Qed.

Lemma processed_files_aux (st : Storage) (l : list Transaction) :
  (forall f p, Py.truthy f = true -> basename p = basename f ->
     is_file_processed (snd (add_transactions st l (Some f))) p = true) /\
  (forall source_file p, is_file_processed st p = true ->
     is_file_processed (snd (add_transactions st l source_file)) p = true) /\
  (forall source_file, NoDup (_processed_files st) ->
     NoDup (_processed_files (snd (add_transactions st l source_file)))) /\
  _processed_files (snd (add_transactions st l None)) = _processed_files st.
Proof.
  split; [|split; [|split]].
  - intros f p T B. unfold is_file_processed.
    rewrite add_transactions_processed, T, B. cbn [andb].
    destruct (existsb (String.eqb (basename f)) (_processed_files st)) eqn:E;
      cbn [negb]; [exact E|].
    rewrite existsb_app. cbn [existsb]. rewrite String.eqb_refl.
    rewrite orb_true_r. reflexivity.
  - intros sf p H. unfold is_file_processed in *.
    rewrite add_transactions_processed.
    destruct sf as [f|]; [|exact H].
    destruct (Py.truthy f && _); [|exact H].
    rewrite existsb_app, H. reflexivity.
  - intros sf N. rewrite add_transactions_processed.
    destruct sf as [f|]; [|exact N].
    destruct (Py.truthy f); cbn [andb]; [|exact N].
    destruct (existsb _ _) eqn:E; cbn [negb]; [exact N|].
    apply NoDup_app; [exact N | repeat constructor; intros [] |].
    intros x H [<- | []]. apply existsb_eqb_In in H. congruence.
  - apply add_transactions_processed.
Qed.

(** Extra X5.  After [add_transactions] with a non-empty [source_file], every
    path with the same base name counts as processed; a file that was
    processed stays processed; the list of processed names gets no
    repetition; and without a [source_file] the list is left alone. *)
Theorem processed_files_by_base_name (st : Storage) (l : list Transaction) :
  (forall f p, Py.truthy f = true -> basename p = basename f ->
     is_file_processed (snd (add_transactions st l (Some f))) p = true) /\
  (forall source_file p, is_file_processed st p = true ->
     is_file_processed (snd (add_transactions st l source_file)) p = true) /\
  (forall source_file, NoDup (_processed_files st) ->
     NoDup (_processed_files (snd (add_transactions st l source_file)))) /\
  _processed_files (snd (add_transactions st l None)) = _processed_files st.
Proof. apply processed_files_aux. Qed.

Lemma processed_files_by_base_name_witness :
  is_file_processed
    (snd (add_transactions empty_storage [salary] (Some "in/2026/bank.xlsx")))
    "other/place/bank.xlsx" = true /\
  is_file_processed
    (snd (add_transactions both_sources_store [] (Some "card.xlsx")))
    "bank.xlsx" = true /\
  NoDup (_processed_files
           (snd (add_transactions both_sources_store [] (Some "x/bank.xlsx")))).
Proof.
  split; [|split].
  - apply (proj1 (processed_files_by_base_name empty_storage [salary]));
      reflexivity.
  - apply (proj1 (proj2 (processed_files_by_base_name both_sources_store []))).
    reflexivity.
  - apply (proj1 (proj2 (proj2 (processed_files_by_base_name both_sources_store [])))).
    repeat constructor. intros [].
Defined.

(** *** The order of dates *)

Lemma ltb_lt_iff (a b : datetime) :
  DateTime.ltb a b = true <->
  (year a < year b \/ year a = year b /\
   (month a < month b \/ month a = month b /\
    (day a < day b \/ day a = day b /\
     (hour a < hour b \/ hour a = hour b /\
      (minute a < minute b \/ minute a = minute b /\
       (second a < second b \/ second a = second b /\
        microsecond a < microsecond b)))))).
Proof.
  unfold DateTime.ltb, key. cbn [lex_ltb].
  rewrite andb_false_r, orb_false_r.
  repeat (rewrite orb_true_iff, andb_true_iff, Z.ltb_lt, Z.eqb_eq).
  rewrite Z.ltb_lt. reflexivity.
Qed.

Lemma ltb_asym (a b : datetime) :
  DateTime.ltb a b = true -> DateTime.ltb b a = false.
Proof.
  intros H. apply not_true_iff_false. rewrite ltb_lt_iff in *. lia.
Qed.

Lemma leb_trans (a b c : datetime) :
  DateTime.ltb b a = false -> DateTime.ltb c b = false ->
  DateTime.ltb c a = false.
Proof.
  rewrite <- !not_true_iff_false, !ltb_lt_iff. lia.
Qed.

Lemma insert_by_date_sorted (t : Transaction) (l : list Transaction) :
  StronglySorted date_le l -> StronglySorted date_le (insert_by_date t l).
Proof.
  induction 1 as [|x r S IH F]; cbn [insert_by_date].
  - repeat constructor.
  - destruct (DateTime.ltb (date t) (date x)) eqn:E.
    + constructor; [constructor; assumption|].
      assert (Hx : date_le t x) by (apply ltb_asym, E).
      constructor; [exact Hx|].
      eapply Forall_impl; [|exact F]. intros y Hy.
      unfold date_le in *. eapply leb_trans; eassumption.
    + constructor; [exact IH|].
      apply (Permutation_Forall (insert_by_date_perm t r)).
      constructor; [exact E | exact F].
Qed.

Lemma sort_by_date_sorted (l : list Transaction) :
  StronglySorted date_le (sort_by_date l).
Proof.
  unfold sort_by_date.
  assert (G : forall acc, StronglySorted date_le acc ->
    StronglySorted date_le (fold_left (fun acc t => insert_by_date t acc) l acc)).
  { induction l as [|t l IH]; intros acc H; cbn [fold_left]; [exact H|].
    apply IH, insert_by_date_sorted, H. }
  apply G. constructor.
Qed.

(** Extra X6.  On a readable store [get_transactions] returns, for any filters, a
    list in ascending order of date that is a rearrangement of the stored
    transactions passing the filters. *)
Theorem get_transactions_sorted_selection (st : Storage)
    (start_date end_date : option datetime) (category_f source_f : option string) :
  readable st = true ->
  exists all result,
    select (_transactions st) (fun _ => true) = Some all /\
    List.length all = List.length (_transactions st) /\
    get_transactions st start_date end_date category_f source_f = Some result /\
    StronglySorted date_le result /\
    Permutation result
      (filter (passes start_date end_date category_f source_f) all).
Proof.
  intros R.
  destruct (select_readable (_transactions st)
              (passes start_date end_date category_f source_f) R)
    as (all & A & S & L).
  exists all, (sort_by_date (filter (passes start_date end_date category_f source_f) all)).
  unfold get_transactions. rewrite S.
  repeat split; auto.
  - apply sort_by_date_sorted.
  - symmetry. apply sort_by_date_perm.
Qed.

Lemma get_transactions_sorted_selection_witness :
  exists all result,
    select (_transactions both_sources_store) (fun _ => true) = Some all /\
    List.length all = List.length (_transactions both_sources_store) /\
    get_transactions both_sources_store None
      (Some (mk_datetime 2026 3 10 0 0 0 0)) None (Some "bank") = Some result /\
    StronglySorted date_le result /\
    Permutation result
      (filter (passes None (Some (mk_datetime 2026 3 10 0 0 0 0)) None (Some "bank"))
              all).
Proof.
  apply (get_transactions_sorted_selection both_sources_store). reflexivity.
Defined.

(** *** The months of the store *)

Lemma add_month_In (m x : string) (months : list string) :
  In x (add_month m months) <-> x = m \/ In x months.
Proof.
  induction months as [|y r IH]; cbn [add_month In]; [intuition auto|].
  destruct (String.compare m y) eqn:C; cbn [In].
  - apply String.compare_eq_iff in C. subst. intuition auto.
  - intuition auto.
  - rewrite IH. intuition auto.
Qed.

Lemma add_month_sorted (m : string) (months : list string) :
  Sorted month_lt months -> Sorted month_lt (add_month m months).
Proof.
  induction 1 as [|y r S IH H]; cbn [add_month].
  - repeat constructor.
  - destruct (String.compare m y) eqn:C.
    + constructor; assumption.
    + constructor; [constructor; assumption|]. constructor. exact C.
    + constructor; [exact IH|].
      assert (Y : month_lt y m).
      { unfold month_lt. rewrite String.compare_antisym, C. reflexivity. }
      destruct r as [|z r]; cbn [add_month]; [constructor; exact Y|].
      destruct (String.compare m z); constructor;
        solve [exact Y | inversion H; assumption].
Qed.

Lemma collect_months_spec (stored : list TDict) :
  forallb (fun d => match from_dict d with Some _ => true | None => false end)
          stored = true ->
  forall months, Sorted month_lt months ->
  exists all result,
    select stored (fun _ => true) = Some all /\
    collect_months stored months = Some result /\
    Sorted month_lt result /\
    (forall m, In m result <->
               In m months \/ exists t, In t all /\ year_month (date t) = m).
Proof.
  induction stored as [|d r IH]; cbn [forallb select collect_months]; intros R months S.
  - exists [], months. repeat split; auto. intros [H | (t & [] & _)]. exact H.
  - apply andb_prop in R as [Rd Rr]. unfold from_dict in *.
    destruct (d_date d) as [s|]; [|discriminate].
    destruct (Py.truthy s); [|discriminate].
    destruct (fromisoformat s) as [dt|]; [|discriminate].
    destruct (IH Rr (add_month (year_month dt) months) (add_month_sorted _ _ S))
      as (all & result & A & C & So & M).
    rewrite A, C. eexists _, result. split; [reflexivity|].
    split; [reflexivity|]. split; [exact So|].
    intros m. rewrite M, add_month_In. cbn [In]. split.
    + intros [[-> | H] | (t & Ht & E)]; eauto.
    + intros [H | (t & [<- | Ht] & E)]; eauto.
Qed.

(** Extra X7.  On a readable store [get_months] returns the year-month texts of
    the stored transactions (years of four digits), each once, in strictly
    ascending order. *)
Theorem get_months_sorted_and_exact (st : Storage) :
  readable st = true ->
  exists all result,
    select (_transactions st) (fun _ => true) = Some all /\
    get_months st = Some result /\
    Sorted month_lt result /\
    (forall m, In m result <-> exists t, In t all /\ year_month (date t) = m).
Proof.
  intros R. destruct (collect_months_spec _ R [] (Sorted_nil _))
    as (all & result & A & C & S & M).
  exists all, result. repeat split; auto.
  - intros H. apply M in H as [[] | H]. exact H.
  - intros H. apply M. right. exact H.
Qed.

Lemma get_months_sorted_and_exact_witness :
  exists all result,
    select (_transactions both_sources_store) (fun _ => true) = Some all /\
    get_months both_sources_store = Some result /\
    Sorted month_lt result /\
    (forall m, In m result <-> exists t, In t all /\ year_month (date t) = m).
Proof.
  apply (get_months_sorted_and_exact both_sources_store). reflexivity.
Defined.

(** ** More on the monthly summary *)

(** *** Sums *)

Lemma fold_Qplus_shift (l : list Q) :
  forall a, (fold_left Qplus l a == a + fold_left Qplus l 0)%Q.
Proof.
  induction l as [|x l IH]; intros a; cbn [fold_left].
  - ring.
  - rewrite (IH (a + x)%Q), (IH (0 + x)%Q). ring.
Qed.

Lemma sum_cons (x : Q) (l : list Q) : (sum (x :: l) == x + sum l)%Q.
Proof.
  unfold sum. cbn [fold_left]. rewrite fold_Qplus_shift. ring.
Qed.

(** *** Totals by category *)

Lemma add_to_category_entries (value : Transaction -> Q) (b : Breakdown)
    (t : Transaction) :
  entries_add_up value b -> entries_add_up value (add_to_category value b t).
Proof.
  intros H. unfold add_to_category, Py.dict_mem.
  set (k := Py.or_else (category t) OTHER).
  destruct (Py.dict_get b k) as [[q ms0]|] eqn:G; cbn [negb].
  - rewrite G. intros cat total ms.
    destruct (String.eqb_spec k cat) as [<- | N].
    + rewrite dict_get_set_same. intros [= <- <-].
      destruct (H k q ms0 G) as (_ & Fa & S).
      split; [intros E; apply app_eq_nil in E; destruct E; discriminate|].
      split.
      * apply Forall_app. split; [exact Fa|].
        constructor; [reflexivity | constructor].
      * rewrite map_app. unfold sum. rewrite fold_left_app.
        cbn [map fold_left]. fold (sum (map value ms0)).
        rewrite <- S. reflexivity.
    + rewrite dict_get_set_other by exact N. apply H.
  - rewrite dict_get_set_same. intros cat total ms.
    destruct (String.eqb_spec k cat) as [<- | N].
    + rewrite dict_get_set_same. intros [= <- <-]. cbn [app].
      split; [discriminate|].
      split; [constructor; [reflexivity | constructor] | reflexivity].
    + rewrite !dict_get_set_other by exact N. apply H.
Qed.

Lemma breakdown_entries (value : Transaction -> Q) (l : list Transaction) :
  forall b,
    entries_add_up value b ->
    entries_add_up value (fold_left (add_to_category value) l b).
Proof.
  induction l as [|t l IH]; intros b H; cbn [fold_left]; [exact H|].
  apply IH, add_to_category_entries, H.
Qed.

(** Extra X8.  In every summary [get_monthly_summary] returns, each entry of
    the expense breakdown and of the income breakdown lists at least one
    transaction and only transactions filed under its own key, and its total
    is the sum of their values ([abs(amount)] for expenses, [amount] for
    income) added from 0 in the order in which they are listed. *)
Theorem category_totals_sum_their_lines (st : Storage) (year month : Z)
    (exclude : bool) (s : Summary) :
  get_monthly_summary st year month exclude = Some s ->
  entries_add_up (fun t => Qabs (amount t)) (expense_by_category s) /\
  entries_add_up amount (income_by_category s).
Proof.
  rewrite get_monthly_summary_selection.
  destruct (month_selection st year month) as [sel|]; [|discriminate].
  intros [= <-]. unfold summarize.
  cbn [expense_by_category income_by_category].
  split; apply breakdown_entries; intros cat total ms; discriminate.
Qed.

Lemma category_totals_sum_their_lines_witness :
  exists s,
    get_monthly_summary both_sources_store 2026 3 true = Some s /\
    entries_add_up (fun t => Qabs (amount t)) (expense_by_category s) /\
    entries_add_up amount (income_by_category s).
Proof.
  eexists. split; [vm_compute; reflexivity|].
  apply (category_totals_sum_their_lines both_sources_store 2026 3 true).
  vm_compute. reflexivity.
Defined.

(** *** Every selected transaction is filed once *)

Lemma members_set_new_length (d : Breakdown) (k : string) v :
  Py.dict_get d k = None ->
  List.length (members (Py.dict_set d k v))
  = (List.length (members d) + List.length (snd v))%nat.
Proof.
  intros H. rewrite (members_set_new d k v H), length_app. reflexivity.
Qed.

Lemma members_set_old_length (d : Breakdown) (k : string) q ms q' t :
  Py.dict_get d k = Some (q, ms) ->
  List.length (members (Py.dict_set d k (q', ms ++ [t])))
  = S (List.length (members d)).
Proof.
  induction d as [|[k' v'] r IH]; cbn [Py.dict_set Py.dict_get]; [discriminate|].
  destruct (String.eqb k' k).
  - intros [= ->]. unfold members. cbn [flat_map snd].
    rewrite !length_app. cbn [List.length]. lia.
  - intros H. unfold members in *. cbn [flat_map snd].
    rewrite !length_app, (IH H). lia.
Qed.

Lemma add_to_category_length (value : Transaction -> Q) (b : Breakdown)
    (t : Transaction) :
  List.length (members (add_to_category value b t)) = S (List.length (members b)).
Proof.
  unfold add_to_category, Py.dict_mem.
  set (cat := Py.or_else (category t) OTHER).
  destruct (Py.dict_get b cat) as [[q ms]|] eqn:G; cbn [negb].
  - rewrite G. apply (members_set_old_length b cat q ms _ t G).
  - rewrite dict_get_set_same.
    rewrite (members_set_old_length _ cat 0%Q [] _ t (dict_get_set_same _ _ _)).
    rewrite (members_set_new_length b cat _ G). cbn [snd List.length]. lia.
Qed.

Lemma breakdown_length (value : Transaction -> Q) (l : list Transaction) :
  forall b, List.length (members (fold_left (add_to_category value) l b))
            = (List.length (members b) + List.length l)%nat.
Proof.
  induction l as [|t l IH]; intros b; cbn [fold_left List.length]; [lia|].
  rewrite IH, add_to_category_length. lia.
Qed.

Lemma three_way_length {A} (f g : A -> bool) (l : list A) :
  (List.length (filter (fun x => negb (f x) && g x) l)
   + List.length (filter (fun x => negb (f x) && negb (g x)) l)
   + List.length (filter f l))%nat = List.length l.
Proof.
  induction l as [|x l IH]; [reflexivity|]. cbn [filter].
  destruct (f x), (g x); cbn [negb andb List.length]; lia.
Qed.

(** Extra X9.  In every summary, [transaction_count] is the number of lines of
    the income breakdown plus those of the expense breakdown plus the
    excluded transfers, and no transaction is listed in two of the three. *)
Theorem every_selected_transaction_is_filed_once (st : Storage)
    (year month : Z) (exclude : bool) (s : Summary) :
  get_monthly_summary st year month exclude = Some s ->
  transaction_count s
  = (List.length (members (income_by_category s))
     + List.length (members (expense_by_category s))
     + List.length (excluded_cc_transfers s))%nat /\
  (forall t, In t (members (income_by_category s)) ->
             ~ In t (members (expense_by_category s)) /\
             ~ In t (excluded_cc_transfers s)) /\
  (forall t, In t (members (expense_by_category s)) ->
             ~ In t (excluded_cc_transfers s)).
Proof.
  rewrite get_monthly_summary_selection.
  destruct (month_selection st year month) as [sel|]; [|discriminate].
  intros [= <-]. split; [|split].
  - unfold summarize.
    cbn [transaction_count income_by_category expense_by_category
         excluded_cc_transfers].
    rewrite !breakdown_length, classify_fold.
    cbn [income expenses excluded_transfers app members flat_map List.length].
    symmetry. apply three_way_length.
  - intros t. rewrite summarize_income_members, summarize_expense_members,
      summarize_excluded, filter_In.
    intros (_ & X & P). split; [intros (_ & _ & H) | intros (_ & H)]; congruence.
  - intros t. rewrite summarize_expense_members, summarize_excluded, filter_In.
    intros (_ & X & _) (_ & H). congruence.
Qed.

Lemma every_selected_transaction_is_filed_once_witness :
  exists s,
    get_monthly_summary both_sources_store 2026 3 true = Some s /\
    transaction_count s
    = (List.length (members (income_by_category s))
       + List.length (members (expense_by_category s))
       + List.length (excluded_cc_transfers s))%nat /\
    (forall t, In t (members (income_by_category s)) ->
               ~ In t (members (expense_by_category s)) /\
               ~ In t (excluded_cc_transfers s)) /\
    (forall t, In t (members (expense_by_category s)) ->
               ~ In t (excluded_cc_transfers s)).
Proof.
  eexists. split; [vm_compute; reflexivity|].
  apply (every_selected_transaction_is_filed_once both_sources_store 2026 3 true).
  vm_compute. reflexivity.
Defined.

(** Extra X10.  A transaction is among the excluded transfers only when the flag
    is on, its source is [bank], its description contains an issuer name, and
    the month also holds a [credit_card] line (which is never excluded).
    With the flag off, the list is empty and its total is 0. *)
Theorem only_bank_issuer_lines_are_excluded (st : Storage)
    (year month : Z) (exclude : bool) (s : Summary) :
  get_monthly_summary st year month exclude = Some s ->
  (forall t, In t (excluded_cc_transfers s) ->
     exclude = true /\ source t = "bank" /\
     mentions_issuer (description t) = true /\
     exists c, (In c (members (income_by_category s)) \/
                In c (members (expense_by_category s))) /\
               source c = "credit_card") /\
  (exclude = false -> excluded_cc_transfers s = [] /\ total_excluded s = 0%Q).
Proof.
  rewrite get_monthly_summary_selection.
  destruct (month_selection st year month) as [sel|] eqn:M; [|discriminate].
  intros [= <-]. split.
  - intros t. rewrite summarize_excluded, filter_In. unfold is_excluded.
    rewrite is_credit_card_transfer_spec.
    intros (Ht & H).
    apply andb_prop in H as [H I]. apply andb_prop in H as [E H].
    apply andb_prop in H as [_ Hc]. apply andb_prop in I as [Sb Mi].
    apply String.eqb_eq in Sb.
    repeat split; auto.
    apply existsb_exists in Hc as (c & Hc & Sc). apply String.eqb_eq in Sc.
    exists c. split; [|exact Sc].
    rewrite summarize_income_members, summarize_expense_members.
    assert (X : forall e b, is_excluded e b c = false).
    { intros e b. unfold is_excluded.
      rewrite is_credit_card_transfer_spec, Sc. cbn. apply andb_false_r. }
    destruct (Qltb 0 (amount c)); [left | right]; auto.
  - intros ->. rewrite summarize_excluded, summarize_total_excluded.
    unfold is_excluded. cbn [andb]. rewrite filter_false. split; reflexivity.
Qed.

Lemma only_bank_issuer_lines_are_excluded_witness :
  exists s,
    get_monthly_summary both_sources_store 2026 3 true = Some s /\
    (forall t, In t (excluded_cc_transfers s) ->
       true = true /\ source t = "bank" /\
       mentions_issuer (description t) = true /\
       exists c, (In c (members (income_by_category s)) \/
                  In c (members (expense_by_category s))) /\
                 source c = "credit_card") /\
    (true = false -> excluded_cc_transfers s = [] /\ total_excluded s = 0%Q).
Proof.
  eexists. split; [vm_compute; reflexivity|].
  apply (only_bank_issuer_lines_are_excluded both_sources_store 2026 3 true).
  vm_compute. reflexivity.
Defined.

(** Extra X11.  On a readable store [get_monthly_summary] returns a summary for
    every month from January of year 1 to November 9999, carrying the year
    and month asked for and counting no more transactions than are stored;
    for any other year or month (December 9999 included, which has no next
    month) it raises. *)
Theorem get_monthly_summary_returns_in_range (st : Storage)
    (year month : Z) (exclude : bool) :
  readable st = true ->
  (month_in_range year month = true ->
     exists s, get_monthly_summary st year month exclude = Some s /\
               s_year s = year /\ s_month s = month /\
               (transaction_count s <= List.length (_transactions st))%nat) /\
  (month_in_range year month = false ->
     get_monthly_summary st year month exclude = None).
Proof.
  intros R. split.
  - intros M. destruct (month_selection_total st year month R M) as (sel & E).
    exists (summarize year month exclude sel).
    rewrite get_monthly_summary_selection, E. repeat split.
    cbn [transaction_count summarize].
    destruct (month_selection_window st year month sel E)
      as (sd & ed & all & _ & _ & A & ->).
    destruct (select_readable _ (fun _ => true) R) as (all' & A' & _ & L).
    rewrite A in A'. injection A' as <-.
    rewrite sort_by_date_length, <- L. apply filter_length_le.
  - intros M. unfold get_monthly_summary, next_month_start, make, valid_date.
    unfold month_in_range in M.
    destruct (1 <=? year) eqn:Y1; [|reflexivity].
    destruct (year <=? 9999) eqn:Y2; [|reflexivity].
    destruct (1 <=? month) eqn:M1; [|reflexivity].
    destruct (month <=? 12) eqn:M2; [|reflexivity].
    cbn [andb] in *. apply negb_false_iff in M.
    apply andb_prop in M as [Ey Em].
    apply Z.eqb_eq in Ey, Em. subst. cbn. reflexivity.
Qed.

Lemma get_monthly_summary_returns_in_range_witness :
  (exists s, get_monthly_summary both_sources_store 2026 3 true = Some s /\
             s_year s = 2026 /\ s_month s = 3 /\
             (transaction_count s
              <= List.length (_transactions both_sources_store))%nat) /\
  get_monthly_summary both_sources_store 9999 12 true = None /\
  get_monthly_summary both_sources_store 2026 13 true = None /\
  get_monthly_summary both_sources_store 2026 0 true = None.
Proof.
  split; [|split; [|split]].
  - apply (proj1 (get_monthly_summary_returns_in_range
                    both_sources_store 2026 3 true eq_refl)). reflexivity.
  - apply (proj2 (get_monthly_summary_returns_in_range
                    both_sources_store 9999 12 true eq_refl)). reflexivity.
  - apply (proj2 (get_monthly_summary_returns_in_range
                    both_sources_store 2026 13 true eq_refl)). reflexivity.
  - apply (proj2 (get_monthly_summary_returns_in_range
                    both_sources_store 2026 0 true eq_refl)). reflexivity.
Defined.

(** *** The summary by category *)

Lemma add_amount_get (summary : Py.dict Q) (t : Transaction) (cat : string) :
  Py.dict_get (add_amount summary t) cat = bump cat (Py.dict_get summary cat) t.
Proof.
  unfold add_amount, bump, category_or_other, Py.dict_mem.
  set (k := Py.or_else (category t) OTHER).
  destruct (String.eqb_spec k cat) as [<- | N].
  - destruct (Py.dict_get summary k) as [x|] eqn:G; cbn [negb get_default].
    + rewrite G. apply dict_get_set_same.
    + rewrite dict_get_set_same. apply dict_get_set_same.
  - destruct (Py.dict_get summary k) as [x|] eqn:G; cbn [negb].
    + rewrite G. apply dict_get_set_other, N.
    + rewrite dict_get_set_same, !dict_get_set_other by exact N. reflexivity.
Qed.

Lemma fold_add_amount_get (l : list Transaction) (cat : string) :
  forall summary,
    Py.dict_get (fold_left add_amount l summary) cat
    = fold_left (bump cat) l (Py.dict_get summary cat).
Proof.
  induction l as [|t l IH]; intros summary; cbn [fold_left]; [reflexivity|].
  rewrite IH, add_amount_get. reflexivity.
Qed.

Lemma fold_bump_some (cat : string) (l : list Transaction) :
  forall x, exists y,
    fold_left (bump cat) l (Some x) = Some y /\
    (y == x + sum (map amount
                     (filter (fun t => String.eqb (category_or_other t) cat) l)))%Q.
Proof.
  induction l as [|t l IH]; intros x; cbn [fold_left filter].
  - exists x. split; [reflexivity|]. unfold sum. cbn. ring.
  - unfold bump at 2. destruct (String.eqb (category_or_other t) cat).
    + destruct (IH (get_default (Some x) 0 + amount t)%Q) as (y & E & Q).
      exists y. split; [exact E|]. rewrite Q. cbn [map get_default].
      rewrite sum_cons. ring.
    + apply IH.
Qed.

Lemma fold_bump_none (cat : string) (l : list Transaction) :
  match fold_left (bump cat) l None with
  | Some y =>
      (exists t, In t l /\ category_or_other t = cat) /\
      (y == sum (map amount
                   (filter (fun t => String.eqb (category_or_other t) cat) l)))%Q
  | None => forall t, In t l -> category_or_other t <> cat
  end.
Proof.
  induction l as [|t l IH]; cbn [fold_left filter].
  - intros t [].
  - unfold bump at 2. destruct (String.eqb_spec (category_or_other t) cat) as [E | N].
    + destruct (fold_bump_some cat l (get_default None 0 + amount t)%Q)
        as (y & -> & Q).
      split; [exists t; split; [left; reflexivity | exact E]|].
      rewrite Q. cbn [map get_default]. rewrite sum_cons. ring.
    + destruct (fold_left (bump cat) l None) as [y|].
      * destruct IH as ((t' & H & E) & Q). split; [|exact Q].
        exists t'. split; [right; exact H | exact E].
      * intros t' [<- | H]; [exact N | apply IH, H].
Qed.

(** Extra X12.  In the dictionary [get_summary_by_category] returns, a category
    is a key exactly when a selected transaction falls under it (a missing
    or empty category falls under the fallback key), and its value is the
    sum of the amounts of those transactions. *)
Theorem get_summary_by_category_entries (st : Storage)
    (start_date end_date : option datetime)
    (selected : list Transaction) (cat : string) :
  get_transactions st start_date end_date None None = Some selected ->
  exists summary,
    get_summary_by_category st start_date end_date = Some summary /\
    match Py.dict_get summary cat with
    | Some total =>
        (exists t, In t selected /\ category_or_other t = cat) /\
        (total == sum (map amount
                         (filter (fun t => String.eqb (category_or_other t) cat)
                                 selected)))%Q
    | None => forall t, In t selected -> category_or_other t <> cat
    end.
Proof.
  intros E. unfold get_summary_by_category. rewrite E.
  eexists. split; [reflexivity|].
  rewrite fold_add_amount_get. cbn [Py.dict_get]. apply fold_bump_none.
Qed.

Lemma get_summary_by_category_entries_witness :
  exists summary,
    get_summary_by_category both_sources_store None None = Some summary /\
    match Py.dict_get summary OTHER with
    | Some total =>
        (exists t, In t (sort_by_date [salary; card_bill; march_cc_supermarket]) /\
                   category_or_other t = OTHER) /\
        (total == sum (map amount
                         (filter (fun t => String.eqb (category_or_other t) OTHER)
                            (sort_by_date [salary; card_bill; march_cc_supermarket]))))%Q
    | None => forall t, In t (sort_by_date [salary; card_bill; march_cc_supermarket]) ->
                        category_or_other t <> OTHER
    end.
Proof.
  apply (get_summary_by_category_entries both_sources_store None None).
  vm_compute. reflexivity.
Defined.

(** ** More on the categorizer *)

Lemma dict_mem_get {V} (d : Py.dict V) (k : string) :
  Py.dict_mem d k = true <-> exists v, Py.dict_get d k = Some v.
Proof.
  unfold Py.dict_mem. destruct (Py.dict_get d k) as [v|].
  - split; eauto.
  - split; [discriminate | intros (v & H); discriminate].
Qed.

Lemma dict_get_In {V} (d : Py.dict V) (k : string) (v : V) :
  Py.dict_get d k = Some v -> In (k, v) d.
Proof.
  induction d as [|[k' v'] r IH]; cbn [Py.dict_get]; [discriminate|].
  destruct (String.eqb_spec k' k) as [-> | N].
  - intros [= ->]. left. reflexivity.
  - intros H. right. apply IH, H.
Qed.

Lemma partial_override_key (cats : Py.dict Category) (ovs : Py.dict string)
    (dl : string) r :
  partial_override cats ovs dl = Some r ->
  exists pattern cat, In (pattern, category_key_of r) ovs /\
    Py.dict_get cats (category_key_of r) = Some cat /\ r = entry (category_key_of r) cat.
Proof.
  induction ovs as [|[p k] rest IH]; cbn [partial_override]; [discriminate|].
  destruct (Py.str_in _ _ || Py.str_in _ _).
  - destruct (Py.dict_get cats k) as [cat|] eqn:G.
    + intros [= <-]. exists p, cat. cbn. auto.
    + intros H. destruct (IH H) as (p' & cat & I & G' & E).
      exists p', cat. split; [right|]; auto.
  - intros H. destruct (IH H) as (p' & cat & I & G' & E).
    exists p', cat. split; [right|]; auto.
Qed.

Lemma keyword_match_key (cats : Py.dict Category) (dl : string) r :
  keyword_match cats dl = Some r ->
  exists cat, In (category_key_of r, cat) cats /\ r = entry (category_key_of r) cat /\
    exists keyword, In keyword (get_default (keywords cat) []) /\
                    Py.str_in (Py.lower keyword) dl = true.
Proof.
  induction cats as [|[k c] rest IH]; cbn [keyword_match]; [discriminate|].
  destruct (existsb _ _) eqn:E.
  - intros [= <-]. exists c. cbn. split; [auto|]. split; [reflexivity|].
    apply existsb_exists in E. exact E.
  - intros H. destruct (IH H) as (cat & I & Er & K).
    exists cat. split; [right|]; auto.
Qed.

Lemma categorize_key_known (c : Categorizer) (description : string) :
  let key := category_key_of (categorize c description) in
  key = OTHER \/ exists cat, In (key, cat) (categories c).
Proof.
  cbv zeta. unfold categorize.
  destruct (exact_override c (Py.strip description)) as [r|] eqn:X.
  - unfold exact_override in X.
    destruct (Py.dict_get (overrides c) _) as [k|]; [|discriminate].
    destruct (Py.dict_get (categories c) k) as [cat|] eqn:G; [|discriminate].
    injection X as <-. right. exists cat. cbn. apply dict_get_In, G.
  - destruct (partial_override _ _ _) as [r|] eqn:P.
    + destruct (partial_override_key _ _ _ _ P) as (p & cat & _ & G & _).
      right. exists cat. apply dict_get_In, G.
    + destruct (keyword_match _ _) as [r|] eqn:K.
      * destruct (keyword_match_key _ _ _ K) as (cat & I & _).
        right. exists cat. exact I.
      * left. unfold default_category.
        destruct (Py.dict_get (categories c) OTHER); reflexivity.
Qed.

(** Extra X13.  The category key [categorize] returns is a key of the catalog or
    the fallback key, whatever the overrides hold. *)
Theorem categorize_returns_a_known_key (c : Categorizer) (description : string) :
  category_key_of (categorize c description) = OTHER \/
  exists cat,
    In (category_key_of (categorize c description), cat) (categories c).
Proof. apply categorize_key_known. Qed.

(** *** Removing and adding overrides *)

Lemma dict_get_del_other {V} (d : Py.dict V) (k k' : string) :
  k <> k' -> Py.dict_get (dict_del d k) k' = Py.dict_get d k'.
Proof.
  intros N. induction d as [|[k0 v0] r IH]; cbn [dict_del Py.dict_get]; [reflexivity|].
  destruct (String.eqb_spec k0 k) as [-> | N0]; cbn [Py.dict_get].
  - destruct (String.eqb_spec k k'); [contradiction | reflexivity].
  - rewrite IH. reflexivity.
Qed.

Lemma dict_get_none_not_key {V} (d : Py.dict V) (k : string) :
  Py.dict_get d k = None <-> ~ In k (map fst d).
Proof.
  induction d as [|[k0 v0] r IH]; cbn [Py.dict_get map fst In]; [intuition auto|].
  destruct (String.eqb_spec k0 k) as [-> | N].
  - split; [discriminate | intros H; exfalso; auto].
  - rewrite IH. intuition auto.
Qed.

Lemma dict_get_del_same {V} (d : Py.dict V) (k : string) :
  unique_keys d -> Py.dict_get (dict_del d k) k = None.
Proof.
  unfold unique_keys. induction d as [|[k0 v0] r IH]; cbn [dict_del map fst];
    [reflexivity|].
  intros U. inversion U as [|? ? N U']; subst.
  destruct (String.eqb_spec k0 k) as [-> | N0].
  - apply dict_get_none_not_key, N.
  - cbn [Py.dict_get]. destruct (String.eqb_spec k0 k); [contradiction|]. auto.
Qed.

Lemma dict_del_set_new {V} (d : Py.dict V) (k : string) (v : V) :
  Py.dict_get d k = None -> dict_del (Py.dict_set d k v) k = d.
Proof.
  induction d as [|[k0 v0] r IH]; cbn [Py.dict_set Py.dict_get dict_del].
  - rewrite String.eqb_refl. reflexivity.
  - destruct (String.eqb k0 k) eqn:E; [discriminate|].
    intros H. cbn [dict_del]. rewrite E, (IH H). reflexivity.
Qed.

Lemma dict_set_keys {V} (d : Py.dict V) (k : string) (v : V) :
  map fst (Py.dict_set d k v)
  = if Py.dict_mem d k then map fst d else map fst d ++ [k].
Proof.
  unfold Py.dict_mem.
  induction d as [|[k0 v0] r IH]; cbn [Py.dict_set Py.dict_get map fst]; [reflexivity|].
  destruct (String.eqb k0 k); cbn [map fst]; [reflexivity|].
  rewrite IH. destruct (Py.dict_get r k); reflexivity.
Qed.

Lemma dict_set_unique {V} (d : Py.dict V) (k : string) (v : V) :
  unique_keys d -> unique_keys (Py.dict_set d k v).
Proof.
  unfold unique_keys. rewrite dict_set_keys. unfold Py.dict_mem.
  destruct (Py.dict_get d k) eqn:G; [auto|]. intros U.
  apply NoDup_app; [exact U | repeat constructor; intros [] |].
  intros x H [<- | []]. apply dict_get_none_not_key in G. contradiction.
Qed.

Lemma dict_del_unique {V} (d : Py.dict V) (k : string) :
  unique_keys d -> unique_keys (dict_del d k).
Proof.
  unfold unique_keys. induction d as [|[k0 v0] r IH]; cbn [dict_del map fst]; [auto|].
  intros U. inversion U as [|? ? N U']; subst.
  destruct (String.eqb k0 k); [exact U'|]. cbn [map fst]. constructor; [|auto].
  intros H. apply N. clear - H.
  induction r as [|[k1 v1] r IH]; cbn [dict_del map fst In] in *; [exact H|].
  destruct (String.eqb k1 k); [right; exact H|].
  cbn [map fst In] in H. destruct H; auto.
Qed.

(** Extra X14.  [remove_override] on a pattern that is not an override returns
    [False] and changes nothing; on an override it returns [True], the
    pattern is gone, every other pattern is mapped as before, and the
    overrides are saved. *)
Theorem remove_override_removes_one_pattern (c : Categorizer) (description : string) :
  (Py.dict_mem (overrides c) description = false ->
     remove_override c description = (false, c)) /\
  (Py.dict_mem (overrides c) description = true ->
     unique_keys (overrides c) ->
     let r := remove_override c description in
     fst r = true /\
     Py.dict_get (list_overrides (snd r)) description = None /\
     (forall other, other <> description ->
        Py.dict_get (list_overrides (snd r)) other
        = Py.dict_get (list_overrides c) other) /\
     unique_keys (overrides (snd r)) /\
     overrides_file (snd r) = overrides (snd r) /\
     categories (snd r) = categories c).
Proof.
  unfold remove_override. split; intros M; rewrite M; [reflexivity|].
  intros U. cbn [fst snd list_overrides save_overrides overrides overrides_file categories].
  repeat split.
  - apply dict_get_del_same, U.
  - intros other N. apply dict_get_del_other. congruence.
  - apply dict_del_unique, U.
Qed.

Lemma remove_override_removes_one_pattern_witness :
  remove_override one_override "SHUFERSAL" = (false, one_override) /\
  (let r := remove_override one_override "PAZ YELLOW" in
   fst r = true /\
   Py.dict_get (list_overrides (snd r)) "PAZ YELLOW" = None /\
   (forall other, other <> "PAZ YELLOW" ->
      Py.dict_get (list_overrides (snd r)) other
      = Py.dict_get (list_overrides one_override) other) /\
   unique_keys (overrides (snd r)) /\
   overrides_file (snd r) = overrides (snd r) /\
   categories (snd r) = categories one_override).
Proof.
  split.
  - apply (proj1 (remove_override_removes_one_pattern one_override "SHUFERSAL")).
    reflexivity.
  - apply (proj2 (remove_override_removes_one_pattern one_override "PAZ YELLOW"));
      [reflexivity|]. repeat constructor. intros [].
Defined.

(** Extra X15.  Adding an override for a pattern that had none and removing it
    again gives back the overrides as they were, order included, and saves
    them. *)
Theorem add_then_remove_override_restores (c : Categorizer)
    (description category_key : string) :
  Py.dict_mem (overrides c) description = false ->
  Py.dict_mem (categories c) category_key = true \/ category_key = OTHER ->
  let added := snd (add_override c description category_key) in
  remove_override added description
  = (true, mkCategorizer (categories c) (overrides c) (overrides c)).
Proof.
  intros M V. unfold add_override.
  assert (G : negb (Py.dict_mem (categories c) category_key) &&
              negb (String.eqb category_key OTHER) = false).
  { destruct V as [-> | ->]; [reflexivity|].
    rewrite String.eqb_refl. apply andb_false_r. }
  rewrite G. cbn [snd]. unfold remove_override, save_overrides.
  cbn [overrides categories overrides_file]. unfold Py.dict_mem at 1.
  rewrite dict_get_set_same.
  rewrite dict_del_set_new; [reflexivity|].
  unfold Py.dict_mem in M. destruct (Py.dict_get (overrides c) description);
    [discriminate | reflexivity].
Qed.

Lemma add_then_remove_override_restores_witness :
  remove_override (snd (add_override one_override "SHUFERSAL" "food")) "SHUFERSAL"
  = (true, mkCategorizer (categories one_override) (overrides one_override)
                         (overrides one_override)).
Proof.
  apply (add_then_remove_override_restores one_override "SHUFERSAL" "food");
    [reflexivity | left; reflexivity].
Defined.

(** Extra X16.  After [add_override] with a category of the catalog, every
    description whose trimmed form is the pattern is categorized under that
    category. *)
Theorem added_override_decides (c : Categorizer)
    (pattern category_key description : string) (cat : Category) :
  Py.dict_get (categories c) category_key = Some cat ->
  Py.strip description = pattern ->
  add_override c pattern category_key
    = (true, snd (add_override c pattern category_key)) /\
  categorize (snd (add_override c pattern category_key)) description
    = entry category_key cat.
Proof.
  intros G S. unfold add_override, Py.dict_mem. rewrite G. cbn [negb andb snd].
  split; [reflexivity|].
  unfold categorize, exact_override, save_overrides. cbn [overrides categories].
  rewrite S, dict_get_set_same, G. reflexivity.
Qed.

Lemma added_override_decides_witness :
  add_override one_override "SUPERMARKET" "fuel"
    = (true, snd (add_override one_override "SUPERMARKET" "fuel")) /\
  categorize (snd (add_override one_override "SUPERMARKET" "fuel")) "  SUPERMARKET "
    = entry "fuel" (mkCategory (Some "דלק") (Some "Fuel") (Some ["paz"; "delek"])).
Proof.
  apply (added_override_decides one_override "SUPERMARKET" "fuel" "  SUPERMARKET ");
    reflexivity.
Defined.

(** *** Overrides written by the command line *)

Lemma dict_set_In {V} (d : Py.dict V) (k : string) (v : V) (k' : string) (v' : V) :
  In (k', v') (Py.dict_set d k v) -> (k', v') = (k, v) \/ In (k', v') d.
Proof.
  induction d as [|[k0 v0] r IH]; cbn [Py.dict_set In].
  - intros [H | []]. left. congruence.
  - destruct (String.eqb_spec k0 k) as [-> | N]; cbn [In].
    + intros [H | H]; [left; congruence | right; right; exact H].
    + intros [H | H]; [right; left; exact H|].
      destruct (IH H); auto.
Qed.

(** Extra X17.  [cmd_override] adds nothing for a category that is not in the
    catalog, and keeps the property that every override names a category of
    the catalog; on the categorizer it leaves, an exact override always
    decides the category. *)
Theorem cmd_override_keeps_overrides_known (c : Categorizer)
    (description category_arg : string) :
  overrides_known c ->
  overrides_known (cmd_override c description category_arg) /\
  categories (cmd_override c description category_arg) = categories c /\
  (Py.dict_mem (categories c) category_arg = false ->
     cmd_override c description category_arg = c) /\
  (forall text cat_key,
     Py.dict_get (overrides (cmd_override c description category_arg))
                 (Py.strip text) = Some cat_key ->
     category_key_of (categorize (cmd_override c description category_arg) text)
     = cat_key).
Proof.
  intros K.
  assert (K' : overrides_known (cmd_override c description category_arg) /\
               categories (cmd_override c description category_arg) = categories c).
  { unfold cmd_override.
    destruct (Py.dict_mem (categories c) category_arg) eqn:M; cbn [negb]; [|auto].
    unfold add_override. rewrite M. cbn [negb andb snd].
    split; [|reflexivity]. intros p k. cbn [overrides categories save_overrides].
    intros H. apply dict_set_In in H as [[= -> ->] | H]; [exact M | eapply K, H]. }
  destruct K' as [K1 K2]. split; [exact K1|]. split; [exact K2|]. split.
  - intros M. unfold cmd_override. rewrite M. reflexivity.
  - intros text k G.
    pose proof (K1 _ _ (dict_get_In _ _ _ G)) as M.
    apply dict_mem_get in M as (cat & Gc).
    unfold categorize, exact_override. rewrite G, Gc. reflexivity.
Qed.

Lemma cmd_override_keeps_overrides_known_witness :
  overrides_known (cmd_override one_override "SUPERMARKET" "fuel") /\
  categories (cmd_override one_override "SUPERMARKET" "fuel")
    = categories one_override /\
  (Py.dict_mem (categories one_override) "fuel" = false ->
     cmd_override one_override "SUPERMARKET" "fuel" = one_override) /\
  (forall text cat_key,
     Py.dict_get (overrides (cmd_override one_override "SUPERMARKET" "fuel"))
                 (Py.strip text) = Some cat_key ->
     category_key_of (categorize (cmd_override one_override "SUPERMARKET" "fuel") text)
     = cat_key).
Proof.
  apply (cmd_override_keeps_overrides_known one_override "SUPERMARKET" "fuel").
  intros p k [[= <- <-] | []]. reflexivity.
Defined.

(** *** The empty description *)

Lemma str_in_empty (hay : string) : Py.str_in "" hay = true.
Proof. destruct hay; reflexivity. Qed.

(** Extra X18.  The empty description is contained in every pattern, so when
    the first override names a category of the catalog (and no later
    override has the empty pattern), [categorize] files the empty
    description under that category. *)
Theorem empty_description_takes_first_known_override (c : Categorizer)
    (pattern cat_key : string) (cat : Category) (rest : Py.dict string) :
  overrides c = (pattern, cat_key) :: rest ->
  Py.dict_get (categories c) cat_key = Some cat ->
  Py.dict_mem rest "" = false ->
  categorize c "" = entry cat_key cat.
Proof.
  intros O G M. unfold categorize, exact_override. rewrite O.
  cbn [Py.strip Py.lstrip Py.rstrip Py.lower Py.dict_get partial_override].
  rewrite str_in_empty, orb_true_r, G.
  destruct (String.eqb pattern ""); [rewrite G; reflexivity|].
  unfold Py.dict_mem in M. destruct (Py.dict_get rest ""); [discriminate|].
  reflexivity.
Qed.

Lemma empty_description_takes_first_known_override_witness :
  categorize one_override ""
  = entry "fuel" (mkCategory (Some "דלק") (Some "Fuel") (Some ["paz"; "delek"])).
Proof.
  apply (empty_description_takes_first_known_override
           one_override "PAZ YELLOW" "fuel" _ []); reflexivity.
Defined.

(** *** Letter case *)

(** Extra X19.  Two descriptions with the same lower-case form are categorized
    alike, unless the trimmed form of one of them is an override pattern. *)
Theorem categorize_ignores_letter_case (c : Categorizer) (d1 d2 : string) :
  Py.lower d1 = Py.lower d2 ->
  Py.dict_mem (overrides c) (Py.strip d1) = false ->
  Py.dict_mem (overrides c) (Py.strip d2) = false ->
  categorize c d1 = categorize c d2.
Proof.
  intros L M1 M2.
  assert (X : forall d, Py.dict_mem (overrides c) (Py.strip d) = false ->
                        exact_override c (Py.strip d) = None).
  { intros d M. unfold exact_override. unfold Py.dict_mem in M.
    destruct (Py.dict_get (overrides c) (Py.strip d)); [discriminate | reflexivity]. }
  unfold categorize. rewrite (X d1 M1), (X d2 M2), L. reflexivity.
Qed.

Lemma categorize_ignores_letter_case_witness :
  categorize one_override "Paz Yellow Haifa" = categorize one_override "PAZ yellow HAIFA".
Proof.
  apply (categorize_ignores_letter_case one_override); reflexivity.
Defined.

(** *** Categorizing a batch *)

Lemma same_keys_duplicate (s1 s2 : list TDict) (x1 x2 : TDict) :
  same_keys s1 s2 ->
  d_date x1 = d_date x2 -> d_description x1 = d_description x2 ->
  d_amount x1 = d_amount x2 ->
  is_duplicate s1 x1 = is_duplicate s2 x2.
Proof.
  intros H Ed Es Ea. unfold is_duplicate.
  induction H as [|a b s1 s2 (Hd & Hs & Ha) _ IH]; cbn [existsb]; [reflexivity|].
  rewrite IH. unfold same_identity. rewrite Hd, Hs, Ha, Ed, Es, Ea. reflexivity.
Qed.

Lemma fold_add_one_categorized (c : Categorizer) (l : list Transaction) :
  forall s1 s2 n, same_keys s1 s2 ->
    snd (fold_left add_one (categorize_transactions c l) (s1, n))
      = snd (fold_left add_one l (s2, n)) /\
    same_keys (fst (fold_left add_one (categorize_transactions c l) (s1, n)))
              (fst (fold_left add_one l (s2, n))).
Proof.
  induction l as [|t l IH]; intros s1 s2 n K; cbn [categorize_transactions map fold_left].
  - split; [reflexivity | exact K].
  - set (t' := set_category t (category_key_of (categorize c (description t)))).
    assert (E1 : add_one (s1, n) t'
                 = if is_duplicate s2 (to_dict t) then (s1, n)
                   else (s1 ++ [to_dict t'], S n)).
    { unfold add_one. cbn [fst snd].
      rewrite (same_keys_duplicate s1 s2 (to_dict t') (to_dict t) K
                 eq_refl eq_refl eq_refl). reflexivity. }
    assert (E2 : add_one (s2, n) t
                 = if is_duplicate s2 (to_dict t) then (s2, n)
                   else (s2 ++ [to_dict t], S n)) by reflexivity.
    rewrite E1, E2.
    destruct (is_duplicate s2 (to_dict t)).
    + apply IH, K.
    + apply IH. apply Forall2_app; [exact K|]. repeat constructor.
Qed.

(** Extra X20.  [categorize_transactions] keeps the number and order of the
    transactions and all their fields but the category, which becomes a key
    of the catalog or the fallback key; and [add_transactions] adds as many
    of the categorized transactions as it would of the original ones. *)
Theorem categorize_transactions_touches_only_the_category (c : Categorizer)
    (l : list Transaction) :
  List.length (categorize_transactions c l) = List.length l /\
  Forall2 (fun t t' =>
             to_dict t' = to_dict (set_category t
                            (category_key_of (categorize c (description t)))) /\
             date t' = date t /\ description t' = description t /\
             amount t' = amount t /\ source t' = source t /\
             exists key, category t' = Some key /\
               (key = OTHER \/ exists cat, In (key, cat) (categories c)))
          l (categorize_transactions c l) /\
  (forall st source_file,
     fst (add_transactions st (categorize_transactions c l) source_file)
     = fst (add_transactions st l source_file)).
Proof.
  split; [apply length_map|]. split.
  - unfold categorize_transactions. induction l as [|t l IH]; cbn [map]; constructor; auto.
    repeat split. eexists. split; [reflexivity|].
    apply categorize_key_known.
  - intros st sf. rewrite !add_transactions_count.
    apply fold_add_one_categorized.
    clear. induction (_transactions st); constructor; auto.
Qed.

(** ** More on the parsers *)

(** *** Dates read from text *)

Lemma first_success_some {A B} (alts : list A) (k : A -> option B) (b : B) :
  first_success alts k = Some b -> exists a, In a alts /\ k a = Some b.
Proof.
  induction alts as [|a r IH]; cbn [first_success]; [discriminate|].
  destruct (k a) eqn:E.
  - intros [= <-]. exists a. split; [left; reflexivity | exact E].
  - intros H. destruct (IH H) as (a' & I & E'). exists a'. split; [right|]; auto.
Qed.

Lemma make_valid (y m d : Z) (dt : datetime) :
  make y m d = Some dt -> valid dt = true /\ at_midnight dt.
Proof.
  unfold make. destruct (valid_date y m d) eqn:V; [|discriminate].
  intros [= <-]. unfold valid, at_midnight. cbn. rewrite V. auto.
Qed.

Lemma strptime_from_valid (fmt : string) :
  (forall s y m d dt, strptime_from fmt s y m d = Some dt ->
                      valid dt = true /\ at_midnight dt) /\
  (forall c s y m d dt, strptime_from (String c fmt) s y m d = Some dt ->
                        valid dt = true /\ at_midnight dt).
Proof.
  induction fmt as [|k fmt [IH1 IH2]].
  - split.
    + intros s y m d dt. cbn [strptime_from]. destruct s; [|discriminate].
      apply make_valid.
    + intros c s y m d dt. cbn [strptime_from].
      destruct c as [[] [] [] [] [] [] [] []];
        (destruct s as [|c' r]; [discriminate|]);
        (destruct (Ascii.eqb _ c'); [|discriminate]);
        cbn [strptime_from]; (destruct r; [|discriminate]); apply make_valid.
  - split; [exact (IH2 k)|].
    intros c s y m d dt.
    assert (L : (match s with
                 | String c' r => if Ascii.eqb c c' then strptime_from (String k fmt) r y m d
                                  else None
                 | EmptyString => None
                 end = Some dt) -> valid dt = true /\ at_midnight dt).
    { destruct s as [|c' r]; [discriminate|].
      destruct (Ascii.eqb c c'); [|discriminate]. apply (IH2 k). }
    assert (F : forall alts (g : Z * string -> option datetime),
              (forall p, g p = Some dt -> valid dt = true /\ at_midnight dt) ->
              first_success alts g = Some dt -> valid dt = true /\ at_midnight dt).
    { intros alts g Hg H. apply first_success_some in H as (a & _ & E). eauto. }
    destruct (Ascii.eqb c "%") eqn:P.
    + apply Ascii.eqb_eq in P. subst c. cbn [strptime_from].
      destruct (Ascii.eqb k "d"); [apply F; intros p; apply IH1|].
      destruct (Ascii.eqb k "m"); [apply F; intros p; apply IH1|].
      destruct (Ascii.eqb k "y"); [apply F; intros p; apply IH1|].
      destruct (Ascii.eqb k "Y"); [apply F; intros p; apply IH1|].
      discriminate.
    + intros H. apply L. revert H. clear - P.
      destruct c as [[] [] [] [] [] [] [] []]; try exact (fun H => H).
      discriminate.
Qed.

(** Extra X21.  [parse_date] returns a date only for a date cell, which it hands
    back, or for a text cell, and then the date is a day of the calendar at
    midnight; empty cells and numbers give [None]. *)
Theorem parse_date_reads_real_days (date_val : Cell) (dt : datetime) :
  parse_date date_val = Some dt ->
  date_val = Date dt \/
  (exists s, date_val = Str s) /\ valid dt = true /\ at_midnight dt.
Proof.
  destruct date_val as [|s|n|x|d]; cbn [parse_date]; try discriminate.
  - intros H. right. split; [eauto|].
    apply first_success_some in H as (fmt & _ & H).
    unfold strptime in H. eapply (proj1 (strptime_from_valid fmt)), H.
  - intros [= ->]. left. reflexivity.
Qed.

Lemma parse_date_reads_real_days_witness :
  Str "29.02.24" = Date (mk_datetime 2024 2 29 0 0 0 0) \/
  (exists s, Str "29.02.24" = Str s) /\
  valid (mk_datetime 2024 2 29 0 0 0 0) = true /\
  at_midnight (mk_datetime 2024 2 29 0 0 0 0).
Proof.
  apply (parse_date_reads_real_days (Str "29.02.24")). reflexivity.
Defined.

(** *** Bank statements *)

Section BankFacts.

Variable float_of_str : string -> option Q.
Variable str_of_float : Q -> string.

Lemma positive_amount_some (o : option Q) (x : Q) :
  positive_amount o = Some x -> o = Some x /\ (0 < x)%Q.
Proof.
  unfold positive_amount. destruct o as [v|]; [|discriminate].
  destruct (truthy_amount (Some v) && Qltb 0 v) eqn:E; [|discriminate].
  intros [= <-]. apply andb_prop in E as [_ E]. split; [reflexivity|].
  apply Qltb_lt, E.
Qed.

Lemma bank_row_lines (file_path : string) (row : list Cell) (t : Transaction) :
  In t (bank_row float_of_str str_of_float file_path row) ->
  bank_line float_of_str file_path row t.
Proof.
  unfold bank_row, bank_line.
  destruct (parse_date (iloc row 0)) as [d|]; [|intros []].
  intros H. apply in_app_or in H as [H | H].
  - destruct (positive_amount (parse_amount float_of_str (iloc row 4))) as [x|] eqn:P;
      [|destruct H].
    destruct H as [<- | []]. apply positive_amount_some in P as [P L].
    cbn. repeat split; auto. left. eauto.
  - destruct (positive_amount (parse_amount float_of_str (iloc row 5))) as [x|] eqn:P;
      [|destruct H].
    destruct H as [<- | []]. apply positive_amount_some in P as [P L].
    cbn. repeat split; auto. right. eauto.
Qed.

Lemma bank_row_length (file_path : string) (row : list Cell) :
  (List.length (bank_row float_of_str str_of_float file_path row) <= 2)%nat.
Proof.
  unfold bank_row. destruct (parse_date _); [|cbn; lia].
  rewrite length_app.
  destruct (positive_amount _), (positive_amount _); cbn; lia.
Qed.

Lemma bank_rows_fold (file_path : string) (rows : list (list Cell)) :
  forall acc,
    fold_left (fun transactions row =>
                 transactions ++ bank_row float_of_str str_of_float file_path row)
              rows acc
    = acc ++ flat_map (bank_row float_of_str str_of_float file_path) rows.
Proof.
  induction rows as [|row rows IH]; intros acc; cbn [fold_left flat_map].
  - rewrite app_nil_r. reflexivity.
  - rewrite IH, app_assoc. reflexivity.
Qed.

Lemma find_header_spec (df : DataFrame) :
  forall idx,
    match find_header str_of_float df idx with
    | Some h =>
        (idx <= h < idx + List.length df)%nat /\
        (exists row, nth_error df (h - idx) = Some row /\
                     is_bank_header str_of_float row = true) /\
        (forall row, In row (firstn (h - idx) df) ->
                     is_bank_header str_of_float row = false)
    | None => forall row, In row df -> is_bank_header str_of_float row = false
    end.
Proof.
  induction df as [|row df IH]; intros idx; cbn [find_header].
  - intros ? [].
  - destruct (is_bank_header str_of_float row) eqn:E.
    + rewrite Nat.sub_diag. cbn. split; [lia|]. split; [eauto | intros ? []].
    + specialize (IH (S idx)). destruct (find_header str_of_float df (S idx)) as [h|].
      * destruct IH as (B & (r & N & Hr) & F).
        replace (h - idx)%nat with (S (h - S idx)) by lia.
        cbn [List.length nth_error firstn]. split; [lia|]. split; [eauto|].
        intros r' [<- | H]; auto.
      * intros r' [<- | H]; auto.
Qed.

End BankFacts.

Lemma bank_statement_lines_aux (float_of_str : string -> option Q)
    (str_of_float : Q -> string) (file_path : string) (df : DataFrame)
    (result : list Transaction) :
  parse_bank_statement float_of_str str_of_float file_path df = Some result ->
  (forall t, In t result ->
     source t = "bank" /\ currency t = "ILS" /\ source_file t = file_path /\
     card_number t = None /\ category t = None /\ ~ (amount t == 0)%Q /\
     exists row, In row df /\ bank_line float_of_str file_path row t) /\
  (List.length result <= 2 * (List.length df - 1))%nat.
Proof.
  unfold parse_bank_statement.
  pose proof (find_header_spec str_of_float df 0) as F.
  destruct (find_header str_of_float df 0) as [h|]; [|discriminate].
  intros [= <-]. rewrite bank_rows_fold, app_nil_l. split.
  - intros t H. apply in_flat_map in H as (row & Hr & Ht).
    pose proof (bank_row_lines _ _ _ _ _ Ht) as L.
    assert (Hdf : In row df).
    { rewrite <- (firstn_skipn (S h) df). apply in_or_app. right. exact Hr. }
    destruct L as (D & S & C & Sf & Cn & Ca & A).
    repeat split; auto.
    + destruct A as [(x & _ & P & E) | (x & _ & P & E)]; rewrite E; intros Z.
      * assert (x == 0)%Q by (rewrite <- (Qopp_involutive x), Z; reflexivity).
        rewrite H in P. discriminate.
      * rewrite Z in P. discriminate.
    + exists row. split; [exact Hdf|]. repeat split; auto.
  - destruct F as (B & _).
    assert (G : forall rows,
      (List.length (flat_map (bank_row float_of_str str_of_float file_path) rows)
       <= 2 * List.length rows)%nat).
    { induction rows as [|r rows IH]; cbn [flat_map List.length]; [lia|].
      rewrite length_app. pose proof (bank_row_length float_of_str str_of_float file_path r). lia. }
    specialize (G (skipn (S h) df)). rewrite length_skipn in G.
    change (match df with [] => [] | _ :: l => skipn h l end)
      with (skipn (S h) df). lia.
Qed.


(** Extra X22.  Every transaction [parse_bank_statement] returns has source
    [bank], currency [ILS], the file path as its source file, no card number
    and no category; it comes from a row whose date cell parses, its amount
    is minus a positive debit or a positive credit of that row, hence never
    zero.  The result has at most two transactions for each row but one. *)
Theorem bank_statement_lines (float_of_str : string -> option Q)
    (str_of_float : Q -> string) (file_path : string) (df : DataFrame)
    (result : list Transaction) :
  parse_bank_statement float_of_str str_of_float file_path df = Some result ->
  (forall t, In t result ->
     source t = "bank" /\ currency t = "ILS" /\ source_file t = file_path /\
     card_number t = None /\ category t = None /\ ~ (amount t == 0)%Q /\
     exists row, In row df /\ bank_line float_of_str file_path row t) /\
  (List.length result <= 2 * (List.length df - 1))%nat.
Proof. apply bank_statement_lines_aux. Qed.

Lemma bank_statement_lines_witness :
  exists result,
    bank_parse = Some result /\
    (forall t, In t result ->
       source t = "bank" /\ currency t = "ILS" /\
       source_file t = "in/bank_march.xlsx" /\
       card_number t = None /\ category t = None /\ ~ (amount t == 0)%Q /\
       exists row, In row bank_sheet /\
                   bank_line float_of_decimal "in/bank_march.xlsx" row t) /\
    (List.length result <= 2 * (List.length bank_sheet - 1))%nat.
Proof.
  eexists. split; [vm_compute; reflexivity|].
  apply (bank_statement_lines float_of_decimal str_of_decimal
           "in/bank_march.xlsx" bank_sheet).
  vm_compute. reflexivity.
Defined.



(** *** Card numbers *)

Lemma search_four_digits_shape (s p : string) :
  search_four_digits s = Some p -> four_digits p.
Proof.
  induction s as [|c r IH]; cbn [search_four_digits]; [discriminate|].
  destruct ((String.length (substring 0 4 (String c r)) =? 4)%nat
            && all_digits (substring 0 4 (String c r))) eqn:E.
  - intros [= <-]. apply andb_prop in E as [L D].
    apply Nat.eqb_eq in L. split; assumption.
  - exact IH.
Qed.

Lemma search_trailing_card_shape (val p : string) :
  search_trailing_card val = Some p -> four_digits p.
Proof.
  unfold search_trailing_card.
  destruct (drop_spaces (rev (list_ascii_of_string val)))
    as [|d4 [|d3 [|d2 [|d1 before]]]]; try discriminate.
  destruct (is_digit d1 && is_digit d2 && is_digit d3 && is_digit d4) eqn:E;
    [|discriminate].
  assert (F : four_digits (string_of_list_ascii [d1; d2; d3; d4])).
  { apply andb_prop in E as [E E4]. apply andb_prop in E as [E E3].
    apply andb_prop in E as [E1 E2].
    split; [reflexivity|]. cbn [all_digits string_of_list_ascii].
    rewrite E1, E2, E3, E4. reflexivity. }
  revert F. generalize (string_of_list_ascii [d1; d2; d3; d4]). intros g F.
  repeat match goal with
         | |- context [match ?x with _ => _ end] => destruct x
         end;
    solve [discriminate | intros [= <-]; exact F].
Qed.

Lemma find_card_number_shape (file_path : string) (df : DataFrame) (p : string) :
  find_card_number file_path df = Some p -> four_digits p.
Proof.
  unfold find_card_number.
  assert (G : forall start,
    (forall q, start = Some q -> four_digits q) ->
    fold_left (fun card_number row =>
                 match card_in_row row with
                 | Some c => Some c
                 | None => card_number
                 end) df start = Some p -> four_digits p).
  { induction df as [|row df IH]; intros start Hs; cbn [fold_left]; [apply Hs|].
    apply IH. destruct (card_in_row row) as [c|] eqn:C; [|exact Hs].
    intros q [= <-]. clear - C.
    induction row as [|v row IH]; cbn [card_in_row] in C; [discriminate|].
    destruct v; auto.
    destruct (search_trailing_card s) eqn:T; [|auto].
    injection C as <-. eapply search_trailing_card_shape, T. }
  apply G. intros q. apply search_four_digits_shape.
Qed.

(** *** More on credit-card statements *)

Section CardDetails.

Variable float_of_str : string -> option Q.
Variable str_of_float : Q -> string.

Lemma scan_row_detail (file_path : string) (card : option string)
    (st : Scan) (row : list Cell) :
  (transactions (scan_row float_of_str str_of_float file_path card st row)
     = transactions st /\
   (in_transaction_section
      (scan_row float_of_str str_of_float file_path card st row) = true ->
    in_transaction_section st = true \/ is_card_header str_of_float row = true)) \/
  (in_transaction_section st = true /\
   in_transaction_section
     (scan_row float_of_str str_of_float file_path card st row) = true /\
   exists t,
     transactions (scan_row float_of_str str_of_float file_path card st row)
       = transactions st ++ [t] /\
     Py.truthy (description t) = true /\ description t <> NOT_YET_POSTED /\
     source_file t = file_path /\ card_number t = card /\ category t = None).
Proof.
  unfold scan_row.
  change (Py.str_in "תאריך רכישה"
            (join_blank (map (fun v => if isna v then "" else str_of str_of_float v) row))
          && Py.str_in "שם בית עסק"
            (join_blank (map (fun v => if isna v then "" else str_of str_of_float v) row)))
    with (is_card_header str_of_float row).
  destruct (is_card_header str_of_float row); [left; split; auto|].
  destruct (in_transaction_section st) eqn:S; [|left; split; [reflexivity | congruence]].
  destruct (isna (iloc row 0)); [left; split; auto|].
  destruct (Py.str_in TOTALS _ || String.eqb _ ""); [left; split; [reflexivity | discriminate]|].
  destruct (parse_date (iloc row 0)) as [date|]; [|left; split; auto].
  destruct (negb (Py.truthy _) || String.eqb _ NOT_YET_POSTED) eqn:N;
    [left; split; auto|].
  apply orb_false_iff in N as [N1 N2].
  apply negb_false_iff in N1. apply String.eqb_neq in N2.
  destruct (parse_amount float_of_str (iloc row 4)) as [x|].
  - right. split; [reflexivity|]. split; [reflexivity|]. eexists.
    split; [reflexivity|]. cbn. auto.
  - destruct (parse_amount float_of_str (iloc row 2)) as [x|]; [|left; split; auto].
    right. split; [reflexivity|]. split; [reflexivity|]. eexists.
    split; [reflexivity|]. cbn. auto.
Qed.

Lemma scan_rows_detail (file_path : string) (card : option string)
    (P : Transaction -> Prop) :
  (forall t, Py.truthy (description t) = true -> description t <> NOT_YET_POSTED ->
             source_file t = file_path -> card_number t = card ->
             category t = None -> P t) ->
  forall df st,
    Forall P (transactions st) ->
    Forall P (transactions
                (fold_left (scan_row float_of_str str_of_float file_path card) df st)) /\
    (List.length (transactions
                (fold_left (scan_row float_of_str str_of_float file_path card) df st))
     <= List.length (transactions st) + List.length df)%nat.
Proof.
  intros HP. induction df as [|row df IH]; intros st F; cbn [fold_left List.length].
  - split; [exact F | lia].
  - destruct (scan_row_detail file_path card st row)
      as [(E & _) | (_ & _ & t & E & D1 & D2 & D3 & D4 & D5)].
    + destruct (IH (scan_row float_of_str str_of_float file_path card st row))
        as (F' & L); [rewrite E; exact F|].
      split; [exact F'|]. rewrite E in L. lia.
    + destruct (IH (scan_row float_of_str str_of_float file_path card st row))
        as (F' & L).
      { rewrite E. apply Forall_app. split; [exact F|]. repeat constructor. auto. }
      split; [exact F'|]. rewrite E, length_app in L. cbn [List.length] in L. lia.
Qed.

Lemma scan_rows_without_header (file_path : string) (card : option string)
    (df : DataFrame) :
  (forall row, In row df -> is_card_header str_of_float row = false) ->
  forall st, in_transaction_section st = false ->
    transactions (fold_left (scan_row float_of_str str_of_float file_path card) df st)
    = transactions st.
Proof.
  induction df as [|row df IH]; intros H st S; cbn [fold_left]; [reflexivity|].
  destruct (scan_row_detail file_path card st row) as [(E & I) | (S' & _)];
    [|congruence].
  rewrite IH.
  - exact E.
  - intros r Hr. apply H. right. exact Hr.
  - destruct (in_transaction_section (scan_row _ _ _ _ st row)) eqn:S2; [|reflexivity].
    destruct (I eq_refl) as [X | X]; [congruence|].
    rewrite (H row (or_introl eq_refl)) in X. discriminate.
Qed.

End CardDetails.

Lemma credit_card_details_aux (float_of_str : string -> option Q)
    (str_of_float : Q -> string) (file_path : string) (df : DataFrame) :
  let result :=
    parse_credit_card_statement float_of_str str_of_float file_path df in
  (forall t, In t result ->
     description t <> "" /\ description t <> NOT_YET_POSTED /\
     source_file t = file_path /\ category t = None /\
     card_number t = find_card_number file_path df) /\
  (forall c, find_card_number file_path df = Some c -> four_digits c) /\
  (List.length result <= List.length df - 1)%nat /\
  ((forall row, In row df -> is_card_header str_of_float row = false) ->
   result = []).
Proof.
  cbv zeta. unfold parse_credit_card_statement.
  set (card := find_card_number file_path df).
  split; [|split; [|split]].
  - apply Forall_forall.
    apply (scan_rows_detail float_of_str str_of_float file_path card
             (fun t => description t <> "" /\ description t <> NOT_YET_POSTED /\
                       source_file t = file_path /\ category t = None /\
                       card_number t = card)); [|constructor].
    intros t T N S C Ca. repeat split; auto.
    intros E. rewrite E in T. discriminate.
  - intros c. apply find_card_number_shape.
  - destruct df as [|row df]; [cbn; lia|]. cbn [fold_left List.length].
    destruct (scan_row_detail float_of_str str_of_float file_path card
                (mkScan false []) row) as [(E & _) | (S & _)]; [|discriminate].
    destruct (scan_rows_detail float_of_str str_of_float file_path card
                (fun _ => True) (fun _ _ _ _ _ _ => I) df
                (scan_row float_of_str str_of_float file_path card (mkScan false []) row))
      as (_ & L).
    { rewrite E. constructor. }
    rewrite E in L. cbn [transactions List.length] in L. lia.
  - intros H.
    apply (scan_rows_without_header float_of_str str_of_float file_path card df H
             (mkScan false [])). reflexivity.
Qed.

(** Extra X24.  Every transaction [parse_credit_card_statement] returns has a
    description that is neither empty nor the not-yet-posted text, the file
    path as its source file, no category, and the one card number found for
    the statement, which, when there is one, is four digits.  The result has
    fewer transactions than the sheet has rows, and none when no row is a
    section header. *)
Theorem credit_card_lines_details (float_of_str : string -> option Q)
    (str_of_float : Q -> string) (file_path : string) (df : DataFrame) :
  let result :=
    parse_credit_card_statement float_of_str str_of_float file_path df in
  (forall t, In t result ->
     description t <> "" /\ description t <> NOT_YET_POSTED /\
     source_file t = file_path /\ category t = None /\
     card_number t = find_card_number file_path df) /\
  (forall c, find_card_number file_path df = Some c -> four_digits c) /\
  (List.length result <= List.length df - 1)%nat /\
  ((forall row, In row df -> is_card_header str_of_float row = false) ->
   result = []).
Proof. apply credit_card_details_aux. Qed.

(** *** Detecting the format *)


(** ** Importing a file *)

(** Extra X26.  One turn of the loop of [cmd_import].  A file that does not
    parse leaves the store as it was.  A file that parses (and is new, or is
    forced) adds at most as many transactions as were parsed and is marked
    processed; importing it again without [--force] is skipped and leaves
    the store as it is. *)
Theorem import_once_then_skipped (float_of_str : string -> option Q)
    (str_of_float : Q -> string) (storage : Storage) (categorizer : Categorizer)
    (file_path : string) (df : DataFrame) (force : bool) :
  (parse_file float_of_str str_of_float file_path df = None ->
   import_one float_of_str str_of_float storage categorizer file_path df force
   = (0%nat, storage)) /\
  (forall parsed,
     parse_file float_of_str str_of_float file_path df = Some parsed ->
     Py.truthy file_path = true ->
     is_file_processed storage file_path = false \/ force = true ->
     let first :=
       import_one float_of_str str_of_float storage categorizer file_path df force in
     (fst first <= List.length parsed)%nat /\
     is_file_processed (snd first) file_path = true /\
     import_one float_of_str str_of_float (snd first) categorizer file_path df false
       = (0%nat, snd first)).
Proof.
  split.
  { intros P. unfold import_one. rewrite P. destruct (_ && _); reflexivity. }
  intros parsed P T G first.
  assert (E1 : first = add_transactions storage
                         (categorize_transactions categorizer parsed) (Some file_path)).
  { subst first. unfold import_one. rewrite P.
    destruct G as [-> | ->]; [reflexivity|]. rewrite andb_false_r. reflexivity. }
  assert (Pr : is_file_processed (snd first) file_path = true).
  { rewrite E1.
    apply (proj1 (processed_files_aux storage
                    (categorize_transactions categorizer parsed))); auto. }
  split; [|split; [exact Pr|]].
  - rewrite E1.
    destruct (add_transactions_appends_aux storage
                (categorize_transactions categorizer parsed) (Some file_path))
      as (kept & _ & -> & _ & L).
    unfold categorize_transactions in L. rewrite length_map in L. exact L.
  - unfold import_one. rewrite Pr. reflexivity.
Qed.

Lemma import_once_then_skipped_witness :
  import_one float_of_decimal str_of_decimal empty_storage one_override
             "reports/bank.xlsx" [[Str "בנק יהב"]] false
  = (0%nat, empty_storage) /\
  (let first :=
     import_one float_of_decimal str_of_decimal empty_storage one_override
                "statements/card_9999.xlsx" sample_sheet false in
   (fst first <= List.length sample_parse)%nat /\
   is_file_processed (snd first) "statements/card_9999.xlsx" = true /\
   import_one float_of_decimal str_of_decimal (snd first) one_override
              "statements/card_9999.xlsx" sample_sheet false
     = (0%nat, snd first)).
Proof.
  split.
  - apply (proj1 (import_once_then_skipped float_of_decimal str_of_decimal
                    empty_storage one_override "reports/bank.xlsx"
                    [[Str "בנק יהב"]] false)).
    vm_compute. reflexivity.
  - apply (proj2 (import_once_then_skipped float_of_decimal str_of_decimal
                    empty_storage one_override "statements/card_9999.xlsx"
                    sample_sheet false) sample_parse);
      [vm_compute; reflexivity | reflexivity | left; reflexivity].
Defined.

Lemma credit_card_lines_details_witness :
  (forall t, In t sample_parse ->
     description t <> "" /\ description t <> NOT_YET_POSTED /\
     source_file t = "statements/card_9999.xlsx" /\ category t = None /\
     card_number t = find_card_number "statements/card_9999.xlsx" sample_sheet) /\
  (forall c, find_card_number "statements/card_9999.xlsx" sample_sheet = Some c ->
             four_digits c) /\
  (List.length sample_parse <= List.length sample_sheet - 1)%nat /\
  ((forall row, In row sample_sheet -> is_card_header str_of_decimal row = false) ->
   sample_parse = []).
Proof.
  exact (credit_card_lines_details float_of_decimal str_of_decimal
           "statements/card_9999.xlsx" sample_sheet).
Defined.


(* ================================================================== *)
(** * Amounts that are not finite *)
(* ================================================================== *)

(** ** The exact store is the finite part *)

Lemma same_identity_of_finite (e d : TDict) :
  NonFinite.same_identity (dict_of_finite e) (dict_of_finite d)
  = same_identity e d.
Proof. reflexivity. Qed.

Lemma is_duplicate_of_finite (s : list TDict) (d : TDict) :
  NonFinite.is_duplicate (map dict_of_finite s) (dict_of_finite d)
  = is_duplicate s d.
Proof.
  unfold NonFinite.is_duplicate, is_duplicate.
  induction s as [|e s IH]; [reflexivity|].
  cbn [map existsb]. rewrite IH, same_identity_of_finite. reflexivity.
Qed.

Lemma fold_add_one_of_finite (l : list Transaction) :
  forall s n,
    fold_left NonFinite.add_one (map of_finite l) (map dict_of_finite s, n)
    = (map dict_of_finite (fst (fold_left add_one l (s, n))),
       snd (fold_left add_one l (s, n))).
Proof.
  induction l as [|t l IH]; intros s n; [reflexivity|].
  cbn [map fold_left]. unfold NonFinite.add_one at 2, add_one at 2 4.
  cbn [fst snd].
  change (NonFinite.to_dict (of_finite t)) with (dict_of_finite (to_dict t)).
  rewrite is_duplicate_of_finite.
  destruct (is_duplicate s (to_dict t)); [apply IH|].
  rewrite <- IH, map_app. reflexivity.
Qed.

Lemma mark_file_processed_of_finite (st : Storage) (f : string) :
  NonFinite.mark_file_processed (storage_of_finite st) f
  = storage_of_finite (mark_file_processed st f).
Proof.
  unfold NonFinite.mark_file_processed, mark_file_processed.
  cbn [NonFinite._processed_files storage_of_finite].
  destruct (negb _); reflexivity.
Qed.

(** On amounts that are all finite the two embeddings of [add_transactions]
    return the same count and the same store. *)
Lemma add_transactions_of_finite (st : Storage) (l : list Transaction)
    (sf : option string) :
  NonFinite.add_transactions (storage_of_finite st) (map of_finite l) sf
  = (fst (add_transactions st l sf),
     storage_of_finite (snd (add_transactions st l sf))).
Proof.
  unfold NonFinite.add_transactions, add_transactions.
  cbn [NonFinite._transactions NonFinite._processed_files
       NonFinite.transactions_file NonFinite.processed_files_file
       storage_of_finite fst snd].
  rewrite fold_add_one_of_finite. cbn [fst snd].
  destruct (fold_left add_one l (_transactions st, 0%nat)) as [s n].
  cbn [fst snd]. f_equal.
  destruct sf as [f|]; [destruct (Py.truthy f)|];
    destruct (0 <? n)%nat;
    rewrite <- ?mark_file_processed_of_finite; reflexivity.
Qed.

(** ** Adding the same list twice *)

Lemma nonfinite_same_identity_refl (d : NonFinite.TDict) :
  NonFinite.isfinite (NonFinite.d_amount d) = true ->
  NonFinite.same_identity d d = true.
Proof.
  unfold NonFinite.same_identity.
  rewrite opt_string_eqb_refl, String.eqb_refl. cbn [andb].
  destruct (NonFinite.d_amount d) as [q| |]; try discriminate. intros _.
  cbn [NonFinite.sub NonFinite.abs NonFinite.ltb].
  apply Qltb_lt.
  assert (E : (Qabs (q - q) == 0)%Q).
  { setoid_replace (q - q)%Q with 0%Q by ring. reflexivity. }
  rewrite E. reflexivity.
Qed.

(** An amount that is not finite is no duplicate of anything, itself
    included. *)
Lemma nonfinite_never_matches (e d : NonFinite.TDict) :
  NonFinite.isfinite (NonFinite.d_amount d) = false ->
  NonFinite.same_identity e d = false.
Proof.
  unfold NonFinite.same_identity. intros H.
  destruct (NonFinite.d_amount d) as [q|s|]; try discriminate;
    destruct (NonFinite.d_amount e) as [q'|s'|];
    cbn [NonFinite.sub NonFinite.abs NonFinite.ltb];
    rewrite ?andb_false_r; try reflexivity.
  destruct (Bool.eqb s' s); cbn [NonFinite.abs NonFinite.ltb negb];
    rewrite ?andb_false_r; reflexivity.
Qed.

Lemma nonfinite_is_duplicate_app (s x : list NonFinite.TDict) (d : NonFinite.TDict) :
  NonFinite.is_duplicate (s ++ x) d
  = NonFinite.is_duplicate s d || NonFinite.is_duplicate x d.
Proof. unfold NonFinite.is_duplicate. apply existsb_app. Qed.

(** The loop only appends, and afterwards every incoming record with a finite
    amount has a duplicate in the store. *)
Lemma nonfinite_fold_add_one_appends (l : list NonFinite.Transaction) :
  forall s n, exists added,
    fold_left NonFinite.add_one l (s, n)
      = (s ++ added, (n + List.length added)%nat) /\
    (forall t, In t l -> NonFinite.isfinite (NonFinite.amount t) = true ->
       NonFinite.is_duplicate (s ++ added) (NonFinite.to_dict t) = true).
Proof.
  induction l as [|t l IH]; intros s n.
  - exists []. rewrite app_nil_r, Nat.add_0_r. split; [reflexivity | intros ? []].
  - cbn [fold_left]. unfold NonFinite.add_one at 2. cbn [fst snd].
    destruct (NonFinite.is_duplicate s (NonFinite.to_dict t)) eqn:D.
    + destruct (IH s n) as (added & E & A). exists added. split; [exact E|].
      intros t' [<- | H] F; [|auto].
      rewrite nonfinite_is_duplicate_app, D. reflexivity.
    + destruct (IH (s ++ [NonFinite.to_dict t]) (S n)) as (added & E & A).
      exists (NonFinite.to_dict t :: added).
      replace (s ++ NonFinite.to_dict t :: added)
        with ((s ++ [NonFinite.to_dict t]) ++ added)
        by (rewrite <- app_assoc; reflexivity).
      split.
      * rewrite E. f_equal. cbn [List.length]. lia.
      * intros t' [<- | H] F; [|auto].
        rewrite !nonfinite_is_duplicate_app.
        unfold NonFinite.is_duplicate at 2. cbn [existsb].
        rewrite (nonfinite_same_identity_refl (NonFinite.to_dict t) F).
        rewrite orb_true_r. reflexivity.
Qed.

(** When every incoming record already has a duplicate, nothing changes. *)
Lemma nonfinite_fold_add_one_all_duplicates (l : list NonFinite.Transaction)
    (s : list NonFinite.TDict) (n : nat) :
  (forall t, In t l -> NonFinite.is_duplicate s (NonFinite.to_dict t) = true) ->
  fold_left NonFinite.add_one l (s, n) = (s, n).
Proof.
  induction l as [|t l IH]; intros H; [reflexivity|].
  cbn [fold_left]. unfold NonFinite.add_one at 2. cbn [fst].
  rewrite (H t (or_introl eq_refl)). apply IH. intros; apply H; right; assumption.
Qed.

Lemma nonfinite_mark_file_processed_transactions (st : NonFinite.Storage)
    (f : string) :
  NonFinite._transactions (NonFinite.mark_file_processed st f)
  = NonFinite._transactions st.
Proof. unfold NonFinite.mark_file_processed. destruct (negb _); reflexivity. Qed.

Lemma nonfinite_add_transactions_count (st : NonFinite.Storage) l sf :
  fst (NonFinite.add_transactions st l sf)
  = snd (fold_left NonFinite.add_one l (NonFinite._transactions st, 0%nat)).
Proof. reflexivity. Qed.

Lemma nonfinite_add_transactions_stored (st : NonFinite.Storage) l sf :
  NonFinite._transactions (snd (NonFinite.add_transactions st l sf))
  = fst (fold_left NonFinite.add_one l (NonFinite._transactions st, 0%nat)).
Proof.
  unfold NonFinite.add_transactions. cbn [snd].
  destruct sf as [f|]; [destruct (Py.truthy f)|];
    rewrite ?nonfinite_mark_file_processed_transactions;
    destruct (0 <? _)%nat; reflexivity.
Qed.

(** Against C7 as stated: a transaction whose amount is infinite, added twice
    to an empty store, is added both times.  The second call returns 1, not
    0, and the store holds two records instead of one. *)
Lemma C7_counterexample :
  let first :=
    NonFinite.add_transactions NonFinite.empty_storage [overflowed_charge] None in
  let second :=
    NonFinite.add_transactions (snd first) [overflowed_charge] None in
  fst first = 1%nat /\
  fst second = 1%nat /\
  fst second <> 0%nat /\
  NonFinite._transactions (snd first) = [NonFinite.to_dict overflowed_charge] /\
  NonFinite._transactions (snd second)
  = [NonFinite.to_dict overflowed_charge; NonFinite.to_dict overflowed_charge] /\
  NonFinite._transactions (snd second) <> NonFinite._transactions (snd first).
Proof.
  cbv zeta.
  assert (E1 : NonFinite.add_transactions NonFinite.empty_storage
                 [overflowed_charge] None
               = (1%nat, NonFinite.mkStorage [NonFinite.to_dict overflowed_charge] []
                           [NonFinite.to_dict overflowed_charge] [])).
  { reflexivity. }
  rewrite E1. cbn [fst snd NonFinite._transactions].
  assert (E2 : NonFinite.add_transactions
                 (NonFinite.mkStorage [NonFinite.to_dict overflowed_charge] []
                    [NonFinite.to_dict overflowed_charge] [])
                 [overflowed_charge] None
               = (1%nat,
                  NonFinite.mkStorage
                    [NonFinite.to_dict overflowed_charge;
                     NonFinite.to_dict overflowed_charge] []
                    [NonFinite.to_dict overflowed_charge;
                     NonFinite.to_dict overflowed_charge] [])).
  { unfold NonFinite.add_transactions.
    cbn [fold_left NonFinite._transactions]. unfold NonFinite.add_one.
    cbn [fst snd]. unfold NonFinite.is_duplicate. cbn [existsb].
    rewrite nonfinite_never_matches by reflexivity. reflexivity. }
  rewrite E2. cbn [fst snd NonFinite._transactions].
  repeat split; discriminate.
Qed.

(** Claim C7, amended.  When every amount of the list is a finite number,
    calling [add_transactions] twice in succession with the same list, on any
    store (whatever amounts it holds) and with any [source_file] arguments,
    returns 0 the second time and leaves the stored transactions as the
    first call left them. *)
Theorem C7_second_add_of_finite_amounts_adds_nothing
    (st : NonFinite.Storage) (L : list NonFinite.Transaction)
    (source_file1 source_file2 : option string) :
  NonFinite.all_finite L = true ->
  let first := NonFinite.add_transactions st L source_file1 in
  let second := NonFinite.add_transactions (snd first) L source_file2 in
  fst second = 0%nat /\
  NonFinite._transactions (snd second) = NonFinite._transactions (snd first).
Proof.
  intros F first second. subst second.
  rewrite nonfinite_add_transactions_count, nonfinite_add_transactions_stored.
  subst first. rewrite nonfinite_add_transactions_stored.
  destruct (nonfinite_fold_add_one_appends L (NonFinite._transactions st) 0)
    as (added & E & A).
  rewrite E. cbn [fst].
  rewrite nonfinite_fold_add_one_all_duplicates; [split; reflexivity|].
  intros t H. apply A; [exact H|].
  unfold NonFinite.all_finite in F. rewrite forallb_forall in F. apply F, H.
Qed.

Lemma C7_witness :
  NonFinite.all_finite [of_finite near_a; of_finite salary; of_finite near_b] = true /\
  (let first :=
     NonFinite.add_transactions stale_store
       [of_finite near_a; of_finite salary; of_finite near_b] (Some "january.xlsx") in
   let second :=
     NonFinite.add_transactions (snd first)
       [of_finite near_a; of_finite salary; of_finite near_b] None in
   fst second = 0%nat /\
   NonFinite._transactions (snd second) = NonFinite._transactions (snd first)).
Proof.
  split; [reflexivity|].
  apply (C7_second_add_of_finite_amounts_adds_nothing stale_store
           [of_finite near_a; of_finite salary; of_finite near_b]
           (Some "january.xlsx") None).
  reflexivity.
Defined.
